(** * experiment-app-api: the experiment REST backend

    A shallow embedding of [app/experiment/serializers.py],
    [app/experiment/views.py] and
    [app/core/management/commands/wait_for_db.py].

    The relational store is a record of tables (lists of rows in insertion
    order), the many-to-many relations are join tables of id pairs, and
    Python code that talks to the store is written in a state monad whose
    exceptions keep the state reached so far (a raised exception does not
    undo the statements already executed). *)

From Stdlib Require Import ZArith List String Bool Lia.
From Stdlib Require Import Sorting.Sorted Sorting.Permutation.
Import ListNotations.

Open Scope Z_scope.

(* ------------------------------------------------------------------ *)
(** ** core.models *)

Module Models.

(** Modelled from the spec: [core/models.py] is not part of the sources at
    hand.  A user is identified by its primary key. *)
Definition UserId := Z.

(** Modelled from the spec: the price is a decimal with two places; it is
    kept as the number of hundredths. *)
Definition Decimal := Z.

(** Modelled from the spec: the [Experiment] model of [core/models.py]:
    title, time estimate, price, link, description and the owning user. *)
Record Experiment := mkExperiment {
  exp_id : Z;
  exp_user : UserId;
  exp_title : string;
  exp_time_minutes : Z;
  exp_price : Decimal;
  exp_link : string;
  exp_description : string
}.

(** Modelled from the spec: the [Tag] and [Ingredient] models of
    [core/models.py]: a name and the owning user, no uniqueness constraint
    on (owner, name). *)
Record Attr := mkAttr {
  attr_id : Z;
  attr_user : UserId;
  attr_name : string
}.

(** The two attribute models; they have the same columns. *)
Inductive AttrModel := Tag | Ingredient.

End Models.
Export Models.

(* ------------------------------------------------------------------ *)
(** ** The object-relational layer *)

Module Orm.

(** The statements sent to the database, in the order they are executed. *)
Inductive Query :=
| QInsertExperiment (pk : Z)
| QUpdateExperiment (pk : Z)
| QDeleteExperiment (pk : Z)
| QSelectExperiment (pk : Z)
| QSelectAttr (m : AttrModel) (u : UserId) (name : string)
| QSelectAttrPk (m : AttrModel) (pk : Z)
| QListExperiments (u : UserId)
| QListAttrs (m : AttrModel) (u : UserId)
| QInsertAttr (m : AttrModel) (pk : Z)
| QUpdateAttr (m : AttrModel) (pk : Z)
| QDeleteAttr (m : AttrModel) (pk : Z)
| QInsertLink (m : AttrModel) (experiment_pk attr_pk : Z)
| QClearLinks (m : AttrModel) (experiment_pk : Z).

(** The store: one table per model, one join table per many-to-many
    relation (pairs [(experiment id, attribute id)]), the primary-key
    sequences, and the statement log. *)
Record DB := mkDB {
  experiment_rows : list Experiment;
  tag_rows : list Attr;
  ingredient_rows : list Attr;
  experiment_tags : list (Z * Z);
  experiment_ingredients : list (Z * Z);
  experiment_seq : Z;
  tag_seq : Z;
  ingredient_seq : Z;
  queries : list Query
}.

Definition empty_db : DB := mkDB [] [] [] [] [] 1 1 1 [].

(** Everything of the store except the statement log. *)
Definition data (db : DB) :=
  (experiment_rows db, tag_rows db, ingredient_rows db,
   experiment_tags db, experiment_ingredients db,
   (experiment_seq db, tag_seq db, ingredient_seq db)).

Definition attr_rows (m : AttrModel) (db : DB) : list Attr :=
  match m with Tag => tag_rows db | Ingredient => ingredient_rows db end.

Definition links (m : AttrModel) (db : DB) : list (Z * Z) :=
  match m with
  | Tag => experiment_tags db
  | Ingredient => experiment_ingredients db
  end.

Definition attr_seq (m : AttrModel) (db : DB) : Z :=
  match m with Tag => tag_seq db | Ingredient => ingredient_seq db end.

Definition set_experiment_rows (rows : list Experiment) (db : DB) : DB :=
  mkDB rows (tag_rows db) (ingredient_rows db) (experiment_tags db)
       (experiment_ingredients db) (experiment_seq db) (tag_seq db)
       (ingredient_seq db) (queries db).

Definition set_experiment_seq (n : Z) (db : DB) : DB :=
  mkDB (experiment_rows db) (tag_rows db) (ingredient_rows db)
       (experiment_tags db) (experiment_ingredients db) n (tag_seq db)
       (ingredient_seq db) (queries db).

Definition set_attr_rows (m : AttrModel) (rows : list Attr) (db : DB) : DB :=
  match m with
  | Tag =>
      mkDB (experiment_rows db) rows (ingredient_rows db) (experiment_tags db)
           (experiment_ingredients db) (experiment_seq db) (tag_seq db)
           (ingredient_seq db) (queries db)
  | Ingredient =>
      mkDB (experiment_rows db) (tag_rows db) rows (experiment_tags db)
           (experiment_ingredients db) (experiment_seq db) (tag_seq db)
           (ingredient_seq db) (queries db)
  end.

Definition set_attr_seq (m : AttrModel) (n : Z) (db : DB) : DB :=
  match m with
  | Tag =>
      mkDB (experiment_rows db) (tag_rows db) (ingredient_rows db)
           (experiment_tags db) (experiment_ingredients db)
           (experiment_seq db) n (ingredient_seq db) (queries db)
  | Ingredient =>
      mkDB (experiment_rows db) (tag_rows db) (ingredient_rows db)
           (experiment_tags db) (experiment_ingredients db)
           (experiment_seq db) (tag_seq db) n (queries db)
  end.

Definition set_links (m : AttrModel) (l : list (Z * Z)) (db : DB) : DB :=
  match m with
  | Tag =>
      mkDB (experiment_rows db) (tag_rows db) (ingredient_rows db) l
           (experiment_ingredients db) (experiment_seq db) (tag_seq db)
           (ingredient_seq db) (queries db)
  | Ingredient =>
      mkDB (experiment_rows db) (tag_rows db) (ingredient_rows db)
           (experiment_tags db) l (experiment_seq db) (tag_seq db)
           (ingredient_seq db) (queries db)
  end.

Definition log_query (q : Query) (db : DB) : DB :=
  mkDB (experiment_rows db) (tag_rows db) (ingredient_rows db)
       (experiment_tags db) (experiment_ingredients db) (experiment_seq db)
       (tag_seq db) (ingredient_seq db) (queries db ++ [q]).

(** Exceptions raised by the layer and by the request handlers. *)
Inductive Exn :=
| DoesNotExist
| MultipleObjectsReturned
| IntegrityError
| Http404
| ValidationError.

(** Code that runs against the store: it returns the store it leaves behind
    together with a value or the exception it raised. *)
Definition M (A : Type) : Type := DB -> DB * (Exn + A).

Definition ret {A} (a : A) : M A := fun db => (db, inr a).

Definition raise {A} (e : Exn) : M A := fun db => (db, inl e).

Definition bind {A B} (c : M A) (k : A -> M B) : M B :=
  fun db =>
    match c db with
    | (db1, inr a) => k a db1
    | (db1, inl e) => (db1, inl e)
    end.

(** [try: c except e: h]. *)
Definition try_except {A} (c : M A) (e : Exn -> bool) (h : M A) : M A :=
  fun db =>
    match c db with
    | (db1, inl x) => if e x then h db1 else (db1, inl x)
    | r => r
    end.

Definition execute (q : Query) (f : DB -> DB) : M unit :=
  fun db => (f (log_query q db), inr tt).

Declare Scope orm_scope.
Delimit Scope orm_scope with orm.
Notation "x <- c ;; k" := (bind c (fun x => k))
  (at level 100, c at next level, right associativity) : orm_scope.
Notation "c ;; k" := (bind c (fun _ => k))
  (at level 100, right associativity) : orm_scope.
Open Scope orm_scope.

(** [for x in l: body(x)]. *)
Fixpoint for_each {A} (l : list A) (body : A -> M unit) : M unit :=
  match l with
  | [] => ret tt
  | x :: xs => body x ;; for_each xs body
  end.

Definition is_DoesNotExist (e : Exn) : bool :=
  match e with DoesNotExist => true | _ => false end.

(** *** Experiment manager *)

(** [get()] on the rows a lookup selected. *)
Definition get_one {A} (rows : list A) : Exn + A :=
  match rows with
  | [] => inl DoesNotExist
  | [r] => inr r
  | _ :: _ :: _ => inl MultipleObjectsReturned
  end.

(** The keyword arguments [**validated_data] of an experiment: a column is
    [None] when the dictionary has no such key. *)
Record ExperimentKwargs := mkKwargs {
  k_user : option UserId;
  k_title : option string;
  k_time_minutes : option Z;
  k_price : option Decimal;
  k_link : option string;
  k_description : option string
}.

Definition or_default {A} (o : option A) (d : A) : A :=
  match o with Some a => a | None => d end.

(** [Experiment.objects.create] on keyword arguments: the row gets the next
    value of the primary-key sequence.  Modelled from the spec: the owner,
    the time estimate and the price are required columns ([IntegrityError]
    without them), the text columns default to the empty string. *)
Definition Experiment_create (kw : ExperimentKwargs) : M Experiment :=
  fun db =>
    let db1 := log_query (QInsertExperiment (experiment_seq db)) db in
    match k_user kw, k_time_minutes kw, k_price kw with
    | Some user, Some time_minutes, Some price =>
        let pk := experiment_seq db in
        let row :=
          mkExperiment pk user (or_default (k_title kw) EmptyString)
            time_minutes price (or_default (k_link kw) EmptyString)
            (or_default (k_description kw) EmptyString) in
        (set_experiment_seq (pk + 1)
           (set_experiment_rows (experiment_rows db ++ [row]) db1),
         inr row)
    | _, _, _ => (db1, inl IntegrityError)
    end.

(** [queryset.get(pk=pk)] on a set of experiments. *)
Definition Experiment_get (queryset : list Experiment) (pk : Z) : M Experiment :=
  fun db =>
    (log_query (QSelectExperiment pk) db,
     get_one (filter (fun r => exp_id r =? pk) queryset)).

(** [instance.save()] of an instance that came from the table: an UPDATE of
    the row with the instance's primary key. *)
Definition Experiment_save (instance : Experiment) : M unit :=
  execute (QUpdateExperiment (exp_id instance))
    (fun db =>
       set_experiment_rows
         (map (fun r => if exp_id r =? exp_id instance then instance else r)
              (experiment_rows db)) db).

(** [instance.delete()]: the row goes, and with it its rows in the two join
    tables. *)
Definition Experiment_delete (instance : Experiment) : M unit :=
  execute (QDeleteExperiment (exp_id instance))
    (fun db =>
       let keep (p : Z * Z) := negb (fst p =? exp_id instance) in
       set_links Tag (filter keep (links Tag db))
         (set_links Ingredient (filter keep (links Ingredient db))
            (set_experiment_rows
               (filter (fun r => negb (exp_id r =? exp_id instance))
                       (experiment_rows db)) db))).

(** *** Attribute managers *)

Definition attr_matches (u : UserId) (name : string) (r : Attr) : bool :=
  (attr_user r =? u) && String.eqb (attr_name r) name.

(** [Model.objects.get(user=u, name=name)]. *)
Definition Attr_get (m : AttrModel) (u : UserId) (name : string) : M Attr :=
  fun db =>
    (log_query (QSelectAttr m u name) db,
     get_one (filter (attr_matches u name) (attr_rows m db))).

(** [queryset.get(pk=pk)] on a set of attributes. *)
Definition Attr_get_pk (m : AttrModel) (queryset : list Attr) (pk : Z) : M Attr :=
  fun db =>
    (log_query (QSelectAttrPk m pk) db,
     get_one (filter (fun r => attr_id r =? pk) queryset)).

(** [Model.objects.create(user=u, name=name)]. *)
Definition Attr_create (m : AttrModel) (u : UserId) (name : string) : M Attr :=
  fun db =>
    let pk := attr_seq m db in
    let row := mkAttr pk u name in
    (set_attr_seq m (pk + 1)
       (set_attr_rows m (attr_rows m db ++ [row])
          (log_query (QInsertAttr m pk) db)),
     inr row).

(** [Model.objects.get_or_create(user=u, name=name)]: the object found by
    [get], or a new one when [get] raises [DoesNotExist]; the flag tells
    whether the object was created. *)
Definition Attr_get_or_create (m : AttrModel) (u : UserId) (name : string)
  : M (Attr * bool) :=
  try_except
    (r <- Attr_get m u name ;; ret (r, false))
    is_DoesNotExist
    (r <- Attr_create m u name ;; ret (r, true)).

(** [instance.save()] of an attribute. *)
Definition Attr_save (m : AttrModel) (instance : Attr) : M unit :=
  execute (QUpdateAttr m (attr_id instance))
    (fun db =>
       set_attr_rows m
         (map (fun r => if attr_id r =? attr_id instance then instance else r)
              (attr_rows m db)) db).

(** [instance.delete()] of an attribute: its join rows go with it. *)
Definition Attr_delete (m : AttrModel) (instance : Attr) : M unit :=
  execute (QDeleteAttr m (attr_id instance))
    (fun db =>
       set_links m
         (filter (fun p => negb (snd p =? attr_id instance)) (links m db))
         (set_attr_rows m
            (filter (fun r => negb (attr_id r =? attr_id instance))
                    (attr_rows m db)) db)).

(** *** Related managers of the many-to-many fields *)

Definition pair_eqb (p q : Z * Z) : bool :=
  (fst p =? fst q) && (snd p =? snd q).

(** [experiment.tags.add(obj)] / [experiment.ingredients.add(obj)]: the pair
    is inserted unless the join table already holds it. *)
Definition related_add (m : AttrModel) (experiment : Experiment) (obj : Attr)
  : M unit :=
  fun db =>
    let p := (exp_id experiment, attr_id obj) in
    if existsb (pair_eqb p) (links m db)
    then (db, inr tt)
    else (set_links m (links m db ++ [p])
            (log_query (QInsertLink m (fst p) (snd p)) db), inr tt).

(** [experiment.tags.clear()] / [experiment.ingredients.clear()]: the join
    rows of this experiment are deleted; the attribute tables are not
    touched. *)
Definition related_clear (m : AttrModel) (experiment : Experiment) : M unit :=
  execute (QClearLinks m (exp_id experiment))
    (fun db =>
       set_links m
         (filter (fun p => negb (fst p =? exp_id experiment)) (links m db))
         db).

(** *** Query sets *)

(** Insertion into a list sorted for [le]. *)
Fixpoint insert_sorted {A} (le : A -> A -> bool) (x : A) (l : list A) : list A :=
  match l with
  | [] => [x]
  | y :: ys => if le x y then x :: l else y :: insert_sorted le x ys
  end.

(** [ORDER BY]: the rows sorted for [le]. *)
Fixpoint order_by {A} (le : A -> A -> bool) (l : list A) : list A :=
  match l with
  | [] => []
  | x :: xs => insert_sorted le x (order_by le xs)
  end.

(** [order_by('-id')] on experiments. *)
Definition desc_id (a b : Experiment) : bool := exp_id b <=? exp_id a.

(** [order_by('-name')] on attributes. *)
Definition desc_name (a b : Attr) : bool :=
  String.leb (attr_name b) (attr_name a).

End Orm.
Export Orm.

(* ------------------------------------------------------------------ *)
(** ** rest_framework: requests, validation, generic views *)

Module RestFramework.

(** The authenticated request: the requester and the query string. *)
Record Request := mkRequest {
  user : UserId;
  query_params : list (string * string)
}.

(** One validated item of a [TagSerializer(many=True)] or
    [IngredientSerializer(many=True)] field: [{'name': ...}] (the [id] field
    is read-only and never part of it). *)
Record descriptor := mkDescriptor { d_name : string }.

(** [validated_data] of the experiment serializers. *)
Record ValidatedData := mkValidated {
  v_fields : ExperimentKwargs;
  v_tags : option (list descriptor);
  v_ingredients : option (list descriptor)
}.

(** The parsed body of a write request on an experiment (a JSON object): a
    field is [None] when the body has no such key.  A client may send keys
    that are no writable field of the serializer ([id], [user]). *)
Record Payload := mkPayload {
  p_id : option Z;
  p_user : option UserId;
  p_title : option string;
  p_time_minutes : option Z;
  p_price : option Decimal;
  p_link : option string;
  p_description : option string;
  p_tags : option (list descriptor);
  p_ingredients : option (list descriptor)
}.

Definition is_some {A} (o : option A) : bool :=
  match o with Some _ => true | None => false end.

(** [serializer.is_valid(raise_exception=True)] for
    [ExperimentDetailSerializer]: only the fields of [Meta.fields] that are
    writable reach [validated_data] (so neither [id] nor [user]); without
    [partial], the required fields must be there. *)
Definition validate (partial : bool) (p : Payload) : Exn + ValidatedData :=
  if partial
     || (is_some (p_title p) && is_some (p_time_minutes p)
         && is_some (p_price p))
  then inr (mkValidated
              (mkKwargs None (p_title p) (p_time_minutes p) (p_price p)
                        (p_link p) (p_description p))
              (p_tags p) (p_ingredients p))
  else inl ValidationError.

(** [serializer.save(user=...)] merges its keyword arguments into
    [validated_data]. *)
Definition with_user (u : UserId) (vd : ValidatedData) : ValidatedData :=
  let kw := v_fields vd in
  mkValidated
    (mkKwargs (Some u) (k_title kw) (k_time_minutes kw) (k_price kw)
              (k_link kw) (k_description kw))
    (v_tags vd) (v_ingredients vd).

Definition lift {A} (r : Exn + A) : M A := fun db => (db, r).

(** [get_object_or_404]. *)
Definition or_404 {A} (c : M A) : M A :=
  try_except c is_DoesNotExist (raise Http404).

(** The status code of a response. *)
Definition status_code {A} (success : Z) (r : Exn + A) : Z :=
  match r with
  | inr _ => success
  | inl Http404 => 404
  | inl ValidationError => 400
  | inl _ => 500
  end.

End RestFramework.
Export RestFramework.

(* ------------------------------------------------------------------ *)
(** ** experiment/serializers.py *)

Module ExperimentDetailSerializer.

Section WithContext.

(** [self.context['request']]. *)
Variable request : Request.

(** Handle getting or creating tags as needed. *)
Definition _get_or_create_tags (tags : list descriptor)
    (experiment : Experiment) : M unit :=
  let auth_user := user request in
  for_each tags (fun tag =>
    r <- Attr_get_or_create Tag auth_user (d_name tag) ;;
    let tag_obj := fst r in
    related_add Tag experiment tag_obj).

(** Handle getting or creating ingredients as needed. *)
Definition _get_or_create_ingredients (ingredients : list descriptor)
    (experiment : Experiment) : M unit :=
  let auth_user := user request in
  for_each ingredients (fun ingredient =>
    r <- Attr_get_or_create Ingredient auth_user (d_name ingredient) ;;
    let ingredient_obj := fst r in
    related_add Ingredient experiment ingredient_obj).

(** Create an experiment. *)
Definition create (validated_data : ValidatedData) : M Experiment :=
  let tags := or_default (v_tags validated_data) [] in
  let ingredients := or_default (v_ingredients validated_data) [] in
  experiment <- Experiment_create (v_fields validated_data) ;;
  _get_or_create_tags tags experiment ;;
  _get_or_create_ingredients ingredients experiment ;;
  ret experiment.

(** [for attr, value in validated_data.items(): setattr(instance, attr,
    value)]. *)
Definition setattrs (kw : ExperimentKwargs) (instance : Experiment)
  : Experiment :=
  mkExperiment (exp_id instance)
    (or_default (k_user kw) (exp_user instance))
    (or_default (k_title kw) (exp_title instance))
    (or_default (k_time_minutes kw) (exp_time_minutes instance))
    (or_default (k_price kw) (exp_price instance))
    (or_default (k_link kw) (exp_link instance))
    (or_default (k_description kw) (exp_description instance)).

(** Update an experiment. *)
Definition update (instance : Experiment) (validated_data : ValidatedData)
  : M Experiment :=
  let tags := v_tags validated_data in
  let ingredients := v_ingredients validated_data in
  match tags with
  | Some tags =>
      related_clear Tag instance ;;
      _get_or_create_tags tags instance
  | None => ret tt
  end ;;
  match ingredients with
  | Some ingredients =>
      related_clear Ingredient instance ;;
      _get_or_create_ingredients ingredients instance
  | None => ret tt
  end ;;
  let instance := setattrs (v_fields validated_data) instance in
  Experiment_save instance ;;
  ret instance.

End WithContext.

End ExperimentDetailSerializer.

(** [TagSerializer] and [IngredientSerializer] are plain model serializers
    with the fields [id] (read-only) and [name]. *)
Module AttrSerializer.

(** The body of a write request on a tag or an ingredient. *)
Record Payload := mkPayload {
  p_id : option Z;
  p_name : option string
}.

(** [is_valid]: [name] is required unless the update is partial; the
    validated data is the name, when given. *)
Definition validate (partial : bool) (p : Payload) : Exn + option string :=
  if partial || is_some (p_name p) then inr (p_name p) else inl ValidationError.

(** [ModelSerializer.update]: set the validated fields, save. *)
Definition update (m : AttrModel) (instance : Attr)
    (validated_data : option string) : M Attr :=
  let instance :=
    mkAttr (attr_id instance) (attr_user instance)
           (or_default validated_data (attr_name instance)) in
  Attr_save m instance ;;
  ret instance.

End AttrSerializer.

(* ------------------------------------------------------------------ *)
(** ** experiment/views.py *)

Module ExperimentViewSet.

(** [queryset = Experiment.objects.all()]. *)
Definition queryset (db : DB) : list Experiment := experiment_rows db.

(** Retrieve experiments for authenticated user. *)
Definition get_queryset (request : Request) (db : DB) : list Experiment :=
  order_by desc_id
    (filter (fun r => exp_user r =? user request) (queryset db)).

(** Create a new experiment: [serializer.save(user=self.request.user)]. *)
Definition perform_create (request : Request) (validated_data : ValidatedData)
  : M Experiment :=
  ExperimentDetailSerializer.create request
    (with_user (user request) validated_data).

(** [get_object] of the generic view: the object of the view's query set
    with this primary key, or [Http404]. *)
Definition get_object (request : Request) (pk : Z) : M Experiment :=
  fun db => or_404 (Experiment_get (get_queryset request db) pk) db.

(** GET on the collection. *)
Definition list (request : Request) : M (list Experiment) :=
  fun db =>
    (log_query (QListExperiments (user request)) db,
     inr (get_queryset request db)).

(** POST on the collection. *)
Definition create (request : Request) (payload : Payload) : M Experiment :=
  validated_data <- lift (validate false payload) ;;
  perform_create request validated_data.

(** GET on one object. *)
Definition retrieve (request : Request) (pk : Z) : M Experiment :=
  get_object request pk.

(** PUT ([partial = false]) and PATCH ([partial = true]) on one object. *)
Definition update (request : Request) (pk : Z) (partial : bool)
    (payload : Payload) : M Experiment :=
  instance <- get_object request pk ;;
  validated_data <- lift (validate partial payload) ;;
  ExperimentDetailSerializer.update request instance validated_data.

(** DELETE on one object. *)
Definition destroy (request : Request) (pk : Z) : M unit :=
  instance <- get_object request pk ;;
  Experiment_delete instance.

End ExperimentViewSet.

(** Base viewset for experiment attributes; [TagViewSet] and
    [IngredientViewSet] instantiate its [queryset] with [Tag.objects.all()]
    and [Ingredient.objects.all()].  It mixes in update, destroy and list
    (no retrieve, no create). *)
Module BaseExperimentAttrViewSet.

Section WithModel.

Variable model : AttrModel.

Definition queryset (db : DB) : list Attr := attr_rows model db.

(** Filter queryset to authenticated user. *)
Definition get_queryset (request : Request) (db : DB) : list Attr :=
  order_by desc_name
    (filter (fun r => attr_user r =? user request) (queryset db)).

Definition get_object (request : Request) (pk : Z) : M Attr :=
  fun db => or_404 (Attr_get_pk model (get_queryset request db) pk) db.

(** GET on the collection. *)
Definition list (request : Request) : M (list Attr) :=
  fun db =>
    (log_query (QListAttrs model (user request)) db,
     inr (get_queryset request db)).

(** PUT and PATCH on one object. *)
Definition update (request : Request) (pk : Z) (partial : bool)
    (payload : AttrSerializer.Payload) : M Attr :=
  instance <- get_object request pk ;;
  validated_data <- lift (AttrSerializer.validate partial payload) ;;
  AttrSerializer.update model instance validated_data.

(** DELETE on one object. *)
Definition destroy (request : Request) (pk : Z) : M unit :=
  instance <- get_object request pk ;;
  Attr_delete model instance.

End WithModel.

End BaseExperimentAttrViewSet.

Module TagViewSet.
Definition get_queryset := BaseExperimentAttrViewSet.get_queryset Tag.
Definition list := BaseExperimentAttrViewSet.list Tag.
Definition update := BaseExperimentAttrViewSet.update Tag.
Definition destroy := BaseExperimentAttrViewSet.destroy Tag.
End TagViewSet.

Module IngredientViewSet.
Definition get_queryset := BaseExperimentAttrViewSet.get_queryset Ingredient.
Definition list := BaseExperimentAttrViewSet.list Ingredient.
Definition update := BaseExperimentAttrViewSet.update Ingredient.
Definition destroy := BaseExperimentAttrViewSet.destroy Ingredient.
End IngredientViewSet.

(* ------------------------------------------------------------------ *)
(** ** core/management/commands/wait_for_db.py *)

Module WaitForDb.

(** The exceptions [self.check] may raise. *)
Inductive Exception :=
| Psychopg20pError
| OperationalError
| OtherException (name : string).

(** What one call of [self.check(databases=['default'])] does. *)
Inductive CheckOutcome :=
| Passes
| Raises (e : Exception).

(** What the command does to the outside: lines written to [stdout] and
    calls of [time.sleep]. *)
Inductive Effect :=
| Stdout_write (line : string)
| Sleep (seconds : Z).

(** How [handle] ends. *)
Inductive Completion :=
| Returned
| Propagated (e : Exception).

(** [except (Psychopg20pError, OperationalError)]. *)
Definition caught (e : Exception) : bool :=
  match e with
  | Psychopg20pError | OperationalError => true
  | OtherException _ => false
  end.

Definition unavailable : list Effect :=
  [Stdout_write "Databse unvailable, waiting 1 second..."; Sleep 1].

(** The [while db_up is False] loop; [check k] is the outcome of the call
    number [k] of [self.check], [n] counts the calls made so far.  [None]
    when the fuel does not suffice to reach the end of the loop. *)
Fixpoint while_db_down (fuel : nat) (check : nat -> CheckOutcome) (n : nat)
    (trace : list Effect) : option (Completion * list Effect) :=
  match fuel with
  | O => None
  | S fuel' =>
      match check n with
      | Passes => Some (Returned, trace ++ [Stdout_write "Database available"])
      | Raises e =>
          if caught e
          then while_db_down fuel' check (S n) (trace ++ unavailable)
          else Some (Propagated e, trace)
      end
  end.

(** Entrypoint for command. *)
Definition handle (fuel : nat) (check : nat -> CheckOutcome)
  : option (Completion * list Effect) :=
  while_db_down fuel check 0%nat [Stdout_write "wait for database..."].

End WaitForDb.

(* ------------------------------------------------------------------ *)
(** ** experiment/urls.py *)

Module Urls.

(** The actions that the router binds for the three registered viewsets:
    [ExperimentViewSet] is a model viewset (list, create, retrieve, update,
    partial update, destroy); [TagViewSet] and [IngredientViewSet] mix in
    list, update, partial update and destroy only. *)
Inductive Action :=
| ExperimentList
| ExperimentCreate (payload : Payload)
| ExperimentRetrieve (pk : Z)
| ExperimentUpdate (pk : Z) (partial : bool) (payload : Payload)
| ExperimentDestroy (pk : Z)
| AttrList (m : AttrModel)
| AttrUpdate (m : AttrModel) (pk : Z) (partial : bool)
    (payload : AttrSerializer.Payload)
| AttrDestroy (m : AttrModel) (pk : Z).

(** The store that an action of an authenticated requester leaves, and the
    status code of its response. *)
Definition respond (request : Request) (action : Action) (db : DB) : DB * Z :=
  match action with
  | ExperimentList =>
      let r := ExperimentViewSet.list request db in
      (fst r, status_code 200 (snd r))
  | ExperimentCreate payload =>
      let r := ExperimentViewSet.create request payload db in
      (fst r, status_code 201 (snd r))
  | ExperimentRetrieve pk =>
      let r := ExperimentViewSet.retrieve request pk db in
      (fst r, status_code 200 (snd r))
  | ExperimentUpdate pk partial payload =>
      let r := ExperimentViewSet.update request pk partial payload db in
      (fst r, status_code 200 (snd r))
  | ExperimentDestroy pk =>
      let r := ExperimentViewSet.destroy request pk db in
      (fst r, status_code 204 (snd r))
  | AttrList m =>
      let r := BaseExperimentAttrViewSet.list m request db in
      (fst r, status_code 200 (snd r))
  | AttrUpdate m pk partial payload =>
      let r := BaseExperimentAttrViewSet.update m request pk partial payload db in
      (fst r, status_code 200 (snd r))
  | AttrDestroy m pk =>
      let r := BaseExperimentAttrViewSet.destroy m request pk db in
      (fst r, status_code 204 (snd r))
  end.

Definition perform (request : Request) (action : Action) (db : DB) : DB :=
  fst (respond request action db).

End Urls.
Export Urls.

(* ------------------------------------------------------------------ *)
(** ** experiment/serializers.py: what the serializers show *)

Module Representation.

(** The value of a plain field in the data of a response. *)
Inductive Scalar :=
| SNull
| SNum (z : Z)
| SDecimal (hundredths : Z)
| SStr (s : string).

(** The data of a tag or an ingredient: its fields, in order. *)
Definition AttrData := list (string * Scalar).

(** The value of a field of an experiment: plain, or the list of the
    nested tags or ingredients. *)
Inductive Value :=
| Plain (s : Scalar)
| Nested (items : list AttrData).

(** The data of an experiment: its fields, in order. *)
Definition ExperimentData := list (string * Value).

(** [experiment.tags.all()] / [experiment.ingredients.all()]: the rows of
    the attribute table whose key the join table pairs with the key of the
    experiment (in the order of the table; the models declare no order). *)
Definition related_all (m : AttrModel) (experiment : Experiment) (db : DB)
  : list Attr :=
  filter (fun r => existsb (pair_eqb (exp_id experiment, attr_id r)) (links m db))
         (attr_rows m db).

(** [TagSerializer.Meta.fields] and [IngredientSerializer.Meta.fields]. *)
Definition attr_fields : list string := ["id"; "name"]%string.

(** [getattr(instance, field)] of a tag or an ingredient, as shown. *)
Definition attr_attribute (r : Attr) (field : string) : Scalar :=
  if String.eqb field "id" then SNum (attr_id r)
  else if String.eqb field "name" then SStr (attr_name r)
  else if String.eqb field "user" then SNum (attr_user r)
  else SNull.

(** [to_representation] of [TagSerializer] and [IngredientSerializer]. *)
Definition attr_representation (r : Attr) : AttrData :=
  map (fun field => (field, attr_attribute r field)) attr_fields.

(** The two serializers of experiments. *)
Inductive SerializerClass :=
| ExperimentSerializer
| ExperimentDetailSerializer.

(** [Meta.fields]: the detail serializer adds the description. *)
Definition Meta_fields (cls : SerializerClass) : list string :=
  let base :=
    ["id"; "title"; "time_minutes"; "price"; "link"; "tags";
     "ingredients"]%string in
  match cls with
  | ExperimentSerializer => base
  | ExperimentDetailSerializer => base ++ ["description"%string]
  end.

(** [ExperimentViewSet.get_serializer_class]: return the serializer class
    for request. *)
Definition get_serializer_class (action : string) : SerializerClass :=
  if String.eqb action "list" then ExperimentSerializer
  else ExperimentDetailSerializer.

(** The value that a field of an experiment shows; the two nested fields
    show the associated tags and ingredients through their serializers. *)
Definition experiment_attribute (db : DB) (e : Experiment) (field : string)
  : Value :=
  if String.eqb field "id" then Plain (SNum (exp_id e))
  else if String.eqb field "title" then Plain (SStr (exp_title e))
  else if String.eqb field "time_minutes" then Plain (SNum (exp_time_minutes e))
  else if String.eqb field "price" then Plain (SDecimal (exp_price e))
  else if String.eqb field "link" then Plain (SStr (exp_link e))
  else if String.eqb field "description" then Plain (SStr (exp_description e))
  else if String.eqb field "user" then Plain (SNum (exp_user e))
  else if String.eqb field "tags"
       then Nested (map attr_representation (related_all Tag e db))
  else if String.eqb field "ingredients"
       then Nested (map attr_representation (related_all Ingredient e db))
  else Plain SNull.

(** [to_representation] of a serializer of experiments. *)
Definition to_representation (cls : SerializerClass) (db : DB) (e : Experiment)
  : ExperimentData :=
  map (fun field => (field, experiment_attribute db e field)) (Meta_fields cls).

(** [serializer.data] of the list action. *)
Definition list_data (request : Request) (db : DB) : list ExperimentData :=
  map (to_representation (get_serializer_class "list") db)
      (ExperimentViewSet.get_queryset request db).

(** [serializer.data] of the retrieve, create and update actions. *)
Definition detail_data (action : string) (db : DB) (e : Experiment)
  : ExperimentData :=
  to_representation (get_serializer_class action) db e.

(** [serializer.data] of the list action on tags or ingredients. *)
Definition attr_list_data (m : AttrModel) (request : Request) (db : DB)
  : list AttrData :=
  map attr_representation
      (BaseExperimentAttrViewSet.get_queryset m request db).


End Representation.
Export Representation.

(* ------------------------------------------------------------------ *)
(** * Vocabulary of the statements *)

Module WaitForDbSpec.

Import WaitForDb.

Section WithCheck.

Variable check : nat -> CheckOutcome.

(** The call number [j] raised an exception that the loop catches. *)
Definition retried (j : nat) : Prop :=
  exists e, check j = Raises e /\ caught e = true.

(** What [k] rounds of catch, message and sleep leave on the trace. *)
Definition retries (k : nat) : list Effect :=
  List.concat (repeat unavailable k).

Definition started : list Effect := [Stdout_write "wait for database..."].

(** How the command ends when call [k] is the first one that is not
    retried. *)
Definition ends_at (k : nat) (c : Completion) (trace : list Effect) : Prop :=
  (forall j, (j < k)%nat -> retried j) /\
  match c with
  | Returned =>
      check k = Passes /\
      trace = started ++ retries k ++ [Stdout_write "Database available"]
  | Propagated e =>
      check k = Raises e /\ caught e = false /\
      trace = started ++ retries k
  end.

End WithCheck.

(** The database comes up at the third check. *)
Definition third_check_passes (j : nat) : CheckOutcome :=
  match j with
  | 0%nat => Raises Psychopg20pError
  | 1%nat => Raises OperationalError
  | _ => Passes
  end.

End WaitForDbSpec.
Export WaitForDbSpec.

(** Primary keys identify the rows of a table. *)
Definition unique_pks (db : DB) : Prop :=
  NoDup (map exp_id (experiment_rows db)) /\
  forall m, NoDup (map attr_id (attr_rows m db)).

(** The request is answered with not-found (status 404) and the tables are
    as they were. *)
Definition not_found {A} (c : M A) (db : DB) : Prop :=
  snd (c db) = inl Http404 /\
  status_code 200 (snd (c db)) = 404 /\
  data (fst (c db)) = data db.

(** An attribute is assigned when some experiment is associated with it. *)
Definition assigned (m : AttrModel) (db : DB) (r : Attr) : bool :=
  existsb (fun p => snd p =? attr_id r) (links m db).

(** The loop that [_get_or_create_tags] and [_get_or_create_ingredients]
    share, on the table [m] and for the requester [u]. *)
Definition reconcile (m : AttrModel) (u : UserId) (l : list descriptor)
    (e : Experiment) : M unit :=
  for_each l (fun d =>
    r <- Attr_get_or_create m u (d_name d) ;;
    related_add m e (fst r)).

(** The names of a submitted list. *)
Definition names (l : list descriptor) : list string := map d_name l.

(** The rows of [u] called [name]. *)
Definition named (m : AttrModel) (u : UserId) (name : string) (db : DB)
  : list Attr :=
  filter (attr_matches u name) (attr_rows m db).

(** No submitted name is carried by two rows of the requester. *)
Definition unambiguous (m : AttrModel) (u : UserId) (l : list descriptor)
    (db : DB) : Prop :=
  forall n, In n (names l) -> (List.length (named m u n db) <= 1)%nat.

(** The store after [get_or_create] created the row. *)
Definition created_db (m : AttrModel) (u : UserId) (n : string) (db : DB) : DB :=
  set_attr_seq m (attr_seq m db + 1)
    (set_attr_rows m (attr_rows m db ++ [mkAttr (attr_seq m db) u n])
       (log_query (QInsertAttr m (attr_seq m db))
          (log_query (QSelectAttr m u n) db))).

(** The statements of the attribute reconciler. *)
Definition is_reconciler_query (q : Query) : bool :=
  match q with
  | QSelectAttr _ _ _ | QInsertAttr _ _ | QInsertLink _ _ _ => true
  | _ => false
  end.

(** What a run of the reconciler for [u] and [e] on the names [ns] may have
    done to the store: it adds rows of [u] for names of [ns] that [u] had no
    row for, it adds pairs of [e] with rows of [u] named in [ns], and it
    leaves the rest alone. *)
Definition grows (m : AttrModel) (u : UserId) (e : Experiment)
    (ns : list string) (db db' : DB) : Prop :=
  experiment_rows db' = experiment_rows db /\
  experiment_seq db' = experiment_seq db /\
  (forall m', m' <> m ->
     attr_rows m' db' = attr_rows m' db /\ links m' db' = links m' db /\
     attr_seq m' db' = attr_seq m' db) /\
  attr_seq m db <= attr_seq m db' /\
  (exists created,
     attr_rows m db' = attr_rows m db ++ created /\
     Forall (fun r =>
               attr_user r = u /\ In (attr_name r) ns /\
               named m u (attr_name r) db = [] /\
               attr_seq m db <= attr_id r < attr_seq m db') created) /\
  (exists added,
     links m db' = links m db ++ added /\
     Forall (fun p =>
               fst p = exp_id e /\
               exists r, In r (attr_rows m db') /\ attr_id r = snd p /\
                         attr_user r = u /\ In (attr_name r) ns) added) /\
  (NoDup (links m db) -> NoDup (links m db')) /\
  (exists qs,
     queries db' = queries db ++ qs /\
     forallb is_reconciler_query qs = true).

(** The attribute list of one type in the validated data of a write. *)
Definition submitted (m : AttrModel) (vd : ValidatedData)
  : option (list descriptor) :=
  match m with Tag => v_tags vd | Ingredient => v_ingredients vd end.

(** The block that [update] runs for each of the two attribute lists:
    [if l is not None: clear(); _get_or_create(l, instance)]. *)
Definition replace_block (m : AttrModel) (u : UserId)
    (o : option (list descriptor)) (instance : Experiment) : M unit :=
  match o with
  | Some l => related_clear m instance ;; reconcile m u l instance
  | None => ret tt
  end.


(** The fields that the payload names have the payload's values. *)
Definition set_by (payload : Payload) (r' : Experiment) : Prop :=
  (forall v, p_title payload = Some v -> exp_title r' = v) /\
  (forall v, p_time_minutes payload = Some v -> exp_time_minutes r' = v) /\
  (forall v, p_price payload = Some v -> exp_price r' = v) /\
  (forall v, p_link payload = Some v -> exp_link r' = v) /\
  (forall v, p_description payload = Some v -> exp_description r' = v).

(** The keyword arguments carry the columns that the table requires. *)
Definition insertable (kw : ExperimentKwargs) : bool :=
  is_some (k_user kw) && is_some (k_time_minutes kw) && is_some (k_price kw).

(** The statements before and after the first INSERT of an experiment. *)
Fixpoint split_at_insert (log : list Query)
  : option (list Query * list Query) :=
  match log with
  | [] => None
  | QInsertExperiment _ :: after => Some ([], after)
  | q :: rest =>
      match split_at_insert rest with
      | Some (before, after) => Some (q :: before, after)
      | None => None
      end
  end.

(** The order that the claim on creation describes: the statements of the
    reconciler come before the INSERT of the experiment, none after it. *)
Definition reconciler_before_persist (log : list Query) : bool :=
  match split_at_insert log with
  | Some (before, after) =>
      existsb is_reconciler_query before
      && negb (existsb is_reconciler_query after)
  | None => false
  end.

(** [_get_or_create_tags] or [_get_or_create_ingredients], by the table. *)
Definition get_or_create_attrs (m : AttrModel) (request : Request)
  : list descriptor -> Experiment -> M unit :=
  match m with
  | Tag => ExperimentDetailSerializer._get_or_create_tags request
  | Ingredient => ExperimentDetailSerializer._get_or_create_ingredients request
  end.

Definition pair_dec (p q : Z * Z) : {p = q} + {p <> q}.
Proof. decide equality; apply Z.eq_dec. Defined.


(** The submitted list with every repetition of a name dropped: of each
    name the first descriptor stays. *)
Fixpoint without_repeats_from (seen : list string) (l : list descriptor)
  : list descriptor :=
  match l with
  | [] => []
  | d :: l' =>
      if existsb (String.eqb (d_name d)) seen
      then without_repeats_from seen l'
      else d :: without_repeats_from (d_name d :: seen) l'
  end.

Definition without_repeats (l : list descriptor) : list descriptor :=
  without_repeats_from [] l.

(** ** Well-formed stores

    What the database guarantees of its tables: primary keys are unique and
    come from the sequence of their table, and a join table holds no pair
    twice. *)
Definition wf (db : DB) : Prop :=
  NoDup (map exp_id (experiment_rows db)) /\
  Forall (fun pk => pk < experiment_seq db) (map exp_id (experiment_rows db)) /\
  forall m,
    NoDup (map attr_id (attr_rows m db)) /\
    Forall (fun pk => pk < attr_seq m db) (map attr_id (attr_rows m db)) /\
    NoDup (links m db).

(** A computation that leaves well-formed stores well-formed. *)
Definition keeps_wf {A} (c : M A) : Prop :=
  forall db, wf db -> wf (fst (c db)).

(** The stores that requests to the API lead to, from the empty one. *)
Inductive reachable : DB -> Prop :=
| reach_empty : reachable empty_db
| reach_experiment_list request db :
    reachable db -> reachable (fst (ExperimentViewSet.list request db))
| reach_experiment_create request payload db :
    reachable db ->
    reachable (fst (ExperimentViewSet.create request payload db))
| reach_experiment_retrieve request pk db :
    reachable db ->
    reachable (fst (ExperimentViewSet.retrieve request pk db))
| reach_experiment_update request pk partial payload db :
    reachable db ->
    reachable (fst (ExperimentViewSet.update request pk partial payload db))
| reach_experiment_destroy request pk db :
    reachable db ->
    reachable (fst (ExperimentViewSet.destroy request pk db))
| reach_attr_list m request db :
    reachable db ->
    reachable (fst (BaseExperimentAttrViewSet.list m request db))
| reach_attr_update m request pk partial payload db :
    reachable db ->
    reachable
      (fst (BaseExperimentAttrViewSet.update m request pk partial payload db))
| reach_attr_destroy m request pk db :
    reachable db ->
    reachable (fst (BaseExperimentAttrViewSet.destroy m request pk db)).

(** ** Concrete requests and stores *)

Module Samples.

Definition alice : Request := mkRequest 1 [].

Definition bob : Request := mkRequest 2 [].

Definition tag (name : string) : descriptor := mkDescriptor name.

(** The write payload of the tests: a title, a time and a price, with the
    attribute lists given. *)
Definition sample_payload (tags ingredients : option (list descriptor))
  : Payload :=
  mkPayload None None (Some "Sample"%string) (Some 22) (Some 522) None None
    tags ingredients.

(** A payload that names nothing but the tags. *)
Definition tags_payload (tags : list descriptor) : Payload :=
  mkPayload None None None None None None None (Some tags) None.


(** Alice has created one experiment tagged [Night] and [Afternoon], with
    the ingredient [Salt]; Bob has created one tagged [Night]. *)
Definition db_two_users : DB :=
  fst (ExperimentViewSet.create bob
         (sample_payload (Some [tag "Night"]) None)
         (fst (ExperimentViewSet.create alice
                 (sample_payload (Some [tag "Night"; tag "Afternoon"])
                                 (Some [tag "Salt"]))
                 empty_db))).

(** Alice then renames her tag [Afternoon] (key 2) to [Night], with a PATCH
    on the tag: she now owns two tags of that name. *)
Definition db_renamed : DB :=
  fst (TagViewSet.update alice 2 true
         (AttrSerializer.mkPayload None (Some "Night"%string)) db_two_users).

(** Alice's experiment, as stored. *)
Definition alice_experiment : Experiment :=
  mkExperiment 1 1 "Sample" 22 522 "" "".

(** The store of the test on the filter of assigned tags: two tags of one
    user, one experiment, the first tag associated with it. *)
Definition db_assigned_test : DB :=
  fst ((t1 <- Attr_create Tag 1 "Tag test filter 1" ;;
        _ <- Attr_create Tag 1 "Tag test filter 2" ;;
        e <- Experiment_create
               (mkKwargs (Some 1) (Some "tag iCAN"%string) (Some 5) (Some 2000)
                         None None) ;;
        related_add Tag e t1) empty_db).

(** [GET /tags/?assigned_only=1] by that user. *)
Definition assigned_only_request : Request :=
  mkRequest 1 [("assigned_only"%string, "1"%string)].

End Samples.

(** ** More vocabulary *)

(** The seconds that a trace of [wait_for_db] spends in [time.sleep]. *)
Fixpoint sleep_total (trace : list WaitForDb.Effect) : Z :=
  match trace with
  | [] => 0
  | WaitForDb.Sleep seconds :: rest => seconds + sleep_total rest
  | WaitForDb.Stdout_write _ :: rest => sleep_total rest
  end.

(** The database never comes up, with one error or the other. *)
Definition always_down (j : nat) : WaitForDb.CheckOutcome :=
  if Nat.even j
  then WaitForDb.Raises WaitForDb.Psychopg20pError
  else WaitForDb.Raises WaitForDb.OperationalError.

(** Every association joins an experiment and an attribute that are both
    stored and have the same owner. *)
Definition consistent (db : DB) : Prop :=
  forall m e a,
    In (e, a) (links m db) ->
    exists x r,
      In x (experiment_rows db) /\ exp_id x = e /\
      In r (attr_rows m db) /\ attr_id r = a /\
      attr_user r = exp_user x.

(** The experiments of a user, and the attributes of a user, as stored. *)
Definition experiments_of (u : UserId) (db : DB) : list Experiment :=
  filter (fun r => exp_user r =? u) (experiment_rows db).

Definition attrs_of (m : AttrModel) (u : UserId) (db : DB) : list Attr :=
  filter (fun r => attr_user r =? u) (attr_rows m db).

(** A computation whose every run relates the store before and after. *)
Definition steps (R : DB -> DB -> Prop) {A} (c : M A) : Prop :=
  forall db, R db (fst (c db)).

(** Nothing of the attribute tables that belongs to another user than [u]
    changes. *)
Definition foreign_attrs_kept (u : UserId) (db db' : DB) : Prop :=
  forall m a, a <> u -> attrs_of m a db' = attrs_of m a db.

(** The experiment table does not change. *)
Definition experiments_kept (db db' : DB) : Prop :=
  experiment_rows db' = experiment_rows db.

Definition AttrModel_eq_dec (m m' : AttrModel) : {m = m'} + {m <> m'}.
Proof. decide equality. Defined.

(** The associations of the experiments other than [pk] are the same. *)
Definition other_links_kept (pk : Z) (db db' : DB) : Prop :=
  forall m e a, e <> pk -> (In (e, a) (links m db') <-> In (e, a) (links m db)).

(** The attribute tables are the same. *)
Definition attrs_kept (db db' : DB) : Prop :=
  forall m, attr_rows m db' = attr_rows m db.

(** What a user has in the store: the experiments and the attributes of the
    user are the same rows in the same order, and the experiments of the
    user have the same associations. *)
Definition same_for (u : UserId) (db db' : DB) : Prop :=
  experiments_of u db' = experiments_of u db /\
  (forall m, attrs_of m u db' = attrs_of m u db) /\
  (forall m x a,
      In x (experiments_of u db) ->
      (In (exp_id x, a) (links m db') <-> In (exp_id x, a) (links m db))).


(* ------------------------------------------------------------------ *)
(** * Properties *)

(** ** Sorting *)

Section OrderBy.

Context {A : Type} (le : A -> A -> bool).

Hypothesis le_total : forall a b, le a b = true \/ le b a = true.
Hypothesis le_trans :
  forall a b c, le a b = true -> le b c = true -> le a c = true.

Lemma insert_sorted_perm (x : A) (l : list A) :
  Permutation (x :: l) (insert_sorted le x l).
Proof.
  induction l as [|y ys IH]; simpl.
  - apply Permutation_refl.
  - destruct (le x y).
    + apply Permutation_refl.
    + eapply perm_trans; [apply perm_swap|].
      apply perm_skip, IH.
Qed.

Lemma order_by_perm (l : list A) : Permutation l (order_by le l).
Proof.
  induction l as [|x xs IH]; simpl.
  - constructor.
  - eapply perm_trans; [apply perm_skip, IH|apply insert_sorted_perm].
Qed.

Lemma order_by_In (x : A) (l : list A) : In x (order_by le l) <-> In x l.
Proof.
  split; intro H.
  - eapply Permutation_in; [apply Permutation_sym, order_by_perm|exact H].
  - eapply Permutation_in; [apply order_by_perm|exact H].
Qed.



End OrderBy.







(** ** wait_for_db *)

Section WaitForDbFacts.

Import WaitForDb.

Variable check : nat -> CheckOutcome.


End WaitForDbFacts.



(** ** Ownership *)

Lemma data_log_query (q : Query) (db : DB) : data (log_query q db) = data db.
Proof. reflexivity. Qed.

Lemma filter_none {A} (f : A -> bool) (l : list A) :
  (forall x, In x l -> f x = false) -> filter f l = [].
Proof.
  induction l as [|y ys IH]; simpl; intro H; [reflexivity|].
  rewrite (H y) by auto. apply IH. intros x Hx. apply H. auto.
Qed.

Lemma NoDup_map_eq {A B} (f : A -> B) (l : list A) (x y : A) :
  NoDup (map f l) -> In x l -> In y l -> f x = f y -> x = y.
Proof.
  induction l as [|z zs IH]; simpl; intros Hnd Hx Hy Hf; [contradiction|].
  inversion Hnd as [|? ? Hnotin Hnd']; subst.
  destruct Hx as [->|Hx], Hy as [->|Hy]; auto.
  - exfalso. apply Hnotin. rewrite Hf. apply in_map, Hy.
  - exfalso. apply Hnotin. rewrite <- Hf. apply in_map, Hx.
Qed.

Lemma In_experiment_queryset (request : Request) (db : DB) (x : Experiment) :
  In x (ExperimentViewSet.get_queryset request db) <->
  In x (experiment_rows db) /\ exp_user x = user request.
Proof.
  unfold ExperimentViewSet.get_queryset, ExperimentViewSet.queryset.
  rewrite order_by_In, filter_In, Z.eqb_eq. reflexivity.
Qed.

Lemma In_attr_queryset (m : AttrModel) (request : Request) (db : DB) (x : Attr) :
  In x (BaseExperimentAttrViewSet.get_queryset m request db) <->
  In x (attr_rows m db) /\ attr_user x = user request.
Proof.
  unfold BaseExperimentAttrViewSet.get_queryset,
    BaseExperimentAttrViewSet.queryset.
  rewrite order_by_In, filter_In, Z.eqb_eq. reflexivity.
Qed.

(** [get_object] finds nothing when no row of the requester has the key. *)
Lemma experiment_get_object_404 (request : Request) (pk : Z) (db : DB) :
  (forall x, In x (experiment_rows db) -> exp_user x = user request ->
             exp_id x <> pk) ->
  ExperimentViewSet.get_object request pk db =
  (log_query (QSelectExperiment pk) db, inl Http404).
Proof.
  intro H.
  unfold ExperimentViewSet.get_object, or_404, try_except, Experiment_get.
  rewrite filter_none; [reflexivity|].
  intros x Hx. apply In_experiment_queryset in Hx. destruct Hx as [Hx Hu].
  apply Z.eqb_neq. auto.
Qed.

Lemma attr_get_object_404 (m : AttrModel) (request : Request) (pk : Z) (db : DB) :
  (forall x, In x (attr_rows m db) -> attr_user x = user request ->
             attr_id x <> pk) ->
  BaseExperimentAttrViewSet.get_object m request pk db =
  (log_query (QSelectAttrPk m pk) db, inl Http404).
Proof.
  intro H.
  unfold BaseExperimentAttrViewSet.get_object, or_404, try_except, Attr_get_pk.
  rewrite filter_none; [reflexivity|].
  intros x Hx. apply In_attr_queryset in Hx. destruct Hx as [Hx Hu].
  apply Z.eqb_neq. auto.
Qed.

Lemma experiment_detail_not_found (request : Request) (pk : Z) (db : DB) :
  (forall x, In x (experiment_rows db) -> exp_user x = user request ->
             exp_id x <> pk) ->
  not_found (ExperimentViewSet.retrieve request pk) db /\
  (forall partial payload,
      not_found (ExperimentViewSet.update request pk partial payload) db) /\
  not_found (ExperimentViewSet.destroy request pk) db.
Proof.
  intro H. pose proof (experiment_get_object_404 request pk db H) as E.
  unfold not_found, ExperimentViewSet.retrieve, ExperimentViewSet.update,
    ExperimentViewSet.destroy, bind.
  rewrite E. simpl. repeat split; reflexivity.
Qed.

Lemma attr_detail_not_found (m : AttrModel) (request : Request) (pk : Z)
    (db : DB) :
  (forall x, In x (attr_rows m db) -> attr_user x = user request ->
             attr_id x <> pk) ->
  (forall partial payload,
      not_found (BaseExperimentAttrViewSet.update m request pk partial payload)
                db) /\
  not_found (BaseExperimentAttrViewSet.destroy m request pk) db.
Proof.
  intro H. pose proof (attr_get_object_404 m request pk db H) as E.
  unfold not_found, BaseExperimentAttrViewSet.update,
    BaseExperimentAttrViewSet.destroy, bind.
  rewrite E. simpl. repeat split; reflexivity.
Qed.

(** C3. Let the requester [b] be another user than [a].  A record owned by
    [a] (an experiment, a tag or an ingredient) is in no list that [b] gets,
    and [b]'s detail, update and delete requests on its key are answered
    with not-found and leave every table as it was: just as the same
    requests are answered on a key that no record has. *)
Theorem ownership_isolation (a b : Request) (db : DB)
    (Hab : user a <> user b) (Hpk : unique_pks db) :
  (forall r, In r (experiment_rows db) -> exp_user r = user a ->
     (forall l, snd (ExperimentViewSet.list b db) = inr l -> ~ In r l) /\
     not_found (ExperimentViewSet.retrieve b (exp_id r)) db /\
     (forall partial payload,
        not_found (ExperimentViewSet.update b (exp_id r) partial payload) db) /\
     not_found (ExperimentViewSet.destroy b (exp_id r)) db) /\
  (forall m r, In r (attr_rows m db) -> attr_user r = user a ->
     (forall l, snd (BaseExperimentAttrViewSet.list m b db) = inr l ->
                ~ In r l) /\
     (forall partial payload,
        not_found
          (BaseExperimentAttrViewSet.update m b (attr_id r) partial payload)
          db) /\
     not_found (BaseExperimentAttrViewSet.destroy m b (attr_id r)) db) /\
  (forall pk, ~ In pk (map exp_id (experiment_rows db)) ->
     not_found (ExperimentViewSet.retrieve b pk) db /\
     (forall partial payload,
        not_found (ExperimentViewSet.update b pk partial payload) db) /\
     not_found (ExperimentViewSet.destroy b pk) db) /\
  (forall m pk, ~ In pk (map attr_id (attr_rows m db)) ->
     (forall partial payload,
        not_found (BaseExperimentAttrViewSet.update m b pk partial payload)
                  db) /\
     not_found (BaseExperimentAttrViewSet.destroy m b pk) db).
Proof.
  destruct Hpk as [Hexp Hattr].
  split; [|split; [|split]].
  - intros r Hr Hu. split.
    + intros l Hl. simpl in Hl. injection Hl as <-.
      rewrite In_experiment_queryset. intros [_ Hb]. congruence.
    + apply experiment_detail_not_found.
      intros x Hx Hxu Hid.
      assert (x = r) by (eapply NoDup_map_eq; eauto).
      subst x. congruence.
  - intros m r Hr Hu. split.
    + intros l Hl. simpl in Hl. injection Hl as <-.
      rewrite In_attr_queryset. intros [_ Hb]. congruence.
    + apply attr_detail_not_found.
      intros x Hx Hxu Hid.
      assert (x = r) by (eapply (NoDup_map_eq attr_id); eauto).
      subst x. congruence.
  - intros pk Hpk. apply experiment_detail_not_found.
    intros x Hx _ Hid. apply Hpk. rewrite <- Hid. apply in_map, Hx.
  - intros m pk Hpk. apply attr_detail_not_found.
    intros x Hx _ Hid. apply Hpk. rewrite <- Hid. apply in_map, Hx.
Qed.

(** ** The attribute reconciler *)

Lemma get_or_create_tags_reconcile (request : Request) :
  ExperimentDetailSerializer._get_or_create_tags request =
  reconcile Tag (user request).
Proof. reflexivity. Qed.

Lemma get_or_create_ingredients_reconcile (request : Request) :
  ExperimentDetailSerializer._get_or_create_ingredients request =
  reconcile Ingredient (user request).
Proof. reflexivity. Qed.

Lemma get_or_create_cases (m : AttrModel) (u : UserId) (n : string) (db : DB) :
  Attr_get_or_create m u n db =
  match named m u n db with
  | [] => (created_db m u n db, inr (mkAttr (attr_seq m db) u n, true))
  | [r] => (log_query (QSelectAttr m u n) db, inr (r, false))
  | _ :: _ :: _ => (log_query (QSelectAttr m u n) db, inl MultipleObjectsReturned)
  end.
Proof.
  unfold Attr_get_or_create, try_except, bind, Attr_get, named.
  destruct (filter (attr_matches u n) (attr_rows m db)) as [|r [|r' rest]];
    reflexivity.
Qed.

Ltac grows_split :=
  unfold grows;
  split; [|split; [|split; [|split; [|split; [|split; [|split]]]]]].

Lemma grows_refl m u e ns db : grows m u e ns db db.
Proof.
  grows_split.
  - reflexivity.
  - reflexivity.
  - auto.
  - lia.
  - exists []. rewrite app_nil_r. auto.
  - exists []. rewrite app_nil_r. auto.
  - auto.
  - exists []. rewrite app_nil_r. auto.
Qed.

Lemma grows_log m u e ns q db :
  is_reconciler_query q = true -> grows m u e ns db (log_query q db).
Proof.
  intro Hq. grows_split.
  - reflexivity.
  - reflexivity.
  - intros m' _. destruct m'; auto.
  - destruct m; simpl; lia.
  - exists []. rewrite app_nil_r. destruct m; auto.
  - exists []. rewrite app_nil_r. destruct m; auto.
  - destruct m; auto.
  - exists [q]. simpl. rewrite Hq. auto.
Qed.

Lemma named_app_rows (m : AttrModel) (u : UserId) (n : string) (db db' : DB)
    (extra : list Attr) :
  attr_rows m db' = attr_rows m db ++ extra ->
  named m u n db' = named m u n db ++ filter (attr_matches u n) extra.
Proof. unfold named. intros ->. apply filter_app. Qed.

Lemma grows_trans m u e ns db db1 db2 :
  grows m u e ns db db1 -> grows m u e ns db1 db2 -> grows m u e ns db db2.
Proof.
  intros (E1 & S1 & O1 & Q1 & (c1 & R1 & C1) & (a1 & L1 & A1) & N1 & (q1 & G1 & K1))
         (E2 & S2 & O2 & Q2 & (c2 & R2 & C2) & (a2 & L2 & A2) & N2 & (q2 & G2 & K2)).
  grows_split.
  - congruence.
  - congruence.
  - intros m' H.
    destruct (O1 m' H) as (? & ? & ?), (O2 m' H) as (? & ? & ?).
    repeat split; congruence.
  - lia.
  - exists (c1 ++ c2). split.
    + rewrite R2, R1, app_assoc. reflexivity.
    + apply Forall_app. split.
      * eapply Forall_impl; [|exact C1]. simpl. intros r (? & ? & ? & ?).
        repeat split; auto; lia.
      * eapply Forall_impl; [|exact C2]. simpl. intros r (? & ? & Hn & ?).
        repeat split; auto; try lia.
        rewrite (named_app_rows m u _ db db1 c1 R1) in Hn.
        apply app_eq_nil in Hn. tauto.
  - exists (a1 ++ a2). split.
    + rewrite L2, L1, app_assoc. reflexivity.
    + apply Forall_app. split.
      * eapply Forall_impl; [|exact A1]. simpl.
        intros p (? & r & Hr & ? & ? & ?). split; auto.
        exists r. repeat split; auto. rewrite R2. apply in_or_app. auto.
      * exact A2.
  - auto.
  - exists (q1 ++ q2). split.
    + rewrite G2, G1, app_assoc. reflexivity.
    + rewrite forallb_app, K1, K2. reflexivity.
Qed.

Lemma grows_incl m u e ns ns' db db' :
  incl ns ns' -> grows m u e ns db db' -> grows m u e ns' db db'.
Proof.
  intros Hi (E1 & S1 & O1 & Q1 & (c1 & R1 & C1) & (a1 & L1 & A1) & N1 & G1).
  grows_split.
  - exact E1.
  - exact S1.
  - exact O1.
  - exact Q1.
  - exists c1. split; auto. eapply Forall_impl; [|exact C1]. simpl.
    intros r (? & ? & ? & ?). repeat split; auto; lia.
  - exists a1. split; auto. eapply Forall_impl; [|exact A1]. simpl.
    intros p (? & r & ? & ? & ? & ?). split; auto. exists r. auto.
  - exact N1.
  - exact G1.
Qed.

Lemma attr_matches_true (u : UserId) (n : string) (r : Attr) :
  attr_matches u n r = true <-> attr_user r = u /\ attr_name r = n.
Proof.
  unfold attr_matches. rewrite andb_true_iff, Z.eqb_eq, String.eqb_eq.
  reflexivity.
Qed.

Lemma In_named (m : AttrModel) (u : UserId) (n : string) (db : DB) (r : Attr) :
  In r (named m u n db) <->
  In r (attr_rows m db) /\ attr_user r = u /\ attr_name r = n.
Proof. unfold named. rewrite filter_In, attr_matches_true. reflexivity. Qed.

Lemma pair_eqb_true (p q : Z * Z) : pair_eqb p q = true <-> p = q.
Proof.
  unfold pair_eqb. rewrite andb_true_iff, !Z.eqb_eq.
  destruct p, q; simpl. split; [intros []; congruence|intros [= -> ->]; auto].
Qed.

Lemma related_add_grows m u e r ns db :
  In r (attr_rows m db) -> attr_user r = u -> In (attr_name r) ns ->
  exists db',
    related_add m e r db = (db', inr tt) /\
    grows m u e ns db db' /\
    In (exp_id e, attr_id r) (links m db').
Proof.
  intros Hr Hu Hn. unfold related_add.
  destruct (existsb (pair_eqb (exp_id e, attr_id r)) (links m db)) eqn:E.
  - exists db. split; [reflexivity|]. split; [apply grows_refl|].
    apply existsb_exists in E. destruct E as (p & Hp & Heq).
    apply pair_eqb_true in Heq. subst p. exact Hp.
  - eexists. split; [reflexivity|]. split.
    + grows_split.
      * destruct m; reflexivity.
      * destruct m; reflexivity.
      * intros m' Hm. destruct m, m'; try congruence; auto.
      * destruct m; simpl; lia.
      * exists []. rewrite app_nil_r. destruct m; auto.
      * exists [(exp_id e, attr_id r)]. split; [destruct m; reflexivity|].
        constructor; [|constructor]. split; [reflexivity|].
        exists r. repeat split; auto. destruct m; exact Hr.
      * intro Hnd.
        assert (Hl : links m
                  (set_links m (links m db ++ [(exp_id e, attr_id r)])
                     (log_query (QInsertLink m (fst (exp_id e, attr_id r))
                                   (snd (exp_id e, attr_id r))) db)) =
                     links m db ++ [(exp_id e, attr_id r)])
          by (destruct m; reflexivity).
        rewrite Hl. apply NoDup_app; [exact Hnd|repeat constructor; auto|].
        intros p Hp [<-|[]].
        assert (existsb (pair_eqb (exp_id e, attr_id r)) (links m db) = true).
        { apply existsb_exists. exists (exp_id e, attr_id r).
          split; [exact Hp|apply pair_eqb_true; reflexivity]. }
        congruence.
      * eexists [_]. split; [destruct m; reflexivity|reflexivity].
    + destruct m; simpl; apply in_or_app; right; left; reflexivity.
Qed.

Lemma created_db_grows m u e n db :
  named m u n db = [] ->
  grows m u e [n] db (created_db m u n db) /\
  named m u n (created_db m u n db) = [mkAttr (attr_seq m db) u n] /\
  In (mkAttr (attr_seq m db) u n) (attr_rows m (created_db m u n db)).
Proof.
  intro Hn.
  assert (Hrows : attr_rows m (created_db m u n db) =
                  attr_rows m db ++ [mkAttr (attr_seq m db) u n])
    by (destruct m; reflexivity).
  split; [|split].
  - grows_split.
    + destruct m; reflexivity.
    + destruct m; reflexivity.
    + intros m' Hm. destruct m, m'; try congruence; auto.
    + destruct m; simpl; lia.
    + eexists. split; [exact Hrows|].
      constructor; [|constructor]. simpl. repeat split; auto.
      * lia.
      * destruct m; simpl; lia.
    + exists []. rewrite app_nil_r. destruct m; auto.
    + destruct m; auto.
    + exists [QSelectAttr m u n; QInsertAttr m (attr_seq m db)].
      split; [destruct m; simpl; rewrite <- app_assoc; reflexivity|reflexivity].
  - rewrite (named_app_rows m u n db _ _ Hrows), Hn. simpl.
    assert (H : attr_matches u n (mkAttr (attr_seq m db) u n) = true)
      by (apply attr_matches_true; auto).
    rewrite H. reflexivity.
  - rewrite Hrows. apply in_or_app. right. left. reflexivity.
Qed.

(** One round of the loop on the name [n]. *)
Lemma reconcile_step m u e n db :
  exists db' res,
    (r <- Attr_get_or_create m u n ;; related_add m e (fst r)) db = (db', res) /\
    grows m u e [n] db db' /\
    ((List.length (named m u n db) <= 1)%nat ->
     res = inr tt /\
     exists r, named m u n db' = [r] /\
               In (exp_id e, attr_id r) (links m db') /\
               (named m u n db = [r] \/
                named m u n db = [] /\ r = mkAttr (attr_seq m db) u n)) /\
    ((2 <= List.length (named m u n db))%nat ->
     res = inl MultipleObjectsReturned /\ data db' = data db).
Proof.
  unfold bind. rewrite get_or_create_cases.
  destruct (named m u n db) as [|r [|r' rest]] eqn:E.
  - destruct (created_db_grows m u e n db E) as (G & N & I).
    destruct (related_add_grows m u e (mkAttr (attr_seq m db) u n) [n]
                (created_db m u n db) I eq_refl (or_introl eq_refl))
      as (db' & Hrun & G' & L).
    exists db', (inr tt). simpl fst. split; [exact Hrun|].
    split; [eapply grows_trans; eassumption|]. split.
    + intros _. split; [reflexivity|].
      exists (mkAttr (attr_seq m db) u n). split; [|split; auto].
      destruct G' as (_ & _ & _ & _ & (c & R & C) & _).
      rewrite (named_app_rows m u n _ _ c R), N.
      replace (filter (attr_matches u n) c) with (@nil Attr); [reflexivity|].
      symmetry. apply filter_none. intros x Hx.
      rewrite Forall_forall in C. destruct (C x Hx) as (Hu & [Hn|[]] & Hnone & _).
      simpl in Hn. rewrite <- Hn, N in Hnone. discriminate.
    + simpl. lia.
  - assert (Hr : In r (named m u n db)) by (rewrite E; left; reflexivity).
    apply In_named in Hr. destruct Hr as (Hr & Hu & Hn).
    destruct (related_add_grows m u e r [n] (log_query (QSelectAttr m u n) db))
      as (db' & Hrun & G' & L).
    { destruct m; exact Hr. }
    { exact Hu. }
    { left. auto. }
    exists db', (inr tt). simpl fst. split; [exact Hrun|].
    assert (G : grows m u e [n] db db').
    { eapply grows_trans; [|exact G'].
      apply (grows_log m u e [n] (QSelectAttr m u n)). reflexivity. }
    split; [exact G|]. split.
    + intros _. split; [reflexivity|]. exists r. split; [|split; auto].
      destruct G as (_ & _ & _ & _ & (c & R & C) & _).
      rewrite (named_app_rows m u n _ _ c R), E.
      replace (filter (attr_matches u n) c) with (@nil Attr); [reflexivity|].
      symmetry. apply filter_none. intros x Hx.
      rewrite Forall_forall in C. destruct (C x Hx) as (_ & [Hn'|[]] & Hnone & _).
      rewrite <- Hn', E in Hnone. discriminate.
    + simpl. lia.
  - exists (log_query (QSelectAttr m u n) db), (inl MultipleObjectsReturned).
    split; [reflexivity|].
    split; [apply (grows_log m u e [n] (QSelectAttr m u n)); reflexivity|].
    split.
    + simpl. lia.
    + intros _. split; reflexivity.
Qed.

Lemma reconcile_cons m u d l e db :
  reconcile m u (d :: l) e db =
  match (r <- Attr_get_or_create m u (d_name d) ;; related_add m e (fst r)) db with
  | (db1, inr _) => reconcile m u l e db1
  | (db1, inl x) => (db1, inl x)
  end.
Proof. reflexivity. Qed.

(** A run of the reconciler leaves the rows of a name alone, unless the
    requester had no row of that name and the name is among those of the
    run. *)
Lemma named_after_grows m u e ns db db' n :
  grows m u e ns db db' ->
  named m u n db' = named m u n db \/ (named m u n db = [] /\ In n ns).
Proof.
  intros (_ & _ & _ & _ & (c & R & C) & _).
  rewrite (named_app_rows m u n _ _ c R).
  destruct (filter (attr_matches u n) c) as [|x xs] eqn:E.
  - left. apply app_nil_r.
  - right.
    assert (Hx : In x (filter (attr_matches u n) c)) by (rewrite E; left; auto).
    apply filter_In in Hx. destruct Hx as [Hx Hm].
    apply attr_matches_true in Hm. destruct Hm as [_ <-].
    rewrite Forall_forall in C. destruct (C x Hx) as (_ & ? & ? & _). auto.
Qed.

Lemma named_kept m u e ns db db' n r :
  grows m u e ns db db' -> named m u n db = [r] -> named m u n db' = [r].
Proof.
  intros G E. destruct (named_after_grows m u e ns db db' n G) as [H|[H _]];
    congruence.
Qed.

Lemma links_kept m u e ns db db' p :
  grows m u e ns db db' -> In p (links m db) -> In p (links m db').
Proof.
  intros (_ & _ & _ & _ & _ & (a & L & _) & _) H.
  rewrite L. apply in_or_app. auto.
Qed.

Lemma rows_kept m u e ns db db' r :
  grows m u e ns db db' -> In r (attr_rows m db) -> In r (attr_rows m db').
Proof.
  intros (_ & _ & _ & _ & (c & R & _) & _) H.
  rewrite R. apply in_or_app. auto.
Qed.

(** Whatever the store, a run of the reconciler only grows it, and the only
    exception it raises is [MultipleObjectsReturned]. *)
Lemma reconcile_grows m u e l :
  forall db, exists db' res,
    reconcile m u l e db = (db', res) /\
    grows m u e (names l) db db' /\
    (res = inr tt \/ res = inl MultipleObjectsReturned).
Proof.
  induction l as [|d l IH]; intro db.
  - exists db, (inr tt). split; [reflexivity|]. split; [apply grows_refl|auto].
  - rewrite reconcile_cons.
    destruct (reconcile_step m u e (d_name d) db) as (db1 & res & Hrun & G & Hok & Herr).
    rewrite Hrun.
    assert (G1 : grows m u e (names (d :: l)) db db1).
    { eapply grows_incl; [|exact G]. intros x [<-|[]]. left. reflexivity. }
    destruct (le_lt_dec (List.length (named m u (d_name d) db)) 1) as [Hle|Hgt].
    + destruct (Hok Hle) as [-> _].
      destruct (IH db1) as (db' & res' & Hrun' & G' & Hres).
      exists db', res'. split; [exact Hrun'|]. split; [|exact Hres].
      eapply grows_trans; [exact G1|].
      eapply grows_incl; [|exact G']. intros x Hx. right. exact Hx.
    + destruct (Herr Hgt) as [-> _].
      exists db1, (inl MultipleObjectsReturned). auto.
Qed.

(** When no submitted name is ambiguous, the run succeeds, and afterwards
    every submitted name is carried by exactly one row of the requester,
    which is associated with the experiment; that row is the one that was
    there before, if there was one. *)
Lemma reconcile_ok m u e l :
  forall db,
    unambiguous m u l db ->
    exists db',
      reconcile m u l e db = (db', inr tt) /\
      grows m u e (names l) db db' /\
      forall n, In n (names l) ->
        exists r, named m u n db' = [r] /\
                  In (exp_id e, attr_id r) (links m db') /\
                  (named m u n db = [r] \/ named m u n db = []).
Proof.
  induction l as [|d l IH]; intros db Hun.
  - exists db. split; [reflexivity|]. split; [apply grows_refl|].
    intros n [].
  - rewrite reconcile_cons.
    destruct (reconcile_step m u e (d_name d) db) as (db1 & res & Hrun & G & Hok & _).
    rewrite Hrun.
    destruct Hok as (-> & r0 & N0 & L0 & D0).
    { apply Hun. left. reflexivity. }
    assert (Hun1 : unambiguous m u l db1).
    { intros n Hn.
      destruct (named_after_grows m u e _ db db1 n G) as [H|[_ [<-|[]]]].
      - rewrite H. apply Hun. right. exact Hn.
      - rewrite N0. simpl. lia. }
    destruct (IH db1 Hun1) as (db' & Hrun' & G' & Hall).
    exists db'. split; [exact Hrun'|].
    assert (G1 : grows m u e (names (d :: l)) db db1).
    { eapply grows_incl; [|exact G]. intros x [<-|[]]. left. reflexivity. }
    split.
    { eapply grows_trans; [exact G1|].
      eapply grows_incl; [|exact G']. intros x Hx. right. exact Hx. }
    intros n Hn.
    destruct (in_dec string_dec n (names l)) as [Hin|Hnotin].
    + destruct (Hall n Hin) as (r & N & L & D).
      exists r. split; [exact N|]. split; [exact L|].
      destruct (named_after_grows m u e _ db db1 n G) as [H|[H _]].
      * rewrite <- H. exact D.
      * right. exact H.
    + destruct Hn as [<-|Hn]; [|contradiction].
      exists r0. split; [eapply named_kept; eassumption|].
      split; [eapply links_kept; eassumption|].
      destruct D0 as [D0|[D0 _]]; auto.
Qed.

(** ** Update *)

Lemma update_blocks (request : Request) (instance : Experiment)
    (vd : ValidatedData) :
  ExperimentDetailSerializer.update request instance vd =
  (replace_block Tag (user request) (v_tags vd) instance ;;
   replace_block Ingredient (user request) (v_ingredients vd) instance ;;
   Experiment_save (ExperimentDetailSerializer.setattrs (v_fields vd) instance) ;;
   ret (ExperimentDetailSerializer.setattrs (v_fields vd) instance)).
Proof.
  unfold ExperimentDetailSerializer.update, replace_block.
  destruct (v_tags vd), (v_ingredients vd); reflexivity.
Qed.

(** What one block of [update] does. *)
Lemma replace_block_spec m u o instance db :
  exists db' res,
    replace_block m u o instance db = (db', res) /\
    experiment_rows db' = experiment_rows db /\
    experiment_seq db' = experiment_seq db /\
    (forall m', m' <> m ->
       attr_rows m' db' = attr_rows m' db /\ links m' db' = links m' db /\
       attr_seq m' db' = attr_seq m' db) /\
    (exists created, attr_rows m db' = attr_rows m db ++ created) /\
    (o = None -> db' = db /\ res = inr tt) /\
    (forall l, o = Some l ->
       (forall e' a, e' <> exp_id instance ->
          (In (e', a) (links m db') <-> In (e', a) (links m db))) /\
       (forall a, In (exp_id instance, a) (links m db') ->
          exists r, In r (attr_rows m db') /\ attr_id r = a /\
                    attr_user r = u /\ In (attr_name r) (names l)) /\
       (res = inr tt \/ res = inl MultipleObjectsReturned) /\
       (unambiguous m u l db ->
        res = inr tt /\
        forall n, In n (names l) ->
          exists r, named m u n db' = [r] /\
                    In (exp_id instance, attr_id r) (links m db') /\
                    (named m u n db = [r] \/ named m u n db = []))).
Proof.
  destruct o as [l|].
  - unfold replace_block, bind, related_clear, execute.
    set (db0 := set_links m
                  (filter (fun p => negb (fst p =? exp_id instance)) (links m db))
                  (log_query (QClearLinks m (exp_id instance)) db)).
    assert (R0 : forall m', attr_rows m' db0 = attr_rows m' db)
      by (intro m'; destruct m, m'; reflexivity).
    assert (S0 : forall m', attr_seq m' db0 = attr_seq m' db)
      by (intro m'; destruct m, m'; reflexivity).
    assert (L0 : links m db0 =
                 filter (fun p => negb (fst p =? exp_id instance)) (links m db))
      by (destruct m; reflexivity).
    assert (L0' : forall m', m' <> m -> links m' db0 = links m' db)
      by (intros m' Hm; destruct m, m'; try congruence; reflexivity).
    assert (E0 : experiment_rows db0 = experiment_rows db /\
                 experiment_seq db0 = experiment_seq db)
      by (destruct m; split; reflexivity).
    assert (N0 : forall n, named m u n db0 = named m u n db)
      by (intro n; unfold named; rewrite R0; reflexivity).
    destruct (reconcile_grows m u instance l db0) as (db' & res & Hrun & G & Hres).
    exists db', res. split; [exact Hrun|].
    pose proof G as (E1 & S1 & O1 & Q1 & (c & R1 & C1) & (ad & L1 & A1) & _).
    split; [destruct E0; congruence|]. split; [destruct E0; congruence|].
    split.
    { intros m' Hm. destruct (O1 m' Hm) as (? & ? & ?).
      rewrite <- R0, <- (L0' m' Hm), <- S0. auto. }
    split; [exists c; rewrite R1, R0; reflexivity|].
    split; [discriminate|].
    intros l' [= <-]. split; [|split; [|split]].
    + intros e' a He. rewrite L1, in_app_iff, L0, filter_In. simpl.
      split.
      * intros [[H _]|H]; [exact H|].
        rewrite Forall_forall in A1. destruct (A1 _ H) as [Hf _].
        simpl in Hf. congruence.
      * intro H. left. split; [exact H|].
        apply negb_true_iff, Z.eqb_neq. exact He.
    + intros a Ha. rewrite L1, in_app_iff, L0, filter_In in Ha. simpl in Ha.
      destruct Ha as [[_ H]|H].
      * rewrite Z.eqb_refl in H. discriminate.
      * rewrite Forall_forall in A1. destruct (A1 _ H) as [_ Hr]. exact Hr.
    + exact Hres.
    + intro Hun.
      assert (Hun0 : unambiguous m u l db0)
        by (intros n Hn; rewrite N0; apply Hun, Hn).
      destruct (reconcile_ok m u instance l db0 Hun0) as (db2 & Hrun2 & _ & Hall).
      rewrite Hrun in Hrun2. injection Hrun2 as <- ->.
      split; [reflexivity|].
      intros n Hn. destruct (Hall n Hn) as (r & ? & ? & ?).
      exists r. rewrite <- N0. auto.
  - exists db, (inr tt). split; [reflexivity|].
    split; [reflexivity|]. split; [reflexivity|]. split; [auto|].
    split; [exists []; rewrite app_nil_r; reflexivity|].
    split; [auto|discriminate].
Qed.

Lemma save_spec (inst : Experiment) (db : DB) :
  exists db',
    Experiment_save inst db = (db', inr tt) /\
    experiment_rows db' =
      map (fun r => if exp_id r =? exp_id inst then inst else r)
          (experiment_rows db) /\
    (forall m, attr_rows m db' = attr_rows m db /\ links m db' = links m db).
Proof.
  eexists. split; [reflexivity|]. split; [reflexivity|].
  intro m. destruct m; split; reflexivity.
Qed.

Lemma AttrModel_neq_TI : Tag <> Ingredient.
Proof. discriminate. Qed.

Lemma AttrModel_neq_IT : Ingredient <> Tag.
Proof. discriminate. Qed.

(** What [update] of the serializer does to the store. *)
Lemma serializer_update_effect (request : Request) (instance : Experiment)
    (vd : ValidatedData) (db : DB) :
  let u := user request in
  let inst' := ExperimentDetailSerializer.setattrs (v_fields vd) instance in
  exists db' res,
    ExperimentDetailSerializer.update request instance vd db = (db', res) /\
    (forall m, exists created, attr_rows m db' = attr_rows m db ++ created) /\
    (forall m, submitted m vd = None -> links m db' = links m db) /\
    ((res = inr inst' /\
      experiment_rows db' =
        map (fun r => if exp_id r =? exp_id inst' then inst' else r)
            (experiment_rows db)) \/
     (res = inl MultipleObjectsReturned /\
      experiment_rows db' = experiment_rows db)) /\
    ((forall m l, submitted m vd = Some l -> unambiguous m u l db) ->
     res = inr inst' /\
     forall m l, submitted m vd = Some l ->
       (forall e' a, e' <> exp_id instance ->
          (In (e', a) (links m db') <-> In (e', a) (links m db))) /\
       (forall a, In (exp_id instance, a) (links m db') ->
          exists r, In r (attr_rows m db') /\ attr_id r = a /\
                    attr_user r = u /\ In (attr_name r) (names l)) /\
       (forall n, In n (names l) ->
          exists r, named m u n db' = [r] /\
                    In (exp_id instance, attr_id r) (links m db') /\
                    (named m u n db = [r] \/ named m u n db = []))).
Proof.
  intros u inst'. rewrite update_blocks. unfold bind. fold u. fold inst'.
  destruct (replace_block_spec Tag u (v_tags vd) instance db)
    as (db1 & res1 & Run1 & E1 & _ & O1 & (c1 & R1) & No1 & So1).
  rewrite Run1.
  destruct (O1 Ingredient AttrModel_neq_IT) as (RI1 & LI1 & _).
  assert (Res1 : res1 = inr tt \/ res1 = inl MultipleObjectsReturned).
  { destruct (v_tags vd) as [l|].
    - destruct (So1 l eq_refl) as (_ & _ & H & _). exact H.
    - left. apply No1. reflexivity. }
  destruct Res1 as [-> | ->].
  - destruct (replace_block_spec Ingredient u (v_ingredients vd) instance db1)
      as (db2 & res2 & Run2 & E2 & _ & O2 & (c2 & R2) & No2 & So2).
    rewrite Run2.
    destruct (O2 Tag AttrModel_neq_TI) as (RT2 & LT2 & _).
    assert (Res2 : res2 = inr tt \/ res2 = inl MultipleObjectsReturned).
    { destruct (v_ingredients vd) as [l|].
      - destruct (So2 l eq_refl) as (_ & _ & H & _). exact H.
      - left. apply No2. reflexivity. }
    assert (NI1 : forall n, named Ingredient u n db1 = named Ingredient u n db)
      by (intro n; unfold named; rewrite RI1; reflexivity).
    assert (Rows2 : forall m, exists created,
               attr_rows m db2 = attr_rows m db ++ created).
    { intros [|].
      - exists c1. rewrite RT2. exact R1.
      - exists c2. rewrite R2, RI1. reflexivity. }
    assert (Abs2 : forall m, submitted m vd = None -> links m db2 = links m db).
    { intros [|] H; simpl in H.
      - rewrite LT2. destruct (No1 H) as [-> _]. reflexivity.
      - destruct (No2 H) as [-> _]. exact LI1. }
    destruct Res2 as [-> | ->].
    + destruct (save_spec inst' db2) as (db3 & Run3 & E3 & F3).
      rewrite Run3. exists db3, (inr inst').
      split; [reflexivity|]. split; [|split; [|split]].
      * intro m. destruct (F3 m) as [-> _]. apply Rows2.
      * intros m H. destruct (F3 m) as [_ ->]. apply Abs2, H.
      * left. split; [reflexivity|]. rewrite E3, E2, E1. reflexivity.
      * intro Hun. split; [reflexivity|].
        intros m l Hl.
        destruct (F3 m) as [FR FL].
        assert (N3 : forall n, named m u n db3 = named m u n db2)
          by (intro n; unfold named; rewrite FR; reflexivity).
        rewrite FL, FR.
        destruct m; simpl in Hl.
        -- destruct (So1 l Hl) as (A & B & _ & C).
           destruct (C (Hun Tag l Hl)) as [_ D].
           assert (NT2 : forall n, named Tag u n db2 = named Tag u n db1)
             by (intro n; unfold named; rewrite RT2; reflexivity).
           rewrite LT2, RT2.
           split; [exact A|]. split; [exact B|].
           intros n Hn. rewrite N3, NT2. apply D, Hn.
        -- destruct (So2 l Hl) as (A & B & _ & C).
           assert (Hun1 : unambiguous Ingredient u l db1)
             by (intros n Hn; rewrite NI1; apply (Hun Ingredient l Hl), Hn).
           destruct (C Hun1) as [_ D].
           split; [|split; [exact B|]].
           ++ intros e' a He. rewrite (A e' a He), LI1. reflexivity.
           ++ intros n Hn. destruct (D n Hn) as (r & ? & ? & ?).
              exists r. rewrite N3, <- NI1. auto.
    + exists db2, (inl MultipleObjectsReturned).
      split; [reflexivity|]. split; [exact Rows2|]. split; [exact Abs2|].
      split; [right; split; [reflexivity|congruence]|].
      intro Hun. exfalso.
      destruct (v_ingredients vd) as [l|] eqn:Hl.
      * destruct (So2 l eq_refl) as (_ & _ & _ & C).
        assert (Hun1 : unambiguous Ingredient u l db1)
          by (intros n Hn; rewrite NI1; apply (Hun Ingredient l Hl), Hn).
        destruct (C Hun1) as [? _]. discriminate.
      * destruct (No2 eq_refl) as [_ ?]. discriminate.
  - exists db1, (inl MultipleObjectsReturned).
    split; [reflexivity|]. split; [|split; [|split]].
    + intros [|]; [exists c1; exact R1|exists []; rewrite app_nil_r; exact RI1].
    + intros [|] H; simpl in H; [|exact LI1].
      destruct (No1 H) as [-> _]. reflexivity.
    + right. split; [reflexivity|exact E1].
    + intro Hun. exfalso.
      destruct (v_tags vd) as [l|] eqn:Hl.
      * destruct (So1 l eq_refl) as (_ & _ & _ & C).
        destruct (C (Hun Tag l Hl)) as [? _]. discriminate.
      * destruct (No1 eq_refl) as [_ ?]. discriminate.
Qed.

Lemma get_one_In {A} (l : list A) (x : A) : get_one l = inr x -> In x l.
Proof.
  destruct l as [|y [|z l]]; simpl; intro H; try discriminate.
  injection H as <-. left. reflexivity.
Qed.

(** The generic update view: look the object up, validate, update. *)
Lemma view_update_cases (request : Request) (pk : Z) (partial : bool)
    (payload : Payload) (db : DB) :
  let db0 := log_query (QSelectExperiment pk) db in
  ExperimentViewSet.update request pk partial payload db =
  match get_one (filter (fun r => exp_id r =? pk)
                        (ExperimentViewSet.get_queryset request db)) with
  | inr instance =>
      match validate partial payload with
      | inr vd => ExperimentDetailSerializer.update request instance vd db0
      | inl e => (db0, inl e)
      end
  | inl DoesNotExist => (db0, inl Http404)
  | inl e => (db0, inl e)
  end.
Proof.
  unfold ExperimentViewSet.update, bind, ExperimentViewSet.get_object, or_404,
    try_except, Experiment_get, lift, raise.
  destruct (get_one _) as [e|instance]; simpl.
  - destruct e; reflexivity.
  - destruct (validate partial payload); reflexivity.
Qed.

(** C7. No update deletes a tag or an ingredient: after an update request,
    and after [update] of the serializer, each attribute table is the table
    of before, possibly with new rows behind it; clearing the associations
    of an experiment leaves the attribute tables as they are. *)
Theorem update_keeps_attribute_rows (request : Request) (pk : Z)
    (partial : bool) (payload : Payload) (instance : Experiment)
    (vd : ValidatedData) (db : DB) (m m' : AttrModel) :
  (exists created,
      attr_rows m (fst (ExperimentViewSet.update request pk partial payload db))
      = attr_rows m db ++ created) /\
  (exists created,
      attr_rows m (fst (ExperimentDetailSerializer.update request instance vd db))
      = attr_rows m db ++ created) /\
  attr_rows m (fst (related_clear m' instance db)) = attr_rows m db.
Proof.
  assert (Hser : forall inst v d, exists created,
             attr_rows m (fst (ExperimentDetailSerializer.update request inst v d))
             = attr_rows m d ++ created).
  { intros inst v d.
    destruct (serializer_update_effect request inst v d)
      as (db' & res & Run & Rows & _).
    rewrite Run. apply Rows. }
  assert (Hnil : forall q, exists created : list Attr,
             attr_rows m (log_query q db) = attr_rows m db ++ created).
  { intro q. exists []. rewrite app_nil_r. destruct m; reflexivity. }
  split; [|split].
  - rewrite view_update_cases.
    destruct (get_one _) as [e|inst].
    + destruct e; apply Hnil.
    + destruct (validate partial payload) as [e|v]; [apply Hnil|].
      destruct (Hser inst v (log_query (QSelectExperiment pk) db)) as [c Hc].
      exists c. rewrite Hc. destruct m; reflexivity.
  - apply Hser.
  - destruct m, m'; reflexivity.
Qed.


(** ** Create *)

Lemma reconcile_step_queries m u e n db :
  exists qs,
    queries (fst ((r <- Attr_get_or_create m u n ;; related_add m e (fst r)) db))
    = queries db ++ QSelectAttr m u n :: qs /\
    forallb is_reconciler_query qs = true.
Proof.
  unfold bind. rewrite get_or_create_cases.
  destruct (named m u n db) as [|r [|r' rest]]; simpl fst;
    unfold related_add, created_db;
    try match goal with
        | |- context [existsb ?f ?l] => destruct (existsb f l)
        end;
    destruct m; simpl; rewrite <- ?app_assoc; simpl;
    eexists; (split; [reflexivity|reflexivity]).
Qed.

(** The first statement of a run on a non-empty list is the lookup of the
    first name. *)
Lemma reconcile_first_query m u e d l db :
  exists qs,
    queries (fst (reconcile m u (d :: l) e db))
    = queries db ++ QSelectAttr m u (d_name d) :: qs /\
    forallb is_reconciler_query qs = true.
Proof.
  rewrite reconcile_cons.
  destruct (reconcile_step_queries m u e (d_name d) db) as (qs & Q & F).
  destruct ((r <- Attr_get_or_create m u (d_name d) ;; related_add m e (fst r)) db)
    as [db1 [x|[]]]; simpl fst in Q.
  - exists qs. auto.
  - destruct (reconcile_grows m u e l db1)
      as (db' & res & Run & (_ & _ & _ & _ & _ & _ & _ & (qs' & Q' & F')) & _).
    rewrite Run. simpl fst. exists (qs ++ qs'). split.
    + rewrite Q', Q, <- app_assoc. reflexivity.
    + rewrite forallb_app, F, F'. reflexivity.
Qed.

(** What [create] of the serializer does to the store. *)
Lemma serializer_create_effect (request : Request) (vd : ValidatedData)
    (db : DB) :
  let u := user request in
  let kw := v_fields vd in
  let pk := experiment_seq db in
  exists db' res qs,
    ExperimentDetailSerializer.create request vd db = (db', res) /\
    queries db' = queries db ++ QInsertExperiment pk :: qs /\
    forallb is_reconciler_query qs = true /\
    (forall m, exists created added,
        attr_rows m db' = attr_rows m db ++ created /\
        links m db' = links m db ++ added /\
        Forall (fun p => fst p = pk) added) /\
    match k_user kw, k_time_minutes kw, k_price kw with
    | Some owner, Some time_minutes, Some price =>
        let row :=
          mkExperiment pk owner (or_default (k_title kw) EmptyString)
            time_minutes price (or_default (k_link kw) EmptyString)
            (or_default (k_description kw) EmptyString) in
        experiment_rows db' = experiment_rows db ++ [row] /\
        experiment_seq db' = pk + 1 /\
        (res = inr row \/ res = inl MultipleObjectsReturned) /\
        match or_default (v_tags vd) [] with
        | d :: _ => exists qs', qs = QSelectAttr Tag u (d_name d) :: qs'
        | [] => True
        end
    | _, _, _ =>
        res = inl IntegrityError /\ data db' = data db /\ qs = []
    end.
Proof.
  intros u kw pk.
  unfold ExperimentDetailSerializer.create, bind, Experiment_create.
  fold kw. fold pk.
  rewrite get_or_create_tags_reconcile, get_or_create_ingredients_reconcile.
  fold u.
  assert (Hfail : forall db1 : DB,
             db1 = log_query (QInsertExperiment pk) db ->
             exists (db' : DB) (res : Exn + Experiment) (qs : list Query),
               (db1, @inl Exn Experiment IntegrityError) = (db', res) /\
               queries db' = queries db ++ QInsertExperiment pk :: qs /\
               forallb is_reconciler_query qs = true /\
               (forall m, exists created added,
                   attr_rows m db' = attr_rows m db ++ created /\
                   links m db' = links m db ++ added /\
                   Forall (fun p => fst p = pk) added) /\
               res = inl IntegrityError /\ data db' = data db /\ qs = []).
  { intros db1 ->. eexists _, _, []. split; [reflexivity|].
    split; [reflexivity|]. split; [reflexivity|].
    split; [|split; [reflexivity|split; reflexivity]].
    intro m. exists [], []. rewrite !app_nil_r.
    destruct m; repeat split; constructor. }
  destruct (k_user kw) as [owner|];
    [|destruct (Hfail _ eq_refl) as (db' & res & qs & ? & ? & ? & ? & ?);
      exists db', res, qs; auto].
  destruct (k_time_minutes kw) as [time_minutes|];
    [|destruct (Hfail _ eq_refl) as (db' & res & qs & ? & ? & ? & ? & ?);
      exists db', res, qs; auto].
  destruct (k_price kw) as [price|];
    [|destruct (Hfail _ eq_refl) as (db' & res & qs & ? & ? & ? & ? & ?);
      exists db', res, qs; auto].
  clear Hfail.
  set (row := mkExperiment pk owner (or_default (k_title kw) EmptyString)
                time_minutes price (or_default (k_link kw) EmptyString)
                (or_default (k_description kw) EmptyString)).
  set (db0 := set_experiment_seq (pk + 1)
                (set_experiment_rows (experiment_rows db ++ [row])
                   (log_query (QInsertExperiment pk) db))).
  assert (R0 : forall m, attr_rows m db0 = attr_rows m db)
    by (intros [|]; reflexivity).
  assert (L0 : forall m, links m db0 = links m db)
    by (intros [|]; reflexivity).
  destruct (reconcile_grows Tag u row (or_default (v_tags vd) []) db0)
    as (db1 & res1 & Run1 & G1 & Res1).
  pose proof (reconcile_first_query Tag u row) as First.
  rewrite Run1.
  pose proof G1 as (E1 & S1 & O1 & _ & (c1 & R1 & _) & (a1 & L1 & A1) & _ & (q1 & Q1 & F1)).
  destruct (O1 Ingredient AttrModel_neq_IT) as (RI1 & LI1 & _).
  assert (Hfirst : forall qs2,
             match or_default (v_tags vd) [] with
             | d :: _ => exists qs', q1 ++ qs2 = QSelectAttr Tag u (d_name d) :: qs'
             | [] => True
             end).
  { intro qs2. destruct (or_default (v_tags vd) []) as [|d l]; [exact I|].
    destruct (First d l db0) as (qs' & Hq & _).
    rewrite Run1 in Hq. simpl fst in Hq. rewrite Q1 in Hq.
    apply app_inv_head in Hq. subst q1. eexists. reflexivity. }
  assert (Aexp : Forall (fun p : Z * Z => fst p = pk) a1).
  { eapply Forall_impl; [|exact A1]. simpl. intros p [H _]. exact H. }
  destruct Res1 as [-> | ->].
  - destruct (reconcile_grows Ingredient u row (or_default (v_ingredients vd) []) db1)
      as (db2 & res2 & Run2 & G2 & Res2).
    rewrite Run2.
    pose proof G2 as (E2 & S2 & O2 & _ & (c2 & R2 & _) & (a2 & L2 & A2) & _ & (q2 & Q2 & F2)).
    destruct (O2 Tag AttrModel_neq_TI) as (RT2 & LT2 & _).
    assert (Aexp2 : Forall (fun p : Z * Z => fst p = pk) a2).
    { eapply Forall_impl; [|exact A2]. simpl. intros p [H _]. exact H. }
    assert (Common :
      queries db2 = queries db ++ QInsertExperiment pk :: (q1 ++ q2) /\
      forallb is_reconciler_query (q1 ++ q2) = true /\
      (forall m, exists created added,
          attr_rows m db2 = attr_rows m db ++ created /\
          links m db2 = links m db ++ added /\
          Forall (fun p => fst p = pk) added) /\
      experiment_rows db2 = experiment_rows db ++ [row] /\
      experiment_seq db2 = pk + 1).
    { split; [|split; [|split; [|split]]].
      - rewrite Q2, Q1. subst db0. simpl. rewrite <- !app_assoc. reflexivity.
      - rewrite forallb_app, F1, F2. reflexivity.
      - intros [|].
        + exists c1, a1. rewrite RT2, LT2, R1, L1, R0, L0. auto.
        + exists c2, a2. rewrite R2, L2, RI1, LI1, R0, L0. auto.
      - rewrite E2, E1. reflexivity.
      - rewrite S2, S1. reflexivity. }
    destruct Common as (CQ & CF & CM & CE & CS).
    destruct Res2 as [-> | ->].
    + exists db2, (inr row), (q1 ++ q2). simpl.
      repeat split; auto. apply Hfirst.
    + exists db2, (inl MultipleObjectsReturned), (q1 ++ q2). simpl.
      repeat split; auto. apply Hfirst.
  - exists db1, (inl MultipleObjectsReturned), q1.
    split; [reflexivity|]. split; [|split; [exact F1|split; [|split; [|split; [|split]]]]].
    + rewrite Q1. subst db0. simpl. rewrite <- !app_assoc. reflexivity.
    + intros [|].
      * exists c1, a1. rewrite R1, L1, R0, L0. auto.
      * exists [], []. rewrite !app_nil_r, RI1, LI1, R0, L0. auto.
    + rewrite E1. reflexivity.
    + rewrite S1. reflexivity.
    + auto.
    + specialize (Hfirst []). rewrite app_nil_r in Hfirst. exact Hfirst.
Qed.

Lemma view_create_cases (request : Request) (payload : Payload) (db : DB) :
  ExperimentViewSet.create request payload db =
  match validate false payload with
  | inr vd =>
      ExperimentDetailSerializer.create request (with_user (user request) vd) db
  | inl e => (db, inl e)
  end.
Proof.
  unfold ExperimentViewSet.create, ExperimentViewSet.perform_create, bind, lift.
  destruct (validate false payload); reflexivity.
Qed.

(** The validated data are the writable fields of the payload. *)
Lemma validate_fields (partial : bool) (payload : Payload) (vd : ValidatedData) :
  validate partial payload = inr vd ->
  vd = mkValidated
         (mkKwargs None (p_title payload) (p_time_minutes payload)
                   (p_price payload) (p_link payload) (p_description payload))
         (p_tags payload) (p_ingredients payload) /\
  (partial = false ->
   is_some (p_time_minutes payload) = true /\
   is_some (p_price payload) = true).
Proof.
  unfold validate.
  destruct (partial || _) eqn:E; intro H; [|discriminate].
  injection H as <-. split; [reflexivity|].
  intros ->. simpl in E.
  apply andb_true_iff in E. destruct E as [E ?].
  apply andb_true_iff in E. destruct E as [_ ?]. auto.
Qed.





(** C2 (as amended). On creation the experiment is persisted first and the
    reconciler runs afterwards, on the persisted record: the INSERT of the
    experiment is the first statement of [create], every statement after it
    is one of the reconciler, the associations made carry the key that the
    INSERT assigned, and when tags are submitted and the row could be
    stored, the lookup of the first tag is the statement right after the
    INSERT.  So the order "reconciler before persist" never holds of these
    statements. *)
Theorem create_persists_then_reconciles (request : Request)
    (vd : ValidatedData) (db : DB) :
  let out := ExperimentDetailSerializer.create request vd db in
  let pk := experiment_seq db in
  exists qs,
    queries (fst out) = queries db ++ QInsertExperiment pk :: qs /\
    forallb is_reconciler_query qs = true /\
    reconciler_before_persist (QInsertExperiment pk :: qs) = false /\
    (forall m, exists added,
        links m (fst out) = links m db ++ added /\
        Forall (fun p => fst p = pk) added) /\
    match v_tags vd with
    | Some (d :: _) =>
        if insertable (v_fields vd)
        then exists qs', qs = QSelectAttr Tag (user request) (d_name d) :: qs'
        else qs = []
    | _ => True
    end.
Proof.
  intros out pk. subst out pk.
  destruct (serializer_create_effect request vd db)
    as (db' & res & qs & Run & Q & F & L & Hrow).
  rewrite Run. simpl fst. exists qs.
  split; [exact Q|]. split; [exact F|]. split; [reflexivity|]. split.
  - intro m. destruct (L m) as (c & a & _ & La & Fa). exists a. auto.
  - unfold insertable.
    destruct (v_tags vd) as [[|d l]|]; try exact I.
    simpl in Hrow.
    destruct (k_user (v_fields vd)); [|simpl; tauto].
    destruct (k_time_minutes (v_fields vd)); [|simpl; tauto].
    destruct (k_price (v_fields vd)); [|simpl; tauto].
    simpl. tauto.
Qed.

(** C2, the claim as stated fails: on the creation of an experiment with
    the tags [female] and [sleep] in the empty store, the INSERT of the
    experiment is the first statement and the reconciler's come after it. *)
Lemma reconciler_not_before_persist :
  queries
    (fst (ExperimentViewSet.create Samples.alice
            (Samples.sample_payload
               (Some [Samples.tag "female"; Samples.tag "sleep"]) None)
            empty_db))
  = [QInsertExperiment 1;
     QSelectAttr Tag 1 "female"; QInsertAttr Tag 1; QInsertLink Tag 1 1;
     QSelectAttr Tag 1 "sleep"; QInsertAttr Tag 2; QInsertLink Tag 1 2] /\
  reconciler_before_persist
    (queries
       (fst (ExperimentViewSet.create Samples.alice
               (Samples.sample_payload
                  (Some [Samples.tag "female"; Samples.tag "sleep"]) None)
               empty_db)))
  = false.
Proof. split; reflexivity. Qed.

(** ** Get-or-create *)

Lemma get_or_create_attrs_reconcile (m : AttrModel) (request : Request) :
  get_or_create_attrs m request = reconcile m (user request).
Proof. destruct m; reflexivity. Qed.


(** C1. The flag is not looked at: the list of a requester is the same with
    any query string.  In the store of the repository's test on the filter
    (two tags, the first one associated with an experiment), the request
    with [assigned_only=1] returns both tags, the unassigned one included. *)
Theorem assigned_only_not_applied :
  (forall m u params db,
      BaseExperimentAttrViewSet.get_queryset m (mkRequest u params) db =
      BaseExperimentAttrViewSet.get_queryset m (mkRequest u []) db) /\
  snd (TagViewSet.list Samples.assigned_only_request Samples.db_assigned_test)
  = inr [mkAttr 2 1 "Tag test filter 2"; mkAttr 1 1 "Tag test filter 1"] /\
  assigned Tag Samples.db_assigned_test (mkAttr 1 1 "Tag test filter 1") = true /\
  assigned Tag Samples.db_assigned_test (mkAttr 2 1 "Tag test filter 2") = false.
Proof. repeat split; reflexivity. Qed.


(** ** Repeated names *)

Lemma data_eq (db1 db2 : DB) :
  data db1 = data db2 <->
  experiment_rows db1 = experiment_rows db2 /\
  experiment_seq db1 = experiment_seq db2 /\
  forall m, attr_rows m db1 = attr_rows m db2 /\
            links m db1 = links m db2 /\
            attr_seq m db1 = attr_seq m db2.
Proof.
  unfold data. split.
  - intros [= ? ? ? ? ? ? ? ?]. repeat split; auto; destruct m; auto.
  - intros (H1 & H2 & H3).
    destruct (H3 Tag) as (? & ? & ?), (H3 Ingredient) as (? & ? & ?).
    simpl in *. congruence.
Qed.

Lemma related_add_data m e r db1 db2 :
  data db1 = data db2 ->
  data (fst (related_add m e r db1)) = data (fst (related_add m e r db2)) /\
  snd (related_add m e r db1) = snd (related_add m e r db2).
Proof.
  intro H. pose proof (proj1 (data_eq db1 db2) H) as (H1 & H2 & H3).
  unfold related_add. destruct (H3 m) as (_ & -> & _).
  destruct (existsb _ _); simpl; [auto|].
  split; [|reflexivity]. apply data_eq.
  destruct (H3 Tag) as (? & ? & ?), (H3 Ingredient) as (? & ? & ?).
  destruct m; simpl in *; repeat split; auto; destruct m; simpl; congruence.
Qed.

Lemma created_db_data m u n db1 db2 :
  data db1 = data db2 -> data (created_db m u n db1) = data (created_db m u n db2).
Proof.
  intro H. pose proof (proj1 (data_eq db1 db2) H) as (H1 & H2 & H3).
  apply data_eq.
  destruct (H3 Tag) as (? & ? & ?), (H3 Ingredient) as (? & ? & ?).
  destruct m; simpl in *; repeat split; auto; destruct m; simpl; congruence.
Qed.

(** One round of the loop depends on the tables only, not on the log. *)
Lemma reconcile_step_data m u e n db1 db2 :
  data db1 = data db2 ->
  data (fst ((r <- Attr_get_or_create m u n ;; related_add m e (fst r)) db1)) =
  data (fst ((r <- Attr_get_or_create m u n ;; related_add m e (fst r)) db2)) /\
  snd ((r <- Attr_get_or_create m u n ;; related_add m e (fst r)) db1) =
  snd ((r <- Attr_get_or_create m u n ;; related_add m e (fst r)) db2).
Proof.
  intro H. pose proof (proj1 (data_eq db1 db2) H) as (H1 & H2 & H3).
  unfold bind. rewrite !get_or_create_cases.
  assert (N : named m u n db1 = named m u n db2)
    by (unfold named; destruct (H3 m) as (-> & _); reflexivity).
  assert (S : attr_seq m db1 = attr_seq m db2) by apply H3.
  rewrite N, S.
  destruct (named m u n db2) as [|r [|r' rest]]; simpl fst.
  - apply related_add_data, created_db_data, H.
  - apply related_add_data. rewrite !data_log_query. exact H.
  - simpl. rewrite !data_log_query. auto.
Qed.

(** A name that already has its one row, associated with the experiment, is
    passed over: the round changes no table. *)
Lemma reconcile_step_seen m u e n db r :
  named m u n db = [r] -> In (exp_id e, attr_id r) (links m db) ->
  (x <- Attr_get_or_create m u n ;; related_add m e (fst x)) db =
  (log_query (QSelectAttr m u n) db, inr tt).
Proof.
  intros N L. unfold bind. rewrite get_or_create_cases, N. simpl fst.
  unfold related_add.
  assert (E : existsb (pair_eqb (exp_id e, attr_id r))
                (links m (log_query (QSelectAttr m u n) db)) = true).
  { apply existsb_exists. exists (exp_id e, attr_id r). split.
    - destruct m; exact L.
    - apply pair_eqb_true. reflexivity. }
  rewrite E. reflexivity.
Qed.

Lemma reconcile_without_repeats m u e l :
  forall seen db1 db2,
    data db1 = data db2 ->
    (forall n, In n seen ->
       exists r, named m u n db1 = [r] /\
                 In (exp_id e, attr_id r) (links m db1)) ->
    data (fst (reconcile m u l e db1)) =
    data (fst (reconcile m u (without_repeats_from seen l) e db2)) /\
    snd (reconcile m u l e db1) =
    snd (reconcile m u (without_repeats_from seen l) e db2).
Proof.
  induction l as [|d l IH]; intros seen db1 db2 Hd Hseen.
  - simpl. auto.
  - simpl without_repeats_from.
    destruct (existsb (String.eqb (d_name d)) seen) eqn:E.
    + apply existsb_exists in E. destruct E as (n & Hn & En).
      apply String.eqb_eq in En. subst n.
      destruct (Hseen _ Hn) as (r & N & L).
      rewrite reconcile_cons, (reconcile_step_seen m u e _ db1 r N L).
      apply IH.
      * rewrite data_log_query. exact Hd.
      * intros n' Hn'. destruct (Hseen _ Hn') as (r' & N' & L').
        exists r'. split; [|destruct m; exact L'].
        unfold named in *. destruct m; exact N'.
    + rewrite !reconcile_cons.
      destruct (reconcile_step_data m u e (d_name d) db1 db2 Hd) as [Dd Ds].
      destruct (reconcile_step m u e (d_name d) db1)
        as (db1' & res & Run & G & Hok & Herr).
      rewrite Run in *. simpl in Dd, Ds.
      destruct ((r <- Attr_get_or_create m u (d_name d) ;;
                 related_add m e (fst r)) db2) as [db2' res2].
      simpl in Dd, Ds. subst res2.
      destruct res as [x|[]]; [simpl; auto|].
      apply IH; [exact Dd|].
      assert (Hle : (List.length (named m u (d_name d) db1) <= 1)%nat).
      { destruct (le_lt_dec (List.length (named m u (d_name d) db1)) 1) as [H|H];
          [exact H|].
        destruct (Herr H) as [? _]. discriminate. }
      destruct (Hok Hle) as (_ & r & N & L & _).
      intros n [<-|Hn].
      * exists r. auto.
      * destruct (Hseen _ Hn) as (r' & N' & L').
        exists r'. split; [eapply named_kept; eassumption|].
        eapply links_kept; eassumption.
Qed.

(** C6 (as amended).  Repeating a name in a submitted list changes nothing:
    whatever the store, the run on the list leaves the same tables and ends
    in the same way as the run on the list without the repetitions.  In a
    store whose join table holds no pair twice, and when no submitted name
    is carried by two rows of the requester, the list is reconciled without
    error: every submitted name, however often it occurs, ends with exactly
    one row of the requester, and the pair of the experiment and that row is
    in the join table exactly once. *)
Theorem repeated_names_associate_once (m : AttrModel) (request : Request)
    (l : list descriptor) (e : Experiment) (db : DB) :
  (data (fst (get_or_create_attrs m request l e db)) =
   data (fst (get_or_create_attrs m request (without_repeats l) e db)) /\
   snd (get_or_create_attrs m request l e db) =
   snd (get_or_create_attrs m request (without_repeats l) e db)) /\
  (NoDup (links m db) ->
   unambiguous m (user request) l db ->
   exists db',
     get_or_create_attrs m request l e db = (db', inr tt) /\
     NoDup (links m db') /\
     forall n, In n (names l) ->
       exists r,
         named m (user request) n db' = [r] /\
         count_occ pair_dec (links m db') (exp_id e, attr_id r) = 1%nat).
Proof.
  rewrite get_or_create_attrs_reconcile. split.
  - apply reconcile_without_repeats; [reflexivity|]. intros n [].
  - intros Hnd Hun.
    destruct (reconcile_ok m (user request) e l db Hun) as (db' & Run & G & Hall).
    exists db'. split; [exact Run|].
    assert (Hnd' : NoDup (links m db')).
    { destruct G as (_ & _ & _ & _ & _ & _ & N & _). apply N, Hnd. }
    split; [exact Hnd'|].
    intros n Hn. destruct (Hall n Hn) as (r & N & L & _).
    exists r. split; [exact N|].
    apply (proj1 (NoDup_count_occ' pair_dec (links m db')) Hnd'). exact L.
Qed.

(** ** Every reachable store is well-formed *)

Lemma wf_log_query (q : Query) (db : DB) : wf db -> wf (log_query q db).
Proof.
  intros (H1 & H2 & H3). split; [exact H1|]. split; [exact H2|].
  intro m. destruct (H3 m) as (? & ? & ?). destruct m; auto.
Qed.

Lemma keeps_wf_ret {A} (a : A) : keeps_wf (ret a).
Proof. intros db H. exact H. Qed.

Lemma keeps_wf_raise {A} (e : Exn) : keeps_wf (@raise A e).
Proof. intros db H. exact H. Qed.

Lemma keeps_wf_lift {A} (r : Exn + A) : keeps_wf (lift r).
Proof. intros db H. exact H. Qed.

Lemma keeps_wf_bind {A B} (c : M A) (k : A -> M B) :
  keeps_wf c -> (forall a, keeps_wf (k a)) -> keeps_wf (bind c k).
Proof.
  intros Hc Hk db H. unfold bind. specialize (Hc db H).
  destruct (c db) as [db1 [e|a]]; simpl in *; [exact Hc|].
  apply Hk, Hc.
Qed.

Lemma keeps_wf_try_except {A} (c : M A) (e : Exn -> bool) (h : M A) :
  keeps_wf c -> keeps_wf h -> keeps_wf (try_except c e h).
Proof.
  intros Hc Hh db H. unfold try_except. specialize (Hc db H).
  destruct (c db) as [db1 [x|a]]; simpl in *; [|exact Hc].
  destruct (e x); [apply Hh, Hc|exact Hc].
Qed.

Lemma keeps_wf_for_each {A} (l : list A) (body : A -> M unit) :
  (forall x, keeps_wf (body x)) -> keeps_wf (for_each l body).
Proof.
  intro Hb. induction l as [|x xs IH]; simpl.
  - apply keeps_wf_ret.
  - apply keeps_wf_bind; auto.
Qed.

Lemma NoDup_map_filter {A B} (f : A -> B) (g : A -> bool) (l : list A) :
  NoDup (map f l) -> NoDup (map f (filter g l)).
Proof.
  induction l as [|x xs IH]; simpl; intro H; [constructor|].
  inversion H as [|? ? Hx Hxs]; subst.
  destruct (g x); simpl; auto.
  constructor; auto.
  intro Hin. apply Hx. apply in_map_iff in Hin.
  destruct Hin as (y & Hy & Hin). apply filter_In in Hin.
  apply in_map_iff. exists y. tauto.
Qed.

Lemma Forall_map_filter {A B} (P : B -> Prop) (f : A -> B) (g : A -> bool)
    (l : list A) :
  Forall P (map f l) -> Forall P (map f (filter g l)).
Proof.
  induction l as [|x xs IH]; simpl; intro H; [constructor|].
  inversion H; subst. destruct (g x); simpl; auto.
Qed.

Lemma NoDup_filter {A} (g : A -> bool) (l : list A) :
  NoDup l -> NoDup (filter g l).
Proof.
  intro H. rewrite <- (map_id (filter g l)).
  apply NoDup_map_filter. rewrite map_id. exact H.
Qed.

Lemma map_replace_same {A B} (f : A -> B) (h : A -> bool) (x : A)
    (l : list A) :
  (forall y, h y = true -> f x = f y) ->
  map f (map (fun y => if h y then x else y) l) = map f l.
Proof.
  intro H. induction l as [|y ys IH]; simpl; [reflexivity|].
  rewrite IH. destruct (h y) eqn:E; [rewrite (H y E)|]; reflexivity.
Qed.

Lemma NoDup_snoc_fresh (l : list Z) (s : Z) :
  NoDup l -> Forall (fun pk => pk < s) l ->
  NoDup (l ++ [s]) /\ Forall (fun pk => pk < s + 1) (l ++ [s]).
Proof.
  intros Hn Hf. split.
  - apply NoDup_app; [exact Hn|repeat constructor; auto|].
    intros x Hx [<-|[]]. rewrite Forall_forall in Hf.
    specialize (Hf _ Hx). lia.
  - apply Forall_app. split.
    + eapply Forall_impl; [|exact Hf]. simpl. intros. lia.
    + repeat constructor. lia.
Qed.

Lemma keeps_wf_Experiment_create (kw : ExperimentKwargs) :
  keeps_wf (Experiment_create kw).
Proof.
  intros db H. unfold Experiment_create.
  destruct (k_user kw); [|apply wf_log_query, H].
  destruct (k_time_minutes kw); [|apply wf_log_query, H].
  destruct (k_price kw); [|apply wf_log_query, H].
  destruct H as (H1 & H2 & H3). simpl.
  destruct (NoDup_snoc_fresh _ _ H1 H2) as [N F].
  unfold wf. simpl. rewrite map_app. simpl.
  split; [exact N|]. split; [exact F|].
  intro m. destruct (H3 m) as (? & ? & ?). destruct m; auto.
Qed.

Lemma keeps_wf_Experiment_save (instance : Experiment) :
  keeps_wf (Experiment_save instance).
Proof.
  intros db (H1 & H2 & H3). unfold Experiment_save, execute, wf. simpl.
  rewrite map_replace_same
    by (intros y Hy; apply Z.eqb_eq in Hy; congruence).
  split; [exact H1|]. split; [exact H2|].
  intro m. destruct (H3 m) as (? & ? & ?). destruct m; auto.
Qed.

Lemma keeps_wf_Experiment_delete (instance : Experiment) :
  keeps_wf (Experiment_delete instance).
Proof.
  intros db (H1 & H2 & H3). unfold Experiment_delete, execute, wf. simpl.
  split; [apply NoDup_map_filter, H1|].
  split; [apply Forall_map_filter, H2|].
  intro m. destruct (H3 m) as (? & ? & ?).
  destruct m; simpl; repeat split; auto; apply NoDup_filter; assumption.
Qed.

Lemma keeps_wf_Attr_get (m : AttrModel) (u : UserId) (n : string) :
  keeps_wf (Attr_get m u n).
Proof. intros db H. apply wf_log_query, H. Qed.

Lemma keeps_wf_Attr_create (m : AttrModel) (u : UserId) (n : string) :
  keeps_wf (Attr_create m u n).
Proof.
  intros db (H1 & H2 & H3). unfold Attr_create, wf.
  destruct (H3 m) as (N & F & L).
  destruct (NoDup_snoc_fresh _ _ N F) as [N' F'].
  destruct (H3 Tag) as (? & ? & ?), (H3 Ingredient) as (? & ? & ?).
  destruct m; simpl; (split; [exact H1|]; split; [exact H2|]);
    intros [|]; simpl; rewrite ?map_app; simpl; auto.
Qed.

Lemma keeps_wf_Attr_get_or_create (m : AttrModel) (u : UserId) (n : string) :
  keeps_wf (Attr_get_or_create m u n).
Proof.
  unfold Attr_get_or_create. apply keeps_wf_try_except.
  - apply keeps_wf_bind; [apply keeps_wf_Attr_get|intro; apply keeps_wf_ret].
  - apply keeps_wf_bind; [apply keeps_wf_Attr_create|intro; apply keeps_wf_ret].
Qed.

Lemma keeps_wf_Attr_save (m : AttrModel) (instance : Attr) :
  keeps_wf (Attr_save m instance).
Proof.
  intros db (H1 & H2 & H3). unfold Attr_save, execute, wf.
  destruct (H3 Tag) as (? & ? & ?), (H3 Ingredient) as (? & ? & ?).
  destruct m; simpl; (split; [exact H1|]; split; [exact H2|]);
    intros [|]; simpl; auto;
    rewrite map_replace_same
      by (intros y Hy; apply Z.eqb_eq in Hy; congruence);
    auto.
Qed.

Lemma keeps_wf_Attr_delete (m : AttrModel) (instance : Attr) :
  keeps_wf (Attr_delete m instance).
Proof.
  intros db (H1 & H2 & H3). unfold Attr_delete, execute, wf.
  destruct (H3 Tag) as (? & ? & ?), (H3 Ingredient) as (? & ? & ?).
  destruct m; simpl; (split; [exact H1|]; split; [exact H2|]);
    intros [|]; simpl; auto; repeat split;
    auto using NoDup_map_filter, Forall_map_filter, NoDup_filter.
Qed.

Lemma keeps_wf_related_add (m : AttrModel) (e : Experiment) (obj : Attr) :
  keeps_wf (related_add m e obj).
Proof.
  intros db H. unfold related_add.
  destruct (existsb _ _) eqn:E; [exact H|].
  destruct H as (H1 & H2 & H3). unfold wf.
  assert (Hnew : NoDup (links m db ++ [(exp_id e, attr_id obj)])).
  { destruct (H3 m) as (_ & _ & L).
    apply NoDup_app; [exact L|repeat constructor; auto|].
    intros p Hp [<-|[]].
    assert (existsb (pair_eqb (exp_id e, attr_id obj)) (links m db) = true).
    { apply existsb_exists. exists (exp_id e, attr_id obj).
      split; [exact Hp|apply pair_eqb_true; reflexivity]. }
    congruence. }
  destruct (H3 Tag) as (? & ? & ?), (H3 Ingredient) as (? & ? & ?).
  destruct m; simpl; (split; [exact H1|]; split; [exact H2|]);
    intros [|]; simpl; auto.
Qed.

Lemma keeps_wf_related_clear (m : AttrModel) (e : Experiment) :
  keeps_wf (related_clear m e).
Proof.
  intros db (H1 & H2 & H3). unfold related_clear, execute, wf.
  destruct (H3 Tag) as (? & ? & ?), (H3 Ingredient) as (? & ? & ?).
  destruct m; simpl; (split; [exact H1|]; split; [exact H2|]);
    intros [|]; simpl; auto using NoDup_filter.
Qed.

Lemma keeps_wf_reconcile (m : AttrModel) (u : UserId) (l : list descriptor)
    (e : Experiment) :
  keeps_wf (reconcile m u l e).
Proof.
  apply keeps_wf_for_each. intro d.
  apply keeps_wf_bind; [apply keeps_wf_Attr_get_or_create|].
  intro r. apply keeps_wf_related_add.
Qed.

Lemma keeps_wf_replace_block m u o instance :
  keeps_wf (replace_block m u o instance).
Proof.
  destruct o as [l|]; simpl; [|apply keeps_wf_ret].
  apply keeps_wf_bind; [apply keeps_wf_related_clear|].
  intro. apply keeps_wf_reconcile.
Qed.

Lemma keeps_wf_serializer_create (request : Request) (vd : ValidatedData) :
  keeps_wf (ExperimentDetailSerializer.create request vd).
Proof.
  unfold ExperimentDetailSerializer.create.
  rewrite get_or_create_tags_reconcile, get_or_create_ingredients_reconcile.
  apply keeps_wf_bind; [apply keeps_wf_Experiment_create|]. intro e.
  apply keeps_wf_bind; [apply keeps_wf_reconcile|]. intro.
  apply keeps_wf_bind; [apply keeps_wf_reconcile|]. intro.
  apply keeps_wf_ret.
Qed.

Lemma keeps_wf_serializer_update (request : Request) (instance : Experiment)
    (vd : ValidatedData) :
  keeps_wf (ExperimentDetailSerializer.update request instance vd).
Proof.
  rewrite update_blocks.
  apply keeps_wf_bind; [apply keeps_wf_replace_block|]. intro.
  apply keeps_wf_bind; [apply keeps_wf_replace_block|]. intro.
  apply keeps_wf_bind; [apply keeps_wf_Experiment_save|]. intro.
  apply keeps_wf_ret.
Qed.

Lemma keeps_wf_experiment_get_object (request : Request) (pk : Z) :
  keeps_wf (ExperimentViewSet.get_object request pk).
Proof.
  intros db H.
  unfold ExperimentViewSet.get_object, or_404, try_except, Experiment_get, raise.
  destruct (get_one _) as [x|a]; simpl; [destruct (is_DoesNotExist x)|];
    simpl; apply wf_log_query, H.
Qed.

Lemma keeps_wf_attr_get_object (m : AttrModel) (request : Request) (pk : Z) :
  keeps_wf (BaseExperimentAttrViewSet.get_object m request pk).
Proof.
  intros db H.
  unfold BaseExperimentAttrViewSet.get_object, or_404, try_except, Attr_get_pk,
    raise.
  destruct (get_one _) as [x|a]; simpl; [destruct (is_DoesNotExist x)|];
    simpl; apply wf_log_query, H.
Qed.

Lemma wf_empty_db : wf empty_db.
Proof.
  split; [constructor|]. split; [constructor|].
  intros [|]; repeat split; constructor.
Qed.

(** The hypotheses on the store that the theorems above make hold of every
    store the API leads to. *)
Lemma reachable_wf (db : DB) : reachable db -> wf db.
Proof.
  induction 1 as [|request db _ IH|request payload db _ IH
                  |request pk db _ IH|request pk partial payload db _ IH
                  |request pk db _ IH|m request db _ IH
                  |m request pk partial payload db _ IH
                  |m request pk db _ IH].
  - apply wf_empty_db.
  - apply wf_log_query, IH.
  - revert db IH. change (keeps_wf (ExperimentViewSet.create request payload)).
    apply keeps_wf_bind; [apply keeps_wf_lift|]. intro vd.
    apply keeps_wf_serializer_create.
  - revert db IH. apply keeps_wf_experiment_get_object.
  - revert db IH.
    change (keeps_wf (ExperimentViewSet.update request pk partial payload)).
    apply keeps_wf_bind; [apply keeps_wf_experiment_get_object|]. intro inst.
    apply keeps_wf_bind; [apply keeps_wf_lift|]. intro vd.
    apply keeps_wf_serializer_update.
  - revert db IH. change (keeps_wf (ExperimentViewSet.destroy request pk)).
    apply keeps_wf_bind; [apply keeps_wf_experiment_get_object|]. intro inst.
    apply keeps_wf_Experiment_delete.
  - apply wf_log_query, IH.
  - revert db IH.
    change (keeps_wf (BaseExperimentAttrViewSet.update m request pk partial payload)).
    apply keeps_wf_bind; [apply keeps_wf_attr_get_object|]. intro inst.
    apply keeps_wf_bind; [apply keeps_wf_lift|]. intro vd.
    apply keeps_wf_bind; [apply keeps_wf_Attr_save|]. intro.
    apply keeps_wf_ret.
  - revert db IH.
    change (keeps_wf (BaseExperimentAttrViewSet.destroy m request pk)).
    apply keeps_wf_bind; [apply keeps_wf_attr_get_object|]. intro inst.
    apply keeps_wf_Attr_delete.
Qed.

Lemma reachable_unique_pks (db : DB) :
  reachable db -> unique_pks db /\ forall m, NoDup (links m db).
Proof.
  intro H. apply reachable_wf in H. destruct H as (H1 & _ & H3).
  split; [split; [exact H1|]|]; intro m; destruct (H3 m) as (? & ? & ?); auto.
Qed.

(** The store with two tags of one name and one owner is reachable. *)
Lemma db_renamed_reachable : reachable Samples.db_renamed.
Proof.
  unfold Samples.db_renamed, Samples.db_two_users, TagViewSet.update.
  repeat constructor.
Qed.

(** ** Lists *)


(** ** The claims as stated, on a store with two rows of one name

    The store [db_renamed] is reached through the API alone: two create
    requests and one PATCH that renames a tag.  In it Alice owns two tags
    called [Night]. *)



(** C6, the claim as stated fails: Alice creates an experiment with the
    list [[Night; Night]].  No occurrence resolves to a row: the first
    lookup raises, and the pair of the new experiment (key 3) with either
    row called [Night] is in the join table zero times, not once. *)
Lemma repeated_name_not_associated :
  snd (ExperimentViewSet.create Samples.alice
         (Samples.sample_payload
            (Some [Samples.tag "Night"; Samples.tag "Night"]) None)
         Samples.db_renamed)
  = inl MultipleObjectsReturned /\
  forall r,
    In r (named Tag 1 "Night"
            (fst (ExperimentViewSet.create Samples.alice
                    (Samples.sample_payload
                       (Some [Samples.tag "Night"; Samples.tag "Night"]) None)
                    Samples.db_renamed))) ->
    count_occ pair_dec
      (links Tag
         (fst (ExperimentViewSet.create Samples.alice
                 (Samples.sample_payload
                    (Some [Samples.tag "Night"; Samples.tag "Night"]) None)
                 Samples.db_renamed)))
      (3, attr_id r)
    = 0%nat.
Proof.
  split; [vm_compute; reflexivity|].
  assert (E : fst (ExperimentViewSet.create Samples.alice
                     (Samples.sample_payload
                        (Some [Samples.tag "Night"; Samples.tag "Night"]) None)
                     Samples.db_renamed)
              = log_query (QSelectAttr Tag 1 "Night")
                  (fst (Experiment_create
                          (mkKwargs (Some 1) (Some "Sample"%string) (Some 22)
                                    (Some 522) None None)
                          Samples.db_renamed)))
    by (vm_compute; reflexivity).
  rewrite E. clear E.
  assert (N : named Tag 1 "Night"
                (log_query (QSelectAttr Tag 1 "Night")
                   (fst (Experiment_create
                           (mkKwargs (Some 1) (Some "Sample"%string) (Some 22)
                                     (Some 522) None None)
                           Samples.db_renamed)))
              = [mkAttr 1 1 "Night"; mkAttr 2 1 "Night"])
    by (vm_compute; reflexivity).
  assert (L : links Tag
                (log_query (QSelectAttr Tag 1 "Night")
                   (fst (Experiment_create
                           (mkKwargs (Some 1) (Some "Sample"%string) (Some 22)
                                     (Some 522) None None)
                           Samples.db_renamed)))
              = [(1, 1); (1, 2); (2, 3)])
    by (vm_compute; reflexivity).
  rewrite N, L. intros r [<-|[<-|[]]]; reflexivity.
Qed.

(** ** The theorems at concrete requests *)

Ltac concrete_nodup :=
  repeat (constructor; [simpl; intuition discriminate|]); constructor.

Lemma ownership_isolation_witness :
  user Samples.alice <> user Samples.bob /\
  unique_pks Samples.db_two_users /\
  not_found (ExperimentViewSet.retrieve Samples.bob 1) Samples.db_two_users /\
  not_found (TagViewSet.destroy Samples.bob 1) Samples.db_two_users.
Proof.
  assert (Hab : user Samples.alice <> user Samples.bob) by discriminate.
  assert (Hpk : unique_pks Samples.db_two_users).
  { split; [|intros [|]]; vm_compute; concrete_nodup. }
  split; [exact Hab|]. split; [exact Hpk|].
  destruct (ownership_isolation Samples.alice Samples.bob Samples.db_two_users
              Hab Hpk) as (Hexp & Hattr & _).
  split.
  - apply (Hexp Samples.alice_experiment); [|reflexivity].
    vm_compute. left. reflexivity.
  - apply (Hattr Tag (mkAttr 1 1 "Night")); [|reflexivity].
    vm_compute. left. reflexivity.
Defined.


Lemma repeated_names_associate_once_witness :
  NoDup (links Tag Samples.db_two_users) /\
  unambiguous Tag 1 [Samples.tag "Dawn"; Samples.tag "Night"; Samples.tag "Dawn"]
              Samples.db_two_users /\
  exists db',
    get_or_create_attrs Tag Samples.alice
      [Samples.tag "Dawn"; Samples.tag "Night"; Samples.tag "Dawn"]
      Samples.alice_experiment Samples.db_two_users
    = (db', inr tt) /\
    NoDup (links Tag db').
Proof.
  assert (Hnd : NoDup (links Tag Samples.db_two_users))
    by (vm_compute; concrete_nodup).
  assert (Hun : unambiguous Tag (user Samples.alice)
                  [Samples.tag "Dawn"; Samples.tag "Night"; Samples.tag "Dawn"]
                  Samples.db_two_users).
  { intros n [<-|[<-|[<-|[]]]]; vm_compute; lia. }
  split; [exact Hnd|]. split; [exact Hun|].
  destruct (proj2 (repeated_names_associate_once Tag Samples.alice _
                     Samples.alice_experiment _) Hnd Hun)
    as (db' & Run & Hnd' & _).
  exists db'. split; [exact Run|exact Hnd'].
Defined.




(* ------------------------------------------------------------------ *)
(** * Further properties *)

(** ** wait_for_db *)

Section WaitForDbMore.

Import WaitForDb.

Variable check : nat -> CheckOutcome.

Lemma sleep_total_app (t1 t2 : list Effect) :
  sleep_total (t1 ++ t2) = sleep_total t1 + sleep_total t2.
Proof.
  induction t1 as [|[line|s] t1 IH]; simpl; rewrite ?IH; lia.
Qed.

Lemma sleep_total_retries (k : nat) : sleep_total (retries k) = Z.of_nat k.
Proof.
  induction k as [|k IH]; [reflexivity|].
  rewrite Nat2Z.inj_succ. unfold retries in *.
  cbn [repeat List.concat app unavailable sleep_total].
  rewrite IH. lia.
Qed.

(** The loop, whatever its fuel: it has either not ended, or ended at the
    first call that was not retried. *)
Lemma while_db_down_inv (fuel : nat) :
  forall n0 trace c trace',
    while_db_down fuel check n0 trace = Some (c, trace') ->
    exists k,
      (k < fuel)%nat /\
      (forall j, (j < k)%nat -> retried check (n0 + j)%nat) /\
      match c with
      | Returned =>
          check (n0 + k)%nat = Passes /\
          trace' = trace ++ retries k ++ [Stdout_write "Database available"]
      | Propagated e =>
          check (n0 + k)%nat = Raises e /\ caught e = false /\
          trace' = trace ++ retries k
      end.
Proof.
  induction fuel as [|fuel IH]; intros n0 trace c trace' H; [discriminate H|].
  simpl in H. destruct (check n0) as [|e] eqn:E0.
  - injection H as <- <-. exists 0%nat. rewrite Nat.add_0_r.
    split; [lia|]. split; [intros j Hj; lia|]. auto.
  - destruct (caught e) eqn:Ec.
    + destruct (IH _ _ _ _ H) as (k & Hk & Hret & Hc).
      exists (S k). split; [lia|]. split.
      * intros [|j] Hj.
        -- rewrite Nat.add_0_r. exists e. auto.
        -- replace (n0 + S j)%nat with (S n0 + j)%nat by lia.
           apply Hret. lia.
      * replace (n0 + S k)%nat with (S n0 + k)%nat by lia.
        unfold retries in *. simpl repeat. simpl List.concat.
        destruct c as [|e']; rewrite <- !app_assoc in Hc; exact Hc.
    + injection H as <- <-. exists 0%nat. rewrite Nat.add_0_r.
      split; [lia|]. split; [intros j Hj; lia|].
      rewrite app_nil_r. auto.
Qed.

End WaitForDbMore.

(** X1. However the command ends, and whatever the fuel: it ended at the
    first check that did not raise an [OperationalError], after one check
    more than it slept seconds; it printed the start line first, one line
    and one second of sleep for every failed check, and the success line,
    last, exactly when it returned. *)
Theorem wait_for_db_trace (check : nat -> WaitForDb.CheckOutcome)
    (fuel : nat) (c : WaitForDb.Completion) (trace : list WaitForDb.Effect)
    (H : WaitForDb.handle fuel check = Some (c, trace)) :
  exists k,
    (k < fuel)%nat /\
    ends_at check k c trace /\
    sleep_total trace = Z.of_nat k /\
    List.length trace =
      (1 + 2 * k + match c with WaitForDb.Returned => 1 | _ => 0 end)%nat.
Proof.
  destruct (while_db_down_inv check fuel 0%nat started c trace H)
    as (k & Hk & Hret & Hc).
  exists k. split; [exact Hk|].
  assert (Hlen : forall j, List.length (retries j) = (2 * j)%nat).
  { induction j as [|j IH]; [reflexivity|].
    unfold retries in *.
    cbn [repeat List.concat app WaitForDb.unavailable List.length].
    rewrite IH. lia. }
  destruct c as [|e]; simpl in Hc.
  - destruct Hc as [Hp ->]. split; [|split].
    + split; [exact Hret|]. auto.
    + change started with [WaitForDb.Stdout_write "wait for database..."].
      cbn [app sleep_total].
      rewrite ?sleep_total_app, sleep_total_retries. simpl. lia.
    + change started with [WaitForDb.Stdout_write "wait for database..."].
      cbn [app List.length].
      rewrite ?length_app, Hlen. simpl. lia.
  - destruct Hc as (Hp & He & ->). split; [|split].
    + split; [exact Hret|]. auto.
    + change started with [WaitForDb.Stdout_write "wait for database..."].
      cbn [app sleep_total].
      rewrite ?sleep_total_app, sleep_total_retries. simpl. lia.
    + change started with [WaitForDb.Stdout_write "wait for database..."].
      cbn [app List.length].
      rewrite ?length_app, Hlen. simpl. lia.
Qed.

Lemma wait_for_db_trace_witness :
  WaitForDb.handle 5 third_check_passes
  = Some (WaitForDb.Returned,
          started ++ retries 2 ++ [WaitForDb.Stdout_write "Database available"])
  /\
  exists k,
    (k < 5)%nat /\
    sleep_total
      (started ++ retries 2 ++ [WaitForDb.Stdout_write "Database available"])
    = Z.of_nat k.
Proof.
  assert (H : WaitForDb.handle 5 third_check_passes
              = Some (WaitForDb.Returned,
                      started ++ retries 2 ++
                      [WaitForDb.Stdout_write "Database available"]))
    by reflexivity.
  split; [exact H|].
  destruct (wait_for_db_trace third_check_passes 5 _ _ H)
    as (k & Hk & _ & Hs & _).
  exists k. split; [exact Hk|exact Hs].
Defined.

(** X2. The loop has no limit on its retries: the command ends, for some
    fuel, if and only if some check does not raise an [OperationalError];
    while every check raises one, it goes on checking and sleeping. *)
Theorem wait_for_db_ends_iff (check : nat -> WaitForDb.CheckOutcome) :
  (exists fuel r, WaitForDb.handle fuel check = Some r) <->
  (exists k, ~ retried check k).
Proof.
  split.
  - intros (fuel & [c trace] & H).
    destruct (while_db_down_inv check fuel 0%nat started c trace H)
      as (k & _ & _ & Hc).
    exists k. intros (e & He & Hcaught). simpl in Hc.
    destruct c as [|e'].
    + destruct Hc as [Hp _]. congruence.
    + destruct Hc as (Hp & Hn & _). congruence.
  - intros (k & Hk).
    assert (Hends : forall d n0 trace,
               ~ retried check (n0 + d)%nat ->
               exists r, WaitForDb.while_db_down (S d) check n0 trace = Some r).
    { induction d as [|d IH]; intros n0 trace Hd.
      - rewrite Nat.add_0_r in Hd. simpl.
        destruct (check n0) as [|e] eqn:E0; [eexists; reflexivity|].
        destruct (WaitForDb.caught e) eqn:Ec; [|eexists; reflexivity].
        exfalso. apply Hd. exists e. auto.
      - change (WaitForDb.while_db_down (S (S d)) check n0 trace)
          with (match check n0 with
                | WaitForDb.Passes =>
                    Some (WaitForDb.Returned,
                          trace ++ [WaitForDb.Stdout_write "Database available"])
                | WaitForDb.Raises e =>
                    if WaitForDb.caught e
                    then WaitForDb.while_db_down (S d) check (S n0)
                           (trace ++ WaitForDb.unavailable)
                    else Some (WaitForDb.Propagated e, trace)
                end).
        destruct (check n0) as [|e]; [eexists; reflexivity|].
        destruct (WaitForDb.caught e); [|eexists; reflexivity].
        apply IH. replace (S n0 + d)%nat with (n0 + S d)%nat by lia. exact Hd. }
    destruct (Hends k 0%nat started Hk) as (r & Hr).
    exists (S k), r. exact Hr.
Qed.

Lemma wait_for_db_ends_iff_witness :
  (forall k, retried always_down k) /\
  forall fuel, WaitForDb.handle fuel always_down = None.
Proof.
  assert (Hall : forall k, retried always_down k).
  { intro k. unfold retried, always_down.
    destruct (Nat.even k); eexists; split; reflexivity. }
  split; [exact Hall|].
  intro fuel.
  destruct (WaitForDb.handle fuel always_down) as [r|] eqn:E; [|reflexivity].
  exfalso.
  destruct (proj1 (wait_for_db_ends_iff always_down)) as (k & Hk).
  - exists fuel, r. exact E.
  - exact (Hk (Hall k)).
Defined.

(** ** The views, case by case *)

Lemma experiment_get_object_cases (request : Request) (pk : Z) (db : DB) :
  (exists instance,
      ExperimentViewSet.get_object request pk db =
      (log_query (QSelectExperiment pk) db, inr instance) /\
      In instance (experiment_rows db) /\
      exp_user instance = user request /\
      exp_id instance = pk) \/
  (exists e,
      ExperimentViewSet.get_object request pk db =
      (log_query (QSelectExperiment pk) db, inl e)).
Proof.
  unfold ExperimentViewSet.get_object, or_404, try_except, Experiment_get, raise.
  destruct (get_one _) as [e|instance] eqn:G.
  - right. destruct (is_DoesNotExist e); eexists; reflexivity.
  - left. exists instance. split; [reflexivity|].
    apply get_one_In, filter_In in G. destruct G as [G Hid].
    apply In_experiment_queryset in G. destruct G as [Hin Hown].
    apply Z.eqb_eq in Hid. auto.
Qed.

Lemma attr_get_object_cases (m : AttrModel) (request : Request) (pk : Z)
    (db : DB) :
  (exists instance,
      BaseExperimentAttrViewSet.get_object m request pk db =
      (log_query (QSelectAttrPk m pk) db, inr instance) /\
      In instance (attr_rows m db) /\
      attr_user instance = user request /\
      attr_id instance = pk) \/
  (exists e,
      BaseExperimentAttrViewSet.get_object m request pk db =
      (log_query (QSelectAttrPk m pk) db, inl e)).
Proof.
  unfold BaseExperimentAttrViewSet.get_object, or_404, try_except, Attr_get_pk,
    raise.
  destruct (get_one _) as [e|instance] eqn:G.
  - right. destruct (is_DoesNotExist e); eexists; reflexivity.
  - left. exists instance. split; [reflexivity|].
    apply get_one_In, filter_In in G. destruct G as [G Hid].
    apply In_attr_queryset in G. destruct G as [Hin Hown].
    apply Z.eqb_eq in Hid. auto.
Qed.

(** ** Associations stay within one owner *)

Lemma consistent_data (db1 db2 : DB) :
  data db1 = data db2 -> consistent db1 -> consistent db2.
Proof.
  intros H C m e a Hin.
  apply data_eq in H. destruct H as (H1 & _ & H3).
  destruct (H3 m) as (R & L & _).
  rewrite <- L in Hin. destruct (C m e a Hin) as (x & r & ? & ? & ? & ? & ?).
  exists x, r. rewrite <- H1, <- R. auto.
Qed.

Lemma consistent_log_query (q : Query) (db : DB) :
  consistent db -> consistent (log_query q db).
Proof. apply consistent_data. symmetry. apply data_log_query. Qed.

(** Fewer associations, more rows: consistency stays. *)
Lemma consistent_mono (db db' : DB) :
  (forall x, In x (experiment_rows db) -> In x (experiment_rows db')) ->
  (forall m r, In r (attr_rows m db) -> In r (attr_rows m db')) ->
  (forall m p, In p (links m db') -> In p (links m db)) ->
  consistent db -> consistent db'.
Proof.
  intros HE HA HL C m e a Hin.
  destruct (C m e a (HL m _ Hin)) as (x & r & ? & ? & ? & ? & ?).
  exists x, r. repeat split; auto.
Qed.

Lemma consistent_Experiment_create (kw : ExperimentKwargs) (db : DB) :
  consistent db -> consistent (fst (Experiment_create kw db)).
Proof.
  intro C. unfold Experiment_create.
  destruct (k_user kw); [|apply consistent_log_query, C].
  destruct (k_time_minutes kw); [|apply consistent_log_query, C].
  destruct (k_price kw); [|apply consistent_log_query, C].
  eapply consistent_mono; [| | |exact C]; simpl.
  - intros x Hx. apply in_or_app. auto.
  - intros [|] r Hr; exact Hr.
  - intros [|] p Hp; exact Hp.
Qed.

Lemma consistent_related_clear (m : AttrModel) (e : Experiment) (db : DB) :
  consistent db -> consistent (fst (related_clear m e db)).
Proof.
  intro C. unfold related_clear, execute. simpl fst.
  eapply consistent_mono; [| | |exact C].
  - intros x Hx. destruct m; exact Hx.
  - intros m' r Hr. destruct m, m'; exact Hr.
  - intros m' p Hp. destruct m, m'; simpl in *;
      try exact Hp; apply filter_In in Hp; tauto.
Qed.

Lemma consistent_grows m u e ns db db' :
  grows m u e ns db db' ->
  In e (experiment_rows db) -> exp_user e = u ->
  consistent db -> consistent db'.
Proof.
  intros (E & _ & O & _ & (c & R & _) & (ad & L & A) & _) He Hu C m' x a Hin.
  rewrite E.
  destruct m, m'.
  - rewrite L in Hin. apply in_app_or in Hin. destruct Hin as [Hin|Hin].
    + destruct (C Tag x a Hin) as (y & r & ? & ? & ? & ? & ?).
      exists y, r. repeat split; auto. rewrite R. apply in_or_app. auto.
    + rewrite Forall_forall in A. destruct (A _ Hin) as (Hf & r & ? & ? & ? & _).
      simpl in *. exists e, r. repeat split; auto. congruence.
  - destruct (O Ingredient AttrModel_neq_IT) as (R' & L' & _).
    rewrite L' in Hin. rewrite R'. apply (C Ingredient x a Hin).
  - destruct (O Tag AttrModel_neq_TI) as (R' & L' & _).
    rewrite L' in Hin. rewrite R'. apply (C Tag x a Hin).
  - rewrite L in Hin. apply in_app_or in Hin. destruct Hin as [Hin|Hin].
    + destruct (C Ingredient x a Hin) as (y & r & ? & ? & ? & ? & ?).
      exists y, r. repeat split; auto. rewrite R. apply in_or_app. auto.
    + rewrite Forall_forall in A. destruct (A _ Hin) as (Hf & r & ? & ? & ? & _).
      simpl in *. exists e, r. repeat split; auto. congruence.
Qed.

Lemma consistent_reconcile m u l e db :
  In e (experiment_rows db) -> exp_user e = u ->
  consistent db -> consistent (fst (reconcile m u l e db)).
Proof.
  intros He Hu C.
  destruct (reconcile_grows m u e l db) as (db' & res & Run & G & _).
  rewrite Run. simpl. eapply consistent_grows; eassumption.
Qed.

Lemma experiment_rows_reconcile m u l e db :
  experiment_rows (fst (reconcile m u l e db)) = experiment_rows db.
Proof.
  destruct (reconcile_grows m u e l db) as (db' & res & Run & G & _).
  rewrite Run. apply G.
Qed.

Lemma consistent_replace_block m u o instance db :
  In instance (experiment_rows db) -> exp_user instance = u ->
  consistent db ->
  consistent (fst (replace_block m u o instance db)) /\
  experiment_rows (fst (replace_block m u o instance db)) = experiment_rows db.
Proof.
  intros He Hu C. destruct o as [l|]; simpl; [|auto].
  unfold bind.
  pose proof (consistent_related_clear m instance db C) as C1.
  destruct (related_clear m instance db) as [db1 [x|[]]] eqn:E1;
    [unfold related_clear, execute in E1; discriminate E1|].
  simpl in C1.
  assert (R1 : experiment_rows db1 = experiment_rows db).
  { unfold related_clear, execute in E1. injection E1 as <-.
    destruct m; reflexivity. }
  split.
  - apply consistent_reconcile; auto. rewrite R1. exact He.
  - rewrite experiment_rows_reconcile. exact R1.
Qed.

Lemma consistent_Experiment_save (instance inst' : Experiment) (db : DB) :
  NoDup (map exp_id (experiment_rows db)) ->
  In instance (experiment_rows db) ->
  exp_id inst' = exp_id instance -> exp_user inst' = exp_user instance ->
  consistent db -> consistent (fst (Experiment_save inst' db)).
Proof.
  intros Hnd Hin Hid Hu C m e a Hl.
  assert (Hl' : In (e, a) (links m db)) by (destruct m; exact Hl).
  destruct (C m e a Hl') as (x & r & Hx & He & Hr & Ha & Hru).
  assert (Hr' : In r (attr_rows m (fst (Experiment_save inst' db))))
    by (destruct m; exact Hr).
  unfold Experiment_save, execute. simpl fst.
  destruct (exp_id x =? exp_id inst') eqn:E.
  - apply Z.eqb_eq in E.
    assert (x = instance) by (eapply NoDup_map_eq; eauto; congruence).
    subst x. exists inst', r. repeat split; auto; try congruence.
    simpl. apply in_map_iff. exists instance. split; [|exact Hin].
    rewrite Hid, Z.eqb_refl. reflexivity.
  - exists x, r. repeat split; auto.
    simpl. apply in_map_iff. exists x. rewrite E. auto.
Qed.

Lemma consistent_Experiment_delete (instance : Experiment) (db : DB) :
  consistent db -> consistent (fst (Experiment_delete instance db)).
Proof.
  intros C m e a Hl.
  unfold Experiment_delete, execute in *. simpl fst in *.
  assert (Hl' : In (e, a) (links m db) /\ e <> exp_id instance).
  { destruct m; simpl in Hl; apply filter_In in Hl; destruct Hl as [H1 H2];
      simpl in H2; apply negb_true_iff, Z.eqb_neq in H2; auto. }
  destruct Hl' as [Hl' Hne].
  destruct (C m e a Hl') as (x & r & Hx & He & Hr & Ha & Hru).
  exists x, r.
  split; [|split; [exact He|split; [|split; [exact Ha|exact Hru]]]].
  - simpl. apply filter_In. split; [exact Hx|].
    apply negb_true_iff, Z.eqb_neq. congruence.
  - destruct m; exact Hr.
Qed.

Lemma consistent_Attr_save (m : AttrModel) (instance inst' : Attr) (db : DB) :
  NoDup (map attr_id (attr_rows m db)) ->
  In instance (attr_rows m db) ->
  attr_id inst' = attr_id instance -> attr_user inst' = attr_user instance ->
  consistent db -> consistent (fst (Attr_save m inst' db)).
Proof.
  intros Hnd Hin Hid Hu C m' e a Hl.
  assert (Hl' : In (e, a) (links m' db)) by (destruct m, m'; exact Hl).
  destruct (C m' e a Hl') as (x & r & Hx & He & Hr & Ha & Hru).
  assert (Hx' : In x (experiment_rows (fst (Attr_save m inst' db))))
    by (destruct m; exact Hx).
  unfold Attr_save, execute in *. simpl fst in *.
  assert (Hrows : forall rows,
             attr_rows m (set_attr_rows m rows
                            (log_query (QUpdateAttr m (attr_id inst')) db))
             = rows) by (intro; destruct m; reflexivity).
  destruct (AttrModel_eq_dec m m') as [<-|Hne].
  - rewrite Hrows.
    destruct (attr_id r =? attr_id inst') eqn:E.
    + apply Z.eqb_eq in E.
      assert (r = instance) by (eapply (NoDup_map_eq attr_id); eauto; congruence).
      subst r. exists x, inst'. repeat split; auto; try congruence.
      apply in_map_iff. exists instance. split; [|exact Hin].
      rewrite Hid, Z.eqb_refl. reflexivity.
    + exists x, r. repeat split; auto.
      apply in_map_iff. exists r. rewrite E. auto.
  - exists x, r. repeat split; auto.
    destruct m, m'; try congruence; exact Hr.
Qed.

Lemma consistent_Attr_delete (m : AttrModel) (instance : Attr) (db : DB) :
  consistent db -> consistent (fst (Attr_delete m instance db)).
Proof.
  intros C m' e a Hl.
  unfold Attr_delete, execute in *. simpl fst in *.
  destruct (AttrModel_eq_dec m m') as [<-|Hne].
  - assert (Hl' : In (e, a) (links m db) /\ a <> attr_id instance).
    { destruct m; simpl in Hl; apply filter_In in Hl; destruct Hl as [H1 H2];
        simpl in H2; apply negb_true_iff, Z.eqb_neq in H2; auto. }
    destruct Hl' as [Hl' Hn].
    destruct (C m e a Hl') as (x & r & Hx & He & Hr & Ha & Hru).
    exists x, r.
    split; [|split; [exact He|split; [|split; [exact Ha|exact Hru]]]].
    + destruct m; exact Hx.
    + destruct m; simpl; apply filter_In; (split; [exact Hr|]);
        apply negb_true_iff, Z.eqb_neq; congruence.
  - assert (Hl' : In (e, a) (links m' db))
      by (destruct m, m'; try congruence; exact Hl).
    destruct (C m' e a Hl') as (x & r & Hx & He & Hr & Ha & Hru).
    exists x, r.
    split; [|split; [exact He|split; [|split; [exact Ha|exact Hru]]]].
    + destruct m; exact Hx.
    + destruct m, m'; try congruence; exact Hr.
Qed.

Lemma fst_bind {A B} (c : M A) (k : A -> M B) (db : DB) :
  fst (bind c k db) =
  match c db with
  | (db1, inr a) => fst (k a db1)
  | (db1, inl _) => db1
  end.
Proof. unfold bind. destruct (c db) as [db1 [e|a]]; reflexivity. Qed.

Lemma Experiment_create_cases (kw : ExperimentKwargs) (db : DB) :
  (exists db0 e,
      Experiment_create kw db = (db0, inr e) /\
      experiment_rows db0 = experiment_rows db ++ [e] /\
      exp_id e = experiment_seq db /\
      k_user kw = Some (exp_user e) /\
      (forall m, attr_rows m db0 = attr_rows m db /\
                 links m db0 = links m db)) \/
  Experiment_create kw db =
  (log_query (QInsertExperiment (experiment_seq db)) db, inl IntegrityError).
Proof.
  unfold Experiment_create.
  destruct (k_user kw); [|right; reflexivity].
  destruct (k_time_minutes kw); [|right; reflexivity].
  destruct (k_price kw); [|right; reflexivity].
  left. eexists _, _. split; [reflexivity|]. simpl.
  repeat split; destruct m; reflexivity.
Qed.

Lemma consistent_serializer_create (request : Request) (vd : ValidatedData)
    (db : DB) :
  k_user (v_fields vd) = Some (user request) ->
  consistent db ->
  consistent (fst (ExperimentDetailSerializer.create request vd db)).
Proof.
  intros Hu C. unfold ExperimentDetailSerializer.create.
  rewrite get_or_create_tags_reconcile, get_or_create_ingredients_reconcile.
  rewrite fst_bind.
  pose proof (consistent_Experiment_create (v_fields vd) db C) as C0.
  destruct (Experiment_create_cases (v_fields vd) db)
    as [(db0 & e & Run & Rows & _ & Hown & _)|Run]; rewrite Run in *;
    [|exact C0].
  simpl in C0.
  assert (He : In e (experiment_rows db0))
    by (rewrite Rows; apply in_or_app; right; left; reflexivity).
  assert (Heu : exp_user e = user request) by congruence.
  rewrite fst_bind.
  pose proof (consistent_reconcile Tag (user request)
                (or_default (v_tags vd) []) e db0 He Heu C0) as C1.
  pose proof (experiment_rows_reconcile Tag (user request)
                (or_default (v_tags vd) []) e db0) as R1.
  destruct (reconcile Tag (user request) (or_default (v_tags vd) []) e db0)
    as [db1 [x|[]]]; simpl in C1, R1; [exact C1|].
  rewrite fst_bind.
  assert (He1 : In e (experiment_rows db1)) by (rewrite R1; exact He).
  pose proof (consistent_reconcile Ingredient (user request)
                (or_default (v_ingredients vd) []) e db1 He1 Heu C1) as C2.
  destruct (reconcile Ingredient (user request)
              (or_default (v_ingredients vd) []) e db1)
    as [db2 [x|[]]]; simpl in C2; exact C2.
Qed.

Lemma consistent_serializer_update (request : Request) (instance : Experiment)
    (vd : ValidatedData) (db : DB) :
  NoDup (map exp_id (experiment_rows db)) ->
  In instance (experiment_rows db) ->
  exp_user instance = user request ->
  k_user (v_fields vd) = None ->
  consistent db ->
  consistent (fst (ExperimentDetailSerializer.update request instance vd db)).
Proof.
  intros Hnd Hin Hown Hk C. rewrite update_blocks, fst_bind.
  destruct (consistent_replace_block Tag (user request) (v_tags vd)
              instance db Hin Hown C) as [C1 R1].
  destruct (replace_block Tag (user request) (v_tags vd) instance db)
    as [db1 [x|[]]]; simpl in C1, R1; [exact C1|].
  rewrite fst_bind.
  assert (Hin1 : In instance (experiment_rows db1)) by (rewrite R1; exact Hin).
  destruct (consistent_replace_block Ingredient (user request)
              (v_ingredients vd) instance db1 Hin1 Hown C1) as [C2 R2].
  destruct (replace_block Ingredient (user request) (v_ingredients vd)
              instance db1)
    as [db2 [x|[]]]; simpl in C2, R2; [exact C2|].
  rewrite fst_bind.
  assert (C3 : consistent
                 (fst (Experiment_save
                         (ExperimentDetailSerializer.setattrs (v_fields vd)
                            instance) db2))).
  { apply (consistent_Experiment_save instance);
      [rewrite R2, R1; exact Hnd|rewrite R2; exact Hin1|reflexivity
      |simpl; rewrite Hk; reflexivity|exact C2]. }
  destruct (Experiment_save _ db2) as [db3 [x|[]]]; exact C3.
Qed.

Lemma perform_keeps_wf (request : Request) (action : Action) (db : DB) :
  wf db -> wf (perform request action db).
Proof.
  revert db. unfold perform.
  destruct action as [|payload|pk|pk partial payload|pk
                      |m|m pk partial payload|m pk]; simpl.
  - intros db H. apply wf_log_query, H.
  - change (keeps_wf (ExperimentViewSet.create request payload)).
    apply keeps_wf_bind; [apply keeps_wf_lift|]. intro vd.
    apply keeps_wf_serializer_create.
  - apply keeps_wf_experiment_get_object.
  - change (keeps_wf (ExperimentViewSet.update request pk partial payload)).
    apply keeps_wf_bind; [apply keeps_wf_experiment_get_object|]. intro inst.
    apply keeps_wf_bind; [apply keeps_wf_lift|]. intro vd.
    apply keeps_wf_serializer_update.
  - change (keeps_wf (ExperimentViewSet.destroy request pk)).
    apply keeps_wf_bind; [apply keeps_wf_experiment_get_object|]. intro inst.
    apply keeps_wf_Experiment_delete.
  - intros db H. apply wf_log_query, H.
  - change (keeps_wf (BaseExperimentAttrViewSet.update m request pk partial payload)).
    apply keeps_wf_bind; [apply keeps_wf_attr_get_object|]. intro inst.
    apply keeps_wf_bind; [apply keeps_wf_lift|]. intro vd.
    apply keeps_wf_bind; [apply keeps_wf_Attr_save|]. intro.
    apply keeps_wf_ret.
  - change (keeps_wf (BaseExperimentAttrViewSet.destroy m request pk)).
    apply keeps_wf_bind; [apply keeps_wf_attr_get_object|]. intro inst.
    apply keeps_wf_Attr_delete.
Qed.

Lemma perform_keeps_consistent (request : Request) (action : Action) (db : DB) :
  wf db -> consistent db -> consistent (perform request action db).
Proof.
  intros W C. unfold perform.
  destruct action as [|payload|pk|pk partial payload|pk
                      |m|m pk partial payload|m pk]; simpl.
  - apply consistent_log_query, C.
  - rewrite view_create_cases.
    destruct (validate false payload) as [e|vd] eqn:V; [exact C|].
    apply consistent_serializer_create; [reflexivity|exact C].
  - unfold ExperimentViewSet.retrieve.
    destruct (experiment_get_object_cases request pk db)
      as [(inst & Run & _)|(e & Run)]; rewrite Run;
      apply consistent_log_query, C.
  - unfold ExperimentViewSet.update. rewrite fst_bind.
    destruct (experiment_get_object_cases request pk db)
      as [(inst & Run & Hin & Hown & _)|(e & Run)]; rewrite Run;
      [|apply consistent_log_query, C].
    rewrite fst_bind. unfold lift.
    destruct (validate partial payload) as [e|vd] eqn:V;
      [apply consistent_log_query, C|].
    destruct (validate_fields partial payload vd V) as [-> _].
    apply consistent_serializer_update;
      [exact (proj1 W)|exact Hin|exact Hown|reflexivity
      |apply consistent_log_query, C].
  - unfold ExperimentViewSet.destroy. rewrite fst_bind.
    destruct (experiment_get_object_cases request pk db)
      as [(inst & Run & _)|(e & Run)]; rewrite Run;
      [|apply consistent_log_query, C].
    apply consistent_Experiment_delete, consistent_log_query, C.
  - apply consistent_log_query, C.
  - unfold BaseExperimentAttrViewSet.update. rewrite fst_bind.
    destruct (attr_get_object_cases m request pk db)
      as [(inst & Run & Hin & Hown & _)|(e & Run)]; rewrite Run;
      [|apply consistent_log_query, C].
    rewrite fst_bind. unfold lift.
    destruct (AttrSerializer.validate partial payload) as [e|vd];
      [apply consistent_log_query, C|].
    unfold AttrSerializer.update. rewrite fst_bind.
    assert (C3 : consistent
                   (fst (Attr_save m
                           (mkAttr (attr_id inst) (attr_user inst)
                                   (or_default vd (attr_name inst)))
                           (log_query (QSelectAttrPk m pk) db)))).
    { apply (consistent_Attr_save m inst);
        [|destruct m; exact Hin|reflexivity|reflexivity
         |apply consistent_log_query, C].
      destruct W as (_ & _ & W3). destruct (W3 m) as (N & _).
      destruct m; exact N. }
    destruct (Attr_save m _ _) as [db3 [x|[]]]; exact C3.
  - unfold BaseExperimentAttrViewSet.destroy. rewrite fst_bind.
    destruct (attr_get_object_cases m request pk db)
      as [(inst & Run & _)|(e & Run)]; rewrite Run;
      [|apply consistent_log_query, C].
    apply consistent_Attr_delete, consistent_log_query, C.
Qed.


Lemma consistent_empty_db : consistent empty_db.
Proof. intros m e a H. destruct m; destruct H. Qed.

(** Every store that the API leads to is well-formed and has its
    associations within one owner. *)
Lemma reachable_invariants (db : DB) : reachable db -> wf db /\ consistent db.
Proof.
  assert (Step : forall request action d,
             wf d /\ consistent d ->
             wf (perform request action d) /\
             consistent (perform request action d)).
  { intros request action d [W C].
    split; [apply perform_keeps_wf, W|apply perform_keeps_consistent; auto]. }
  induction 1 as [|request db _ IH|request payload db _ IH
                  |request pk db _ IH|request pk partial payload db _ IH
                  |request pk db _ IH|m request db _ IH
                  |m request pk partial payload db _ IH
                  |m request pk db _ IH].
  - split; [apply wf_empty_db|apply consistent_empty_db].
  - exact (Step request ExperimentList db IH).
  - exact (Step request (ExperimentCreate payload) db IH).
  - exact (Step request (ExperimentRetrieve pk) db IH).
  - exact (Step request (ExperimentUpdate pk partial payload) db IH).
  - exact (Step request (ExperimentDestroy pk) db IH).
  - exact (Step request (AttrList m) db IH).
  - exact (Step request (AttrUpdate m pk partial payload) db IH).
  - exact (Step request (AttrDestroy m pk) db IH).
Qed.

Lemma db_two_users_reachable : reachable Samples.db_two_users.
Proof.
  unfold Samples.db_two_users.
  apply reach_experiment_create, reach_experiment_create, reach_empty.
Qed.

(** X3. The empty store is well-formed (primary keys unique and below their
    sequence, no pair twice in a join table) and has every association
    between an experiment and an attribute that are both stored and belong
    to the same user; every action of the API keeps both. *)
Theorem api_keeps_invariants :
  (wf empty_db /\ consistent empty_db) /\
  forall (request : Request) (action : Action) (db : DB),
    wf db -> consistent db ->
    wf (perform request action db) /\ consistent (perform request action db).
Proof.
  split; [split; [apply wf_empty_db|apply consistent_empty_db]|].
  intros request action db W C.
  split; [apply perform_keeps_wf, W|apply perform_keeps_consistent; assumption].
Qed.

Lemma api_keeps_invariants_witness :
  wf Samples.db_two_users /\ consistent Samples.db_two_users /\
  wf (perform Samples.alice (AttrDestroy Tag 1) Samples.db_two_users) /\
  consistent (perform Samples.alice (AttrDestroy Tag 1) Samples.db_two_users).
Proof.
  destruct (reachable_invariants _ db_two_users_reachable) as [W C].
  split; [exact W|]. split; [exact C|].
  apply (proj2 api_keeps_invariants); assumption.
Defined.


(** ** Relations that every run of a computation keeps *)

Section Steps.

Variable R : DB -> DB -> Prop.
Hypothesis R_refl : forall db, R db db.
Hypothesis R_trans : forall db1 db2 db3, R db1 db2 -> R db2 db3 -> R db1 db3.

Lemma steps_ret {A} (a : A) : steps R (ret a).
Proof. intro db. apply R_refl. Qed.

Lemma steps_raise {A} (e : Exn) : steps R (@raise A e).
Proof. intro db. apply R_refl. Qed.

Lemma steps_lift {A} (r : Exn + A) : steps R (lift r).
Proof. intro db. apply R_refl. Qed.

Lemma steps_bind {A B} (c : M A) (k : A -> M B) :
  steps R c -> (forall a, steps R (k a)) -> steps R (bind c k).
Proof.
  intros Hc Hk db. rewrite fst_bind. specialize (Hc db).
  destruct (c db) as [db1 [e|a]]; simpl in Hc; [exact Hc|].
  eapply R_trans; [exact Hc|apply Hk].
Qed.

Lemma steps_try_except {A} (c : M A) (e : Exn -> bool) (h : M A) :
  steps R c -> steps R h -> steps R (try_except c e h).
Proof.
  intros Hc Hh db. unfold try_except. specialize (Hc db).
  destruct (c db) as [db1 [x|a]]; simpl in *; [|exact Hc].
  destruct (e x); [|exact Hc].
  eapply R_trans; [exact Hc|apply Hh].
Qed.

Lemma steps_for_each {A} (l : list A) (body : A -> M unit) :
  (forall x, steps R (body x)) -> steps R (for_each l body).
Proof.
  intro Hb. induction l as [|x xs IH]; simpl.
  - apply steps_ret.
  - apply steps_bind; auto.
Qed.

(** A relation that looks at the tables only is kept by a statement that
    does nothing but write the log. *)
Hypothesis R_log : forall q db, R db (log_query q db).

Lemma steps_Attr_get m u n : steps R (Attr_get m u n).
Proof. intro db. apply R_log. Qed.

Lemma steps_experiment_get_object request pk :
  steps R (ExperimentViewSet.get_object request pk).
Proof.
  intro db.
  destruct (experiment_get_object_cases request pk db)
    as [(inst & Run & _)|(e & Run)]; rewrite Run; apply R_log.
Qed.

Lemma steps_attr_get_object m request pk :
  steps R (BaseExperimentAttrViewSet.get_object m request pk).
Proof.
  intro db.
  destruct (attr_get_object_cases m request pk db)
    as [(inst & Run & _)|(e & Run)]; rewrite Run; apply R_log.
Qed.

End Steps.

(** *** The three relations *)

Lemma foreign_attrs_kept_refl u db : foreign_attrs_kept u db db.
Proof. intros m a _. reflexivity. Qed.

Lemma foreign_attrs_kept_trans u db1 db2 db3 :
  foreign_attrs_kept u db1 db2 -> foreign_attrs_kept u db2 db3 ->
  foreign_attrs_kept u db1 db3.
Proof. intros H1 H2 m a Ha. rewrite (H2 m a Ha). apply H1, Ha. Qed.

Lemma attrs_kept_foreign u db db' :
  attrs_kept db db' -> foreign_attrs_kept u db db'.
Proof. intros H m a _. unfold attrs_of. rewrite H. reflexivity. Qed.

Lemma experiments_kept_refl db : experiments_kept db db.
Proof. reflexivity. Qed.

Lemma experiments_kept_trans db1 db2 db3 :
  experiments_kept db1 db2 -> experiments_kept db2 db3 ->
  experiments_kept db1 db3.
Proof. unfold experiments_kept. congruence. Qed.

Lemma other_links_kept_refl pk db : other_links_kept pk db db.
Proof. intros m e a _. reflexivity. Qed.

Lemma other_links_kept_trans pk db1 db2 db3 :
  other_links_kept pk db1 db2 -> other_links_kept pk db2 db3 ->
  other_links_kept pk db1 db3.
Proof. intros H1 H2 m e a He. rewrite (H2 m e a He). apply H1, He. Qed.

Lemma links_kept_other pk db db' :
  (forall m, links m db' = links m db) -> other_links_kept pk db db'.
Proof. intros H m e a _. rewrite H. reflexivity. Qed.

(** *** The statements of the serializers *)

Lemma grows_foreign_attrs m u e ns db db' :
  grows m u e ns db db' -> foreign_attrs_kept u db db'.
Proof.
  intros (_ & _ & O & _ & (c & R & C) & _) m' a Ha. unfold attrs_of.
  destruct (AttrModel_eq_dec m' m) as [->|Hne].
  - rewrite R, filter_app.
    rewrite (filter_none _ c); [apply app_nil_r|].
    intros x Hx. rewrite Forall_forall in C. destruct (C x Hx) as (Hu & _).
    apply Z.eqb_neq. congruence.
  - destruct (O m' Hne) as (-> & _). reflexivity.
Qed.

Lemma grows_other_links m u e ns db db' :
  grows m u e ns db db' -> other_links_kept (exp_id e) db db'.
Proof.
  intros (_ & _ & O & _ & _ & (ad & L & A) & _) m' e' a He.
  destruct (AttrModel_eq_dec m' m) as [->|Hne].
  - rewrite L, in_app_iff. split; [|auto].
    intros [H|H]; [exact H|].
    rewrite Forall_forall in A. destruct (A _ H) as [Hf _].
    simpl in Hf. congruence.
  - destruct (O m' Hne) as (_ & -> & _). reflexivity.
Qed.

Lemma steps_reconcile_foreign m u l e :
  steps (foreign_attrs_kept u) (reconcile m u l e).
Proof.
  intro db. destruct (reconcile_grows m u e l db) as (db' & res & Run & G & _).
  rewrite Run. eapply grows_foreign_attrs, G.
Qed.

Lemma steps_reconcile_links m u l e :
  steps (other_links_kept (exp_id e)) (reconcile m u l e).
Proof.
  intro db. destruct (reconcile_grows m u e l db) as (db' & res & Run & G & _).
  rewrite Run. eapply grows_other_links, G.
Qed.

Lemma steps_reconcile_experiments m u l e :
  steps experiments_kept (reconcile m u l e).
Proof. intro db. apply experiment_rows_reconcile. Qed.

Lemma steps_clear_attrs m e : steps attrs_kept (related_clear m e).
Proof. intros db m'. destruct m, m'; reflexivity. Qed.

Lemma steps_clear_links m e :
  steps (other_links_kept (exp_id e)) (related_clear m e).
Proof.
  intros db m' e' a He. unfold related_clear, execute. simpl fst.
  destruct m, m'; simpl; try reflexivity;
    rewrite filter_In; simpl;
    (split; [tauto|]); intro H; (split; [exact H|]);
    apply negb_true_iff, Z.eqb_neq; exact He.
Qed.

Lemma steps_clear_experiments m e : steps experiments_kept (related_clear m e).
Proof. intro db. destruct m; reflexivity. Qed.

Lemma steps_replace_block_foreign m u o instance :
  steps (foreign_attrs_kept u) (replace_block m u o instance).
Proof.
  destruct o as [l|]; simpl.
  - apply steps_bind.
    + apply foreign_attrs_kept_trans.
    + intro db. apply attrs_kept_foreign, steps_clear_attrs.
    + intro. apply steps_reconcile_foreign.
  - apply steps_ret, foreign_attrs_kept_refl.
Qed.

Lemma steps_replace_block_links m u o instance :
  steps (other_links_kept (exp_id instance)) (replace_block m u o instance).
Proof.
  destruct o as [l|]; simpl.
  - apply steps_bind.
    + apply other_links_kept_trans.
    + apply steps_clear_links.
    + intro. apply steps_reconcile_links.
  - apply steps_ret, other_links_kept_refl.
Qed.

Lemma save_keeps_attrs_and_links (inst : Experiment) (db : DB) :
  attrs_kept db (fst (Experiment_save inst db)) /\
  forall m, links m (fst (Experiment_save inst db)) = links m db.
Proof. split; intro m; destruct m; reflexivity. Qed.

Lemma serializer_update_foreign_attrs request instance vd :
  steps (foreign_attrs_kept (user request))
        (ExperimentDetailSerializer.update request instance vd).
Proof.
  rewrite update_blocks.
  apply steps_bind; [apply foreign_attrs_kept_trans
                    |apply steps_replace_block_foreign|]. intro.
  apply steps_bind; [apply foreign_attrs_kept_trans
                    |apply steps_replace_block_foreign|]. intro.
  apply steps_bind; [apply foreign_attrs_kept_trans| |].
  - intro db. apply attrs_kept_foreign, save_keeps_attrs_and_links.
  - intro. apply steps_ret, foreign_attrs_kept_refl.
Qed.

Lemma serializer_update_other_links request instance vd :
  steps (other_links_kept (exp_id instance))
        (ExperimentDetailSerializer.update request instance vd).
Proof.
  rewrite update_blocks.
  apply steps_bind; [apply other_links_kept_trans
                    |apply steps_replace_block_links|]. intro.
  apply steps_bind; [apply other_links_kept_trans
                    |apply steps_replace_block_links|]. intro.
  apply steps_bind; [apply other_links_kept_trans| |].
  - intro db. apply links_kept_other, save_keeps_attrs_and_links.
  - intro. apply steps_ret, other_links_kept_refl.
Qed.

Lemma serializer_create_foreign_attrs request vd :
  steps (foreign_attrs_kept (user request))
        (ExperimentDetailSerializer.create request vd).
Proof.
  unfold ExperimentDetailSerializer.create.
  rewrite get_or_create_tags_reconcile, get_or_create_ingredients_reconcile.
  apply steps_bind; [apply foreign_attrs_kept_trans| |].
  - intro db. apply attrs_kept_foreign. intro m.
    destruct (Experiment_create_cases (v_fields vd) db)
      as [(db0 & e & Run & _ & _ & _ & H)|Run]; rewrite Run; simpl.
    + apply H.
    + destruct m; reflexivity.
  - intro e.
    apply steps_bind; [apply foreign_attrs_kept_trans
                      |apply steps_reconcile_foreign|]. intro.
    apply steps_bind; [apply foreign_attrs_kept_trans
                      |apply steps_reconcile_foreign|]. intro.
    apply steps_ret, foreign_attrs_kept_refl.
Qed.

(** ** What a request leaves alone *)

Lemma filter_replace_by_key {A} (key : A -> Z) (P : A -> bool)
    (inst inst' : A) (l : list A) :
  NoDup (map key l) -> In inst l ->
  key inst' = key inst -> P inst = false -> P inst' = false ->
  filter P (map (fun r => if key r =? key inst' then inst' else r) l)
  = filter P l.
Proof.
  intros Hnd Hin Hk Hp Hp'.
  assert (H : forall r, In r l ->
            P (if key r =? key inst' then inst' else r) = P r /\
            (P r = true -> (if key r =? key inst' then inst' else r) = r)).
  { intros r Hr. destruct (key r =? key inst') eqn:E; [|auto].
    apply Z.eqb_eq in E.
    assert (r = inst) by (eapply (NoDup_map_eq key); eauto; congruence).
    subst r. split; [congruence|]. congruence. }
  clear Hnd Hin. induction l as [|r l IH]; simpl; [reflexivity|].
  destruct (H r (or_introl eq_refl)) as [H1 H2]. rewrite H1.
  rewrite IH by (intros x Hx; apply H; right; exact Hx).
  destruct (P r) eqn:E; [rewrite (H2 eq_refl)|]; reflexivity.
Qed.

Lemma filter_filter_kept {A} (P g : A -> bool) (l : list A) :
  (forall r, In r l -> P r = true -> g r = true) ->
  filter P (filter g l) = filter P l.
Proof.
  induction l as [|r l IH]; simpl; intro H; [reflexivity|].
  rewrite <- IH by (intros x Hx; apply H; right; exact Hx).
  destruct (g r) eqn:E; simpl; [reflexivity|].
  destruct (P r) eqn:E'; [|reflexivity].
  rewrite (H r (or_introl eq_refl) E') in E. discriminate.
Qed.

Lemma same_for_refl u db : same_for u db db.
Proof. split; [reflexivity|]. split; [reflexivity|]. intros; reflexivity. Qed.

Lemma same_for_log_query u q db : same_for u db (log_query q db).
Proof.
  split; [reflexivity|]. split.
  - intro m. destruct m; reflexivity.
  - intros m x a _. destruct m; reflexivity.
Qed.

Lemma In_experiments_of u db x :
  In x (experiments_of u db) <-> In x (experiment_rows db) /\ exp_user x = u.
Proof. unfold experiments_of. rewrite filter_In, Z.eqb_eq. reflexivity. Qed.

(** The key of another user's experiment is not the key of mine. *)
Lemma foreign_experiment_key (db : DB) (x instance : Experiment) :
  NoDup (map exp_id (experiment_rows db)) ->
  In x (experiment_rows db) -> In instance (experiment_rows db) ->
  exp_user x <> exp_user instance -> exp_id x <> exp_id instance.
Proof.
  intros Hnd Hx Hi Hu Hid. apply Hu.
  rewrite (NoDup_map_eq exp_id _ x instance Hnd Hx Hi Hid). reflexivity.
Qed.

Lemma experiments_kept_serializer_create request vd db :
  experiments_kept (fst (Experiment_create (v_fields vd) db))
                   (fst (ExperimentDetailSerializer.create request vd db)).
Proof.
  unfold ExperimentDetailSerializer.create.
  rewrite get_or_create_tags_reconcile, get_or_create_ingredients_reconcile.
  rewrite fst_bind.
  destruct (Experiment_create (v_fields vd) db) as [db0 [x|e]]; simpl fst;
    [reflexivity|].
  revert db0.
  change (steps experiments_kept
            (reconcile Tag (user request) (or_default (v_tags vd) []) e ;;
             reconcile Ingredient (user request)
               (or_default (v_ingredients vd) []) e ;;
             ret e)).
  apply steps_bind; [apply experiments_kept_trans
                    |apply steps_reconcile_experiments|]. intro.
  apply steps_bind; [apply experiments_kept_trans
                    |apply steps_reconcile_experiments|]. intro.
  apply steps_ret, experiments_kept_refl.
Qed.

Lemma same_for_create (a b : Request) (payload : Payload) (db : DB) :
  user a <> user b -> wf db ->
  same_for (user a) db (fst (ExperimentViewSet.create b payload db)).
Proof.
  intros Hab (Hnd & Hlt & _). rewrite view_create_cases.
  destruct (validate false payload) as [e|vd] eqn:V; [apply same_for_refl|].
  set (vd' := with_user (user b) vd).
  split; [|split].
  - unfold experiments_of.
    rewrite (experiments_kept_serializer_create b vd' db).
    destruct (Experiment_create_cases (v_fields vd') db)
      as [(db0 & e & Run & Rows & _ & Hown & _)|Run]; rewrite Run; simpl fst;
      [|reflexivity].
    rewrite Rows, filter_app. simpl.
    replace (exp_user e =? user a) with false; [apply app_nil_r|].
    symmetry. apply Z.eqb_neq. simpl in Hown. congruence.
  - intro m. apply (serializer_create_foreign_attrs b vd' db). exact Hab.
  - intros m x t Hx. apply In_experiments_of in Hx. destruct Hx as [Hx _].
    destruct (serializer_create_effect b vd' db)
      as (db' & res & qs & Run & _ & _ & L & _).
    rewrite Run. simpl fst.
    destruct (L m) as (c & ad & _ & -> & Fa).
    rewrite in_app_iff. split; [|auto].
    intros [H|H]; [exact H|].
    rewrite Forall_forall in Fa, Hlt. specialize (Fa _ H). simpl in Fa.
    specialize (Hlt _ (in_map exp_id _ _ Hx)). lia.
Qed.

Lemma same_for_update (a b : Request) (pk : Z) (partial : bool)
    (payload : Payload) (db : DB) :
  user a <> user b -> wf db ->
  same_for (user a) db (fst (ExperimentViewSet.update b pk partial payload db)).
Proof.
  intros Hab (Hnd & _). unfold ExperimentViewSet.update. rewrite fst_bind.
  destruct (experiment_get_object_cases b pk db)
    as [(inst & Run & Hin & Hown & Hid)|(e & Run)]; rewrite Run;
    [|apply same_for_log_query].
  rewrite fst_bind. unfold lift.
  destruct (validate partial payload) as [e|vd] eqn:V;
    [apply same_for_log_query|].
  destruct (validate_fields partial payload vd V) as [-> _].
  set (vd := mkValidated _ _ _).
  set (db0 := log_query (QSelectExperiment pk) db).
  split; [|split].
  - unfold experiments_of.
    destruct (serializer_update_effect b inst vd db0)
      as (db' & res & Run' & _ & _ & [[_ Hrows]|[_ Hrows]] & _);
      rewrite Run'; simpl fst; rewrite Hrows; [|reflexivity].
    apply (filter_replace_by_key exp_id _ inst); auto.
    + simpl. apply Z.eqb_neq. congruence.
    + simpl. apply Z.eqb_neq. congruence.
  - intro m. apply (serializer_update_foreign_attrs b inst vd db0). exact Hab.
  - intros m x t Hx. apply In_experiments_of in Hx. destruct Hx as [Hx Hxu].
    apply (serializer_update_other_links b inst vd db0).
    apply (foreign_experiment_key db); auto. congruence.
Qed.

Lemma same_for_destroy (a b : Request) (pk : Z) (db : DB) :
  user a <> user b -> wf db ->
  same_for (user a) db (fst (ExperimentViewSet.destroy b pk db)).
Proof.
  intros Hab (Hnd & _). unfold ExperimentViewSet.destroy. rewrite fst_bind.
  destruct (experiment_get_object_cases b pk db)
    as [(inst & Run & Hin & Hown & Hid)|(e & Run)]; rewrite Run;
    [|apply same_for_log_query].
  assert (Hkey : forall x, In x (experiment_rows db) -> exp_user x = user a ->
                           exp_id x <> exp_id inst).
  { intros x Hx Hxu. apply (foreign_experiment_key db); auto. congruence. }
  unfold Experiment_delete, execute. simpl fst.
  split; [|split].
  - unfold experiments_of. simpl. apply filter_filter_kept.
    intros r Hr Hru. apply Z.eqb_eq in Hru.
    apply negb_true_iff, Z.eqb_neq. auto.
  - intro m. destruct m; reflexivity.
  - intros m x t Hx. apply In_experiments_of in Hx. destruct Hx as [Hx Hxu].
    specialize (Hkey x Hx Hxu).
    destruct m; simpl; rewrite filter_In; simpl;
      (split; [tauto|]); intro H; (split; [exact H|]);
      apply negb_true_iff, Z.eqb_neq; exact Hkey.
Qed.

Lemma same_for_attr_update (a b : Request) (m : AttrModel) (pk : Z)
    (partial : bool) (payload : AttrSerializer.Payload) (db : DB) :
  user a <> user b -> wf db ->
  same_for (user a) db
    (fst (BaseExperimentAttrViewSet.update m b pk partial payload db)).
Proof.
  intros Hab (_ & _ & W3). unfold BaseExperimentAttrViewSet.update.
  rewrite fst_bind.
  destruct (attr_get_object_cases m b pk db)
    as [(inst & Run & Hin & Hown & Hid)|(e & Run)]; rewrite Run;
    [|apply same_for_log_query].
  rewrite fst_bind. unfold lift.
  destruct (AttrSerializer.validate partial payload) as [e|vd];
    [apply same_for_log_query|].
  unfold AttrSerializer.update. rewrite fst_bind.
  unfold Attr_save, execute. simpl fst.
  destruct (W3 m) as (Hnd & _).
  split; [|split].
  - destruct m; reflexivity.
  - intro m'. unfold attrs_of.
    destruct m, m'; try reflexivity;
      apply (filter_replace_by_key attr_id _ inst
               (mkAttr (attr_id inst) (attr_user inst)
                       (or_default vd (attr_name inst))));
      auto; simpl; apply Z.eqb_neq; congruence.
  - intros m' x t _. destruct m, m'; reflexivity.
Qed.

Lemma same_for_attr_destroy (a b : Request) (m : AttrModel) (pk : Z) (db : DB) :
  user a <> user b -> wf db -> consistent db ->
  same_for (user a) db (fst (BaseExperimentAttrViewSet.destroy m b pk db)).
Proof.
  intros Hab (Hnde & _ & W3) C. unfold BaseExperimentAttrViewSet.destroy.
  rewrite fst_bind.
  destruct (attr_get_object_cases m b pk db)
    as [(inst & Run & Hin & Hown & Hid)|(e & Run)]; rewrite Run;
    [|apply same_for_log_query].
  unfold Attr_delete, execute. simpl fst.
  destruct (W3 m) as (Hnd & _).
  split; [|split].
  - destruct m; reflexivity.
  - intro m'. unfold attrs_of.
    destruct m, m'; simpl; try reflexivity;
      apply filter_filter_kept; intros r Hr Hru; apply Z.eqb_eq in Hru;
      apply negb_true_iff, Z.eqb_neq; intro Heq;
      apply Hab; rewrite <- Hru, <- Hown;
      f_equal; eapply (NoDup_map_eq attr_id); eauto.
  - intros m' x t Hx. apply In_experiments_of in Hx. destruct Hx as [Hx Hxu].
    assert (Hnot : In (exp_id x, t) (links m db) -> t <> attr_id inst).
    { intros Hl Heq.
      destruct (C m _ _ Hl) as (y & r & Hy & Hye & Hr & Hra & Hru).
      assert (y = x) by (eapply (NoDup_map_eq exp_id); eauto).
      assert (r = inst) by (eapply (NoDup_map_eq attr_id); eauto; congruence).
      subst y r. apply Hab. congruence. }
    destruct m, m'; simpl; try reflexivity;
      rewrite filter_In; simpl;
      (split; [tauto|]); intro H; (split; [exact H|]);
      apply negb_true_iff, Z.eqb_neq; apply Hnot; exact H.
Qed.

Lemma same_for_perform (a b : Request) (action : Action) (db : DB) :
  user a <> user b -> wf db -> consistent db ->
  same_for (user a) db (perform b action db).
Proof.
  intros Hab W C. unfold perform.
  destruct action as [|payload|pk|pk partial payload|pk
                      |m|m pk partial payload|m pk]; simpl.
  - apply same_for_log_query.
  - apply same_for_create; assumption.
  - unfold ExperimentViewSet.retrieve.
    destruct (experiment_get_object_cases b pk db)
      as [(inst & Run & _)|(e & Run)]; rewrite Run; apply same_for_log_query.
  - apply same_for_update; assumption.
  - apply same_for_destroy; assumption.
  - apply same_for_log_query.
  - apply same_for_attr_update; assumption.
  - apply same_for_attr_destroy; assumption.
Qed.

(** X4. No request changes what another user has.  In a well-formed store
    whose associations stay within one owner, after any action of the
    requester [b] the experiments of another user [a] are the same rows, the
    tags and ingredients of [a] are the same rows, and the experiments of
    [a] have the same associations; so every query set of [a] is as
    before. *)
Theorem other_users_untouched (a b : Request) (action : Action) (db : DB)
    (Hab : user a <> user b) (W : wf db) (C : consistent db) :
  same_for (user a) db (perform b action db) /\
  ExperimentViewSet.get_queryset a (perform b action db)
  = ExperimentViewSet.get_queryset a db /\
  forall m,
    BaseExperimentAttrViewSet.get_queryset m a (perform b action db)
    = BaseExperimentAttrViewSet.get_queryset m a db.
Proof.
  pose proof (same_for_perform a b action db Hab W C) as S.
  split; [exact S|]. destruct S as (S1 & S2 & _). split.
  - unfold ExperimentViewSet.get_queryset, ExperimentViewSet.queryset.
    fold (experiments_of (user a) (perform b action db)).
    fold (experiments_of (user a) db). rewrite S1. reflexivity.
  - intro m.
    unfold BaseExperimentAttrViewSet.get_queryset,
      BaseExperimentAttrViewSet.queryset.
    fold (attrs_of m (user a) (perform b action db)).
    fold (attrs_of m (user a) db). rewrite S2. reflexivity.
Qed.

Lemma other_users_untouched_witness :
  user Samples.alice <> user Samples.bob /\
  wf Samples.db_two_users /\ consistent Samples.db_two_users /\
  same_for (user Samples.alice) Samples.db_two_users
    (perform Samples.bob
       (ExperimentUpdate 2 true (Samples.tags_payload [Samples.tag "Salt"]))
       Samples.db_two_users).
Proof.
  assert (Hab : user Samples.alice <> user Samples.bob) by discriminate.
  destruct (reachable_invariants _ db_two_users_reachable) as [W C].
  split; [exact Hab|]. split; [exact W|]. split; [exact C|].
  apply (other_users_untouched Samples.alice Samples.bob _ _ Hab W C).
Defined.

(** ** What the owner gets *)

Lemma get_one_by_key {A} (key : A -> Z) (l : list A) (x : A) :
  NoDup (map key l) -> In x l ->
  get_one (filter (fun r => key r =? key x) l) = inr x.
Proof.
  intros Hnd Hin.
  assert (H : filter (fun r => key r =? key x) l = [x]).
  { induction l as [|r l IH]; [destruct Hin|].
    simpl in Hnd. inversion Hnd as [|? ? Hnotin Hnd']; subst.
    simpl. destruct Hin as [->|Hin].
    - rewrite Z.eqb_refl. f_equal. apply filter_none.
      intros y Hy. apply Z.eqb_neq. intro E. apply Hnotin.
      rewrite <- E. apply in_map, Hy.
    - replace (key r =? key x) with false; [apply IH; assumption|].
      symmetry. apply Z.eqb_neq. intro E. apply Hnotin.
      rewrite E. apply in_map, Hin. }
  rewrite H. reflexivity.
Qed.

Lemma NoDup_map_order_by_filter {A} (key : A -> Z) (le : A -> A -> bool)
    (P : A -> bool) (l : list A) :
  NoDup (map key l) -> NoDup (map key (order_by le (filter P l))).
Proof.
  intro H.
  eapply Permutation_NoDup;
    [apply Permutation_map, order_by_perm|apply NoDup_map_filter, H].
Qed.

Lemma experiment_get_object_own (request : Request) (db : DB) (x : Experiment) :
  NoDup (map exp_id (experiment_rows db)) ->
  In x (experiment_rows db) -> exp_user x = user request ->
  ExperimentViewSet.get_object request (exp_id x) db =
  (log_query (QSelectExperiment (exp_id x)) db, inr x).
Proof.
  intros Hnd Hin Hown.
  unfold ExperimentViewSet.get_object, or_404, try_except, Experiment_get.
  rewrite (get_one_by_key exp_id); [reflexivity| |].
  - apply NoDup_map_order_by_filter, Hnd.
  - apply In_experiment_queryset. auto.
Qed.

Lemma attr_get_object_own (m : AttrModel) (request : Request) (db : DB)
    (r : Attr) :
  NoDup (map attr_id (attr_rows m db)) ->
  In r (attr_rows m db) -> attr_user r = user request ->
  BaseExperimentAttrViewSet.get_object m request (attr_id r) db =
  (log_query (QSelectAttrPk m (attr_id r)) db, inr r).
Proof.
  intros Hnd Hin Hown.
  unfold BaseExperimentAttrViewSet.get_object, or_404, try_except, Attr_get_pk.
  rewrite (get_one_by_key attr_id); [reflexivity| |].
  - apply NoDup_map_order_by_filter, Hnd.
  - apply In_attr_queryset. auto.
Qed.

(** A create request that succeeds has stored its result as the last row,
    under the next key of the sequence, owned by the requester. *)
Lemma view_create_success (request : Request) (payload : Payload)
    (db db' : DB) (e : Experiment) :
  ExperimentViewSet.create request payload db = (db', inr e) ->
  experiment_rows db' = experiment_rows db ++ [e] /\
  exp_id e = experiment_seq db /\
  exp_user e = user request /\
  set_by payload e.
Proof.
  intro Hrun. rewrite view_create_cases in Hrun.
  destruct (validate false payload) as [x|vd] eqn:V; [discriminate Hrun|].
  destruct (validate_fields false payload vd V) as [-> Hreq].
  destruct (Hreq eq_refl) as [Ht Hp].
  destruct (serializer_create_effect request
              (with_user (user request)
                 (mkValidated
                    (mkKwargs None (p_title payload) (p_time_minutes payload)
                       (p_price payload) (p_link payload)
                       (p_description payload))
                    (p_tags payload) (p_ingredients payload))) db)
    as (db2 & res & qs & Run & _ & _ & _ & Hrow).
  rewrite Run in Hrun. injection Hrun as -> ->.
  simpl in Hrow.
  destruct (p_time_minutes payload) as [t|] eqn:Et; [|discriminate].
  destruct (p_price payload) as [p|] eqn:Ep; [|discriminate].
  destruct Hrow as (Hrows & _ & [Hres|Hres] & _); [|discriminate Hres].
  injection Hres as Hres. subst e.
  split; [exact Hrows|]. split; [reflexivity|]. split; [reflexivity|].
  unfold set_by. simpl.
  repeat split; intros v Hv; try (rewrite Hv; reflexivity); congruence.
Qed.

(** An update request that succeeds has stored its result under the key,
    owned by the requester. *)
Lemma view_update_success (request : Request) (pk : Z) (partial : bool)
    (payload : Payload) (db db' : DB) (inst' : Experiment) :
  ExperimentViewSet.update request pk partial payload db = (db', inr inst') ->
  In inst' (experiment_rows db') /\
  exp_id inst' = pk /\
  exp_user inst' = user request.
Proof.
  intro H. rewrite view_update_cases in H.
  destruct (get_one _) as [e|instance] eqn:G.
  { destruct e; discriminate H. }
  apply get_one_In, filter_In in G. destruct G as [G Hid].
  apply In_experiment_queryset in G. destruct G as [Hin Hown].
  apply Z.eqb_eq in Hid.
  destruct (validate partial payload) as [e|vd] eqn:V; [discriminate H|].
  destruct (validate_fields partial payload vd V) as [-> _].
  destruct (serializer_update_effect request instance
              (mkValidated
                 (mkKwargs None (p_title payload) (p_time_minutes payload)
                    (p_price payload) (p_link payload)
                    (p_description payload))
                 (p_tags payload) (p_ingredients payload))
              (log_query (QSelectExperiment pk) db))
    as (db2 & res & Run & _ & _ & Hexp & _).
  rewrite Run in H. injection H as -> ->.
  simpl in Hexp. destruct Hexp as [[Hres Hrows]|[Hres _]];
    [|discriminate Hres].
  injection Hres as ->. split; [|split; [exact Hid|exact Hown]].
  rewrite Hrows. apply in_map_iff. exists instance. split; [|exact Hin].
  simpl. rewrite Z.eqb_refl. reflexivity.
Qed.

(** X5. The owner reads back what is stored: in a well-formed store, the
    detail request of the owner on the key of one of its experiments
    returns that very row (status 200) and changes no table; and an
    experiment that a create or an update request returned is retrieved by
    its key, which for a created one is a key that no row had before. *)
Theorem owner_reads_back (request : Request) (db : DB) (W : wf db) :
  (forall x,
      In x (experiment_rows db) -> exp_user x = user request ->
      snd (ExperimentViewSet.retrieve request (exp_id x) db) = inr x /\
      data (fst (ExperimentViewSet.retrieve request (exp_id x) db)) = data db /\
      snd (respond request (ExperimentRetrieve (exp_id x)) db) = 200) /\
  (forall payload db' e,
      ExperimentViewSet.create request payload db = (db', inr e) ->
      snd (ExperimentViewSet.retrieve request (exp_id e) db') = inr e /\
      ~ In (exp_id e) (map exp_id (experiment_rows db))) /\
  (forall pk partial payload db' e,
      ExperimentViewSet.update request pk partial payload db = (db', inr e) ->
      snd (ExperimentViewSet.retrieve request pk db') = inr e).
Proof.
  split; [|split].
  - intros x Hin Hown. unfold respond, ExperimentViewSet.retrieve.
    rewrite (experiment_get_object_own request db x (proj1 W) Hin Hown).
    simpl. auto.
  - intros payload db' e Hrun.
    destruct (view_create_success _ _ _ _ _ Hrun) as (Hrows & Hid & Hown & _).
    assert (W' : wf db').
    { pose proof (perform_keeps_wf request (ExperimentCreate payload) db W) as H.
      unfold perform in H. simpl in H. rewrite Hrun in H. exact H. }
    split.
    + unfold ExperimentViewSet.retrieve.
      rewrite (experiment_get_object_own request db' e (proj1 W')); auto.
      rewrite Hrows. apply in_or_app. right. left. reflexivity.
    + destruct W as (_ & Hlt & _). rewrite Forall_forall in Hlt.
      intro Hin. specialize (Hlt _ Hin). lia.
  - intros pk partial payload db' e Hrun.
    destruct (view_update_success _ _ _ _ _ _ _ Hrun) as (Hin & Hid & Hown).
    assert (W' : wf db').
    { pose proof (perform_keeps_wf request
                    (ExperimentUpdate pk partial payload) db W) as H.
      unfold perform in H. simpl in H. rewrite Hrun in H. exact H. }
    unfold ExperimentViewSet.retrieve. rewrite <- Hid.
    rewrite (experiment_get_object_own request db' e (proj1 W') Hin Hown).
    reflexivity.
Qed.

Lemma owner_reads_back_witness :
  wf Samples.db_two_users /\
  snd (ExperimentViewSet.retrieve Samples.alice
         (exp_id Samples.alice_experiment) Samples.db_two_users)
  = inr Samples.alice_experiment.
Proof.
  destruct (reachable_invariants _ db_two_users_reachable) as [W _].
  split; [exact W|].
  assert (Hin : In Samples.alice_experiment
                   (experiment_rows Samples.db_two_users))
    by (vm_compute; left; reflexivity).
  exact (proj1 (proj1 (owner_reads_back Samples.alice Samples.db_two_users W)
                  Samples.alice_experiment Hin eq_refl)).
Defined.

(** X6. The delete request of the owner on one of its experiments succeeds
    with status 204.  It removes that row and no other, removes all the
    associations of that experiment and none of another, and deletes no tag
    and no ingredient; afterwards the key is not found. *)
Theorem owner_destroys_experiment (request : Request) (db : DB)
    (x : Experiment) (W : wf db)
    (Hin : In x (experiment_rows db)) (Hown : exp_user x = user request) :
  let out := ExperimentViewSet.destroy request (exp_id x) db in
  snd out = inr tt /\
  snd (respond request (ExperimentDestroy (exp_id x)) db) = 204 /\
  ~ In x (experiment_rows (fst out)) /\
  (forall y, y <> x ->
     (In y (experiment_rows (fst out)) <-> In y (experiment_rows db))) /\
  (forall m a, ~ In (exp_id x, a) (links m (fst out))) /\
  other_links_kept (exp_id x) db (fst out) /\
  attrs_kept db (fst out) /\
  not_found (ExperimentViewSet.retrieve request (exp_id x)) (fst out).
Proof.
  intro out. subst out. unfold respond.
  unfold ExperimentViewSet.destroy, bind.
  rewrite (experiment_get_object_own request db x (proj1 W) Hin Hown).
  unfold Experiment_delete, execute. simpl fst. simpl snd.
  split; [reflexivity|]. split; [reflexivity|].
  assert (Hrows : forall y,
             In y (filter (fun r => negb (exp_id r =? exp_id x))
                          (experiment_rows db)) <->
             In y (experiment_rows db) /\ exp_id y <> exp_id x).
  { intro y. rewrite filter_In, negb_true_iff, Z.eqb_neq. reflexivity. }
  split; [|split; [|split; [|split; [|split]]]].
  - simpl. rewrite Hrows. intros [_ H]. apply H. reflexivity.
  - intros y Hy. simpl. rewrite Hrows. split; [tauto|].
    intro Hyin. split; [exact Hyin|]. intro E. apply Hy.
    eapply (NoDup_map_eq exp_id); eauto. apply W.
  - intros m a. destruct m; simpl; rewrite filter_In; simpl;
      rewrite Z.eqb_refl; intros [_ H]; discriminate H.
  - intros m e a He. destruct m; simpl; rewrite filter_In; simpl;
      (split; [tauto|]); intro H; (split; [exact H|]);
      apply negb_true_iff, Z.eqb_neq; exact He.
  - intro m. destruct m; reflexivity.
  - apply experiment_detail_not_found.
    intros y Hy _ E. simpl in Hy. apply Hrows in Hy. tauto.
Qed.

Lemma owner_destroys_experiment_witness :
  wf Samples.db_two_users /\
  In Samples.alice_experiment (experiment_rows Samples.db_two_users) /\
  snd (ExperimentViewSet.destroy Samples.alice
         (exp_id Samples.alice_experiment) Samples.db_two_users)
  = inr tt.
Proof.
  destruct (reachable_invariants _ db_two_users_reachable) as [W _].
  assert (Hin : In Samples.alice_experiment
                   (experiment_rows Samples.db_two_users))
    by (vm_compute; left; reflexivity).
  split; [exact W|]. split; [exact Hin|].
  pose proof (owner_destroys_experiment Samples.alice Samples.db_two_users
                Samples.alice_experiment W Hin eq_refl) as H.
  cbv zeta in H. exact (proj1 H).
Defined.

(** ** When the reconciler raises *)

Lemma named_length_grows m u e ns db db' n :
  grows m u e ns db db' ->
  (List.length (named m u n db) <= List.length (named m u n db'))%nat.
Proof.
  intros (_ & _ & _ & _ & (c & R & _) & _).
  rewrite (named_app_rows m u n _ _ c R), length_app. lia.
Qed.

Lemma reconcile_success_unambiguous m u e l :
  forall db db',
    reconcile m u l e db = (db', inr tt) -> unambiguous m u l db.
Proof.
  induction l as [|d l IH]; intros db db' Hrun n Hn; [destruct Hn|].
  rewrite reconcile_cons in Hrun.
  destruct (reconcile_step m u e (d_name d) db)
    as (db1 & res & Run & G & _ & Herr).
  rewrite Run in Hrun.
  destruct res as [x|[]]; [discriminate Hrun|].
  destruct Hn as [<-|Hn].
  - destruct (le_lt_dec (List.length (named m u (d_name d) db)) 1) as [H|H];
      [exact H|].
    destruct (Herr H) as [E _]. discriminate E.
  - eapply Nat.le_trans; [eapply named_length_grows, G|].
    apply (IH db1 db' Hrun n Hn).
Qed.

(** X7. [_get_or_create_tags] and [_get_or_create_ingredients] succeed
    exactly when no submitted name is carried by two rows of the requester
    in the store they start from; otherwise they raise
    [MultipleObjectsReturned], and nothing else. *)
Theorem reconciler_succeeds_iff (m : AttrModel) (request : Request)
    (l : list descriptor) (e : Experiment) (db : DB) :
  (snd (get_or_create_attrs m request l e db) = inr tt <->
   unambiguous m (user request) l db) /\
  (snd (get_or_create_attrs m request l e db) = inr tt \/
   snd (get_or_create_attrs m request l e db) = inl MultipleObjectsReturned).
Proof.
  rewrite get_or_create_attrs_reconcile. split; [split|].
  - intro H.
    destruct (reconcile m (user request) l e db) as [db' res] eqn:Run.
    simpl in H. subst res.
    eapply reconcile_success_unambiguous, Run.
  - intro Hun.
    destruct (reconcile_ok m (user request) e l db Hun) as (db' & Run & _).
    rewrite Run. reflexivity.
  - destruct (reconcile_grows m (user request) e l db)
      as (db' & res & Run & _ & Hres).
    rewrite Run. exact Hres.
Qed.

Lemma reconciler_succeeds_iff_witness :
  unambiguous Tag (user Samples.alice) [Samples.tag "Night"] Samples.db_two_users
  /\
  snd (get_or_create_attrs Tag Samples.alice [Samples.tag "Night"]
         Samples.alice_experiment Samples.db_two_users) = inr tt.
Proof.
  assert (Hun : unambiguous Tag (user Samples.alice) [Samples.tag "Night"]
                  Samples.db_two_users).
  { intros n [<-|[]]. vm_compute. lia. }
  split; [exact Hun|].
  exact (proj2 (proj1 (reconciler_succeeds_iff Tag Samples.alice
                         [Samples.tag "Night"] Samples.alice_experiment
                         Samples.db_two_users)) Hun).
Defined.

(** ** Tags and ingredients of the owner *)


Lemma attr_rows_Attr_delete (m m' : AttrModel) (inst : Attr) (db : DB) :
  attr_rows m' (fst (Attr_delete m inst db)) =
  if AttrModel_eq_dec m m'
  then filter (fun r => negb (attr_id r =? attr_id inst)) (attr_rows m db)
  else attr_rows m' db.
Proof. destruct m, m'; reflexivity. Qed.

Lemma links_Attr_delete (m m' : AttrModel) (inst : Attr) (db : DB) :
  links m' (fst (Attr_delete m inst db)) =
  if AttrModel_eq_dec m m'
  then filter (fun p => negb (snd p =? attr_id inst)) (links m db)
  else links m' db.
Proof. destruct m, m'; reflexivity. Qed.





(** X9. The delete request of the owner on one of its tags or ingredients
    succeeds with status 204.  It removes that row and no other, removes
    the associations with that attribute and no other, and leaves the
    experiments and the other attribute table as they are: no experiment
    shows the attribute any more. *)
Theorem owner_destroys_attribute (m : AttrModel) (request : Request) (db : DB)
    (r : Attr) (W : wf db)
    (Hin : In r (attr_rows m db)) (Hown : attr_user r = user request) :
  let out := BaseExperimentAttrViewSet.destroy m request (attr_id r) db in
  snd out = inr tt /\
  snd (respond request (AttrDestroy m (attr_id r)) db) = 204 /\
  ~ In r (attr_rows m (fst out)) /\
  (forall y, y <> r ->
     (In y (attr_rows m (fst out)) <-> In y (attr_rows m db))) /\
  (forall e a,
     In (e, a) (links m (fst out)) <->
     In (e, a) (links m db) /\ a <> attr_id r) /\
  (forall m', m' <> m ->
     attr_rows m' (fst out) = attr_rows m' db /\
     links m' (fst out) = links m' db) /\
  experiments_kept db (fst out) /\
  (forall e y, In y (related_all m e (fst out)) ->
     y <> r /\ In y (related_all m e db)).
Proof.
  intro out. subst out. unfold respond.
  unfold BaseExperimentAttrViewSet.destroy, bind.
  destruct W as (_ & _ & W3). destruct (W3 m) as (Hnd & _).
  rewrite (attr_get_object_own m request db r Hnd Hin Hown).
  set (db0 := log_query (QSelectAttrPk m (attr_id r)) db).
  destruct (Attr_delete m r db0) as [db' [x|[]]] eqn:Run;
    [unfold Attr_delete, execute in Run; discriminate Run|].
  assert (Hdb : db' = fst (Attr_delete m r db0)) by (rewrite Run; reflexivity).
  simpl snd. simpl fst.
  assert (Hrows : forall y, In y (attr_rows m db') <->
                            In y (attr_rows m db) /\ attr_id y <> attr_id r).
  { intro y. rewrite Hdb, attr_rows_Attr_delete.
    destruct (AttrModel_eq_dec m m) as [_|N]; [|congruence].
    rewrite filter_In, negb_true_iff, Z.eqb_neq.
    destruct m; reflexivity. }
  assert (Hlinks : forall e a, In (e, a) (links m db') <->
                               In (e, a) (links m db) /\ a <> attr_id r).
  { intros e a. rewrite Hdb, links_Attr_delete.
    destruct (AttrModel_eq_dec m m) as [_|N]; [|congruence].
    rewrite filter_In, negb_true_iff, Z.eqb_neq.
    destruct m; reflexivity. }
  split; [reflexivity|]. split; [reflexivity|].
  split; [|split; [|split; [exact Hlinks|split; [|split]]]].
  - rewrite Hrows. intros [_ H]. apply H. reflexivity.
  - intros y Hy. rewrite Hrows. split; [tauto|].
    intro Hyin. split; [exact Hyin|]. intro E. apply Hy.
    eapply (NoDup_map_eq attr_id); eauto.
  - intros m' Hne. rewrite Hdb, attr_rows_Attr_delete, links_Attr_delete.
    destruct (AttrModel_eq_dec m m') as [E|_]; [congruence|].
    destruct m'; split; reflexivity.
  - rewrite Hdb. destruct m; reflexivity.
  - intros e y Hy. unfold related_all in *.
    apply filter_In in Hy. destruct Hy as [Hy He].
    apply Hrows in Hy. destruct Hy as [Hy Hid].
    split; [congruence|].
    apply filter_In. split; [exact Hy|].
    apply existsb_exists in He. destruct He as (p & Hp & Heq).
    apply pair_eqb_true in Heq. subst p. apply Hlinks in Hp.
    apply existsb_exists. exists (exp_id e, attr_id y).
    split; [tauto|apply pair_eqb_true; reflexivity].
Qed.

Lemma owner_destroys_attribute_witness :
  wf Samples.db_two_users /\
  In (mkAttr 1 1 "Night") (attr_rows Tag Samples.db_two_users) /\
  snd (BaseExperimentAttrViewSet.destroy Tag Samples.alice
         (attr_id (mkAttr 1 1 "Night")) Samples.db_two_users)
  = inr tt.
Proof.
  destruct (reachable_invariants _ db_two_users_reachable) as [W _].
  assert (Hin : In (mkAttr 1 1 "Night") (attr_rows Tag Samples.db_two_users))
    by (vm_compute; left; reflexivity).
  split; [exact W|]. split; [exact Hin|].
  pose proof (owner_destroys_attribute Tag Samples.alice Samples.db_two_users
                (mkAttr 1 1 "Night") W Hin eq_refl) as H.
  cbv zeta in H. exact (proj1 H).
Defined.

(** ** A name that two rows carry *)




(** ** What the responses show *)


Lemma In_related_all m e db r :
  In r (related_all m e db) <->
  In r (attr_rows m db) /\ In (exp_id e, attr_id r) (links m db).
Proof.
  unfold related_all. rewrite filter_In, existsb_exists. split.
  - intros (Hr & p & Hp & Heq). apply pair_eqb_true in Heq. subst p. auto.
  - intros (Hr & Hp). split; [exact Hr|].
    exists (exp_id e, attr_id r). split; [exact Hp|].
    apply pair_eqb_true. reflexivity.
Qed.





(** An experiment shows rows of its owner only. *)
Lemma related_all_own (m : AttrModel) (db : DB) (x : Experiment) (r : Attr) :
  wf db -> consistent db ->
  In x (experiment_rows db) -> In r (related_all m x db) ->
  attr_user r = exp_user x.
Proof.
  intros (Hnde & _ & W3) C Hx Hr. destruct (W3 m) as (Hnd & _).
  apply In_related_all in Hr. destruct Hr as [Hr Hl].
  destruct (C m _ _ Hl) as (y & r0 & Hy & Hye & Hr0 & Hid & Hu).
  assert (y = x) by (eapply (NoDup_map_eq exp_id); eauto).
  assert (r0 = r) by (eapply (NoDup_map_eq attr_id); eauto).
  subst y r0. exact Hu.
Qed.

Lemma related_all_same_for (m : AttrModel) (u : UserId) (db db' : DB)
    (x : Experiment) :
  wf db -> consistent db -> wf db' -> consistent db' ->
  same_for u db db' -> In x (experiments_of u db) ->
  related_all m x db' = related_all m x db.
Proof.
  intros W C W' C' (S1 & S2 & S3) Hx.
  assert (Hx' : In x (experiments_of u db')) by (rewrite S1; exact Hx).
  pose proof (proj1 (In_experiments_of u db x) Hx) as [Hxr Hxu].
  pose proof (proj1 (In_experiments_of u db' x) Hx') as [Hxr' _].
  assert (Own : forall d, wf d -> consistent d -> In x (experiment_rows d) ->
            related_all m x d =
            filter (fun r => existsb (pair_eqb (exp_id x, attr_id r)) (links m d))
                   (attrs_of m u d)).
  { intros d Wd Cd Hd. unfold related_all, attrs_of. symmetry.
    apply filter_filter_kept. intros r Hr He.
    apply Z.eqb_eq. rewrite <- Hxu.
    apply (related_all_own m d x r Wd Cd Hd).
    unfold related_all. apply filter_In. auto. }
  rewrite (Own db W C Hxr), (Own db' W' C' Hxr'), S2.
  apply filter_ext. intro r.
  apply eq_true_iff_eq. rewrite !existsb_exists.
  split; intros (p & Hp & Heq); apply pair_eqb_true in Heq; subst p;
    exists (exp_id x, attr_id r);
    (split; [apply (S3 m x (attr_id r) Hx); exact Hp
            |apply pair_eqb_true; reflexivity]).
Qed.

(** X12. No request changes what another user is shown.  In a well-formed
    store with its associations within one owner, after any action of the
    requester [b], another user [a] gets the same data from every list
    request (experiments with their nested tags and ingredients, tags,
    ingredients) and the same experiment with the same data from every
    detail request on one of its experiments. *)
Theorem responses_of_others_unchanged (a b : Request) (action : Action)
    (db : DB) (Hab : user a <> user b) (W : wf db) (C : consistent db) :
  list_data a (perform b action db) = list_data a db /\
  (forall m,
      attr_list_data m a (perform b action db) = attr_list_data m a db) /\
  (forall x,
      In x (experiments_of (user a) db) ->
      snd (ExperimentViewSet.retrieve a (exp_id x) (perform b action db))
      = inr x /\
      detail_data "retrieve" (perform b action db) x
      = detail_data "retrieve" db x).
Proof.
  pose proof (same_for_perform a b action db Hab W C) as S.
  pose proof (perform_keeps_wf b action db W) as W'.
  pose proof (perform_keeps_consistent b action db W C) as C'.
  set (db' := perform b action db) in *.
  assert (Hrel : forall m x, In x (experiments_of (user a) db) ->
                             related_all m x db' = related_all m x db).
  { intros m x Hx. apply (related_all_same_for m (user a)); assumption. }
  assert (Hrepr : forall cls x, In x (experiments_of (user a) db) ->
                    to_representation cls db' x = to_representation cls db x).
  { intros cls x Hx. unfold to_representation. apply map_ext. intro field.
    unfold experiment_attribute.
    rewrite (Hrel Tag x Hx), (Hrel Ingredient x Hx). reflexivity. }
  destruct S as (S1 & S2 & S3).
  assert (Q : ExperimentViewSet.get_queryset a db'
              = ExperimentViewSet.get_queryset a db).
  { unfold ExperimentViewSet.get_queryset, ExperimentViewSet.queryset.
    fold (experiments_of (user a) db'). fold (experiments_of (user a) db).
    rewrite S1. reflexivity. }
  split; [|split].
  - unfold list_data. rewrite Q. apply map_ext_in.
    intros x Hx. apply Hrepr. apply In_experiments_of.
    apply In_experiment_queryset in Hx. exact Hx.
  - intro m. unfold attr_list_data.
    unfold BaseExperimentAttrViewSet.get_queryset,
      BaseExperimentAttrViewSet.queryset.
    fold (attrs_of m (user a) db'). fold (attrs_of m (user a) db).
    rewrite S2. reflexivity.
  - intros x Hx. split; [|apply Hrepr, Hx].
    assert (Hx' : In x (experiments_of (user a) db')) by (rewrite S1; exact Hx).
    apply In_experiments_of in Hx'. destruct Hx' as [Hxr Hxu].
    unfold ExperimentViewSet.retrieve.
    rewrite (experiment_get_object_own a db' x (proj1 W') Hxr Hxu).
    reflexivity.
Qed.

Lemma responses_of_others_unchanged_witness :
  user Samples.alice <> user Samples.bob /\
  wf Samples.db_two_users /\ consistent Samples.db_two_users /\
  list_data Samples.alice
    (perform Samples.bob (AttrDestroy Tag 3) Samples.db_two_users)
  = list_data Samples.alice Samples.db_two_users.
Proof.
  assert (Hab : user Samples.alice <> user Samples.bob) by discriminate.
  destruct (reachable_invariants _ db_two_users_reachable) as [W C].
  split; [exact Hab|]. split; [exact W|]. split; [exact C|].
  exact (proj1 (responses_of_others_unchanged Samples.alice Samples.bob
                  (AttrDestroy Tag 3) Samples.db_two_users Hab W C)).
Defined.
